(** * zgrab: instrumented TLS handshake log and connection upgrade

    A shallow embedding of

    - the handshake-log helpers of package [ztls]
      ([DHParams.unmarshal], [ServerHandshake.setSkx],
      [ExportSignatureAlgorithm.MarshalJSON], the [MakeLog] conversions the
      key-exchange log goes through), and
    - the connection wrapper of package [zlib] ([Conn] in [conn.go]:
      [TLSHandshake], the STARTTLS upgrades, [CheckHeartbleed], the
      pass-through operations, the HTTP exchange and the Modbus probe),

    followed by the properties established about them. *)

From Stdlib Require Import ZArith List Bool Lia String Ascii DecimalString.
From Stdlib Require Import Strings.Byte.
Import ListNotations.

Local Open Scope Z_scope.

(* ===================================================================== *)
(** * Go values                                                            *)
(* ===================================================================== *)

(** A Go computation either returns or panics at run time (index or slice
    bounds out of range, nil dereference). *)
Inductive go (A : Type) : Type :=
| Ret (a : A)
| Panic (msg : string).
Arguments Ret {A} a.
Arguments Panic {A} msg.

Definition go_bind {A B : Type} (m : go A) (k : A -> go B) : go B :=
  match m with
  | Ret a => k a
  | Panic msg => Panic msg
  end.

Declare Scope go_scope.
Delimit Scope go_scope with go.
Notation "x <- m ;; k" := (go_bind m (fun x => k))
  (at level 61, m at next level, right associativity) : go_scope.

(** A Go [error] value that is not nil: one built by [errors.New] or
    [fmt.Errorf] (compared by identity in Go, so never equal to a sentinel),
    or one of the two sentinels of package [ztls] the wrapper tests for. *)
Inductive error : Type :=
| errorString (text : string)
| ErrUnimplementedCipher
| HeartbleedError.

(** Values built by collaborators outside these files (the HTTP exchange,
    the SSH and FTP logs, the Modbus event, the heartbleed log, a CA pool):
    the code stores and forwards them and never looks inside. *)
Inductive foreign : Type :=
| Foreign (id : Z).

Module Slice.

(** [[]byte] as a list of bytes.  The capacity of a Go slice is at least
    its length; the model takes it equal to the length, so every slice
    expression that panics in Go panics here as well. *)
Definition bytes := list byte.

Definition byteZ (b : byte) : Z := Z.of_N (Byte.to_N b).

(** The conversion [byte(x)] of an integer: the low eight bits. *)
Definition byte_of_Z (x : Z) : byte :=
  match Byte.of_N (Z.to_N (Z.land x 255)) with
  | Some b => b
  | None => x00
  end.

Definition len {A : Type} (s : list A) : Z := Z.of_nat (List.length s).

(** [s[lo:]] *)
Definition from {A : Type} (s : list A) (lo : Z) : go (list A) :=
  if (0 <=? lo) && (lo <=? len s)
  then Ret (skipn (Z.to_nat lo) s)
  else Panic "slice bounds out of range".

(** [s[0:hi]] *)
Definition upto {A : Type} (s : list A) (hi : Z) : go (list A) :=
  if (0 <=? hi) && (hi <=? len s)
  then Ret (firstn (Z.to_nat hi) s)
  else Panic "slice bounds out of range".

(** [make([]byte, len(src)); copy(dst, src)] *)
Definition clone {A : Type} (src : list A) : list A :=
  firstn (List.length src) src.

End Slice.

Module BigEndian.

Import Slice.

(** [binary.BigEndian.Uint16]:
    [_ = b[1]; return uint16(b[1]) | uint16(b[0])<<8] *)
Definition Uint16 (b : bytes) : go Z :=
  match b with
  | b0 :: b1 :: _ => Ret (Z.lor (byteZ b1) (Z.shiftl (byteZ b0) 8))
  | _ => Panic "index out of range"
  end.

End BigEndian.

Module Big.

Import Slice.

(** [big.Int.SetBytes]: the bytes are the big-endian digits, base 256, of
    an unsigned integer of any size. *)
Definition SetBytes (buf : bytes) : Z :=
  fold_left (fun acc b => acc * 256 + byteZ b) buf 0.

(** The magnitude written positionally: the first byte is the most
    significant digit. *)
Fixpoint magnitude (buf : bytes) : Z :=
  match buf with
  | [] => 0
  | b :: rest => byteZ b * 256 ^ len rest + magnitude rest
  end.

(** [big.Int.BitLen]: the length of the absolute value in bits, 0 for 0. *)
Definition BitLen (x : Z) : Z :=
  if x =? 0 then 0 else Z.log2 (Z.abs x) + 1.

(** [big.Int.Bytes]: the absolute value as a big-endian byte slice,
    without leading zero bytes. *)
Definition Bytes (x : Z) : bytes :=
  let n := Z.to_nat ((BitLen x + 7) / 8) in
  map (fun i => byte_of_Z (Z.abs x / 256 ^ Z.of_nat (n - 1 - i)))
      (seq 0 n).

End Big.

(* ===================================================================== *)
(** * Package ztls: the handshake log                                      *)
(* ===================================================================== *)

Module ztls.

Import Slice.
Local Open Scope go_scope.

Definition uint16 := Z.

(** [type DHParams struct { P, G, Ys *big.Int }]; [None] is the nil
    pointer. *)
Record DHParams : Type := mkDHParams {
  P : option Z;
  G : option Z;
  Ys : option Z
}.

Definition newDHParams : DHParams := mkDHParams None None None.

Definition set_P (p : DHParams) (v : Z) := mkDHParams (Some v) (G p) (Ys p).
Definition set_G (p : DHParams) (v : Z) := mkDHParams (P p) (Some v) (Ys p).
Definition set_Ys (p : DHParams) (v : Z) := mkDHParams (P p) (G p) (Some v).

(** [func (p *DHParams) unmarshal(buf []byte) bool].  The receiver is
    updated in place, so the parameters written before a failing step stay
    written: the function returns the receiver together with the flag. *)
Definition unmarshal (p : DHParams) (buf : bytes) : go (DHParams * bool) :=
  if len buf <? 2 then Ret (p, false) else
  pLength <- BigEndian.Uint16 buf ;;
  buf <- from buf 2 ;;
  if len buf <? pLength then Ret (p, false) else
  pBytes <- upto buf pLength ;;
  buf <- from buf pLength ;;
  let p := set_P p (Big.SetBytes pBytes) in
  if len buf <? 2 then Ret (p, false) else
  gLength <- BigEndian.Uint16 buf ;;
  buf <- from buf 2 ;;
  if len buf <? gLength then Ret (p, false) else
  gBytes <- upto buf gLength ;;
  buf <- from buf gLength ;;
  let p := set_G p (Big.SetBytes gBytes) in
  if len buf <? 2 then Ret (p, false) else
  ysLength <- BigEndian.Uint16 buf ;;
  buf <- from buf 2 ;;
  if len buf <? ysLength then Ret (p, false) else
  ysBytes <- upto buf ysLength ;;
  let p := set_Ys p (Big.SetBytes ysBytes) in
  Ret (p, true).

(** The raw key-exchange message; only its [key] is read here. *)
Record serverKeyExchangeMsg : Type := mkServerKeyExchangeMsg {
  skx_raw : bytes;
  skx_key : bytes
}.

Record ServerKeyExchange : Type := mkServerKeyExchange {
  Key : bytes
}.

(** [func (m *serverKeyExchangeMsg) MakeLog() *ServerKeyExchange] *)
Definition skx_MakeLog (m : serverKeyExchangeMsg) : ServerKeyExchange :=
  mkServerKeyExchange (clone (skx_key m)).

(** The fields of [rsaExportParams] that [MakeLog] reads. *)
Record rsaExportParams : Type := mkRsaExportParams {
  rawModulus : bytes;
  rawExponent : bytes
}.

Record rsaPublicKey : Type := mkRsaPublicKey {
  pk_N : Z;
  pk_E : Z
}.

Record RSAExportParams : Type := mkRSAExportParams {
  PublicKey : rsaPublicKey;
  Modulus : bytes;
  Exponent : Z;
  Length : Z
}.

(** [func (p *rsaExportParams) MakeLog() *RSAExportParams]; the exponent is
    a [uint32], so the shift drops what leaves the 32 bits. *)
Definition rsa_MakeLog (p : rsaExportParams) : RSAExportParams :=
  let exponent :=
    fold_left (fun exponent b =>
                 Z.lor (Z.shiftl exponent 8 mod 2 ^ 32) (byteZ b))
              (rawExponent p) 0 in
  let modulus := Big.SetBytes (rawModulus p) in
  mkRSAExportParams (mkRsaPublicKey modulus exponent)
                    (Big.Bytes modulus) exponent (Big.BitLen modulus).

(** The hello, certificate and finished records are carried by the log
    and not inspected by the functions below. *)
Record ServerHello : Type := mkServerHello {
  Version : uint16;
  Random : bytes;
  SessionID : bytes;
  CipherSuite : uint16;
  CompressionMethod : Z;
  OcspStapling : bool;
  TicketSupported : bool;
  SecureRenegotiation : bool;
  HeartbeatSupported : bool
}.

Record Certificates : Type := mkCertificates {
  Certificates_raw : list bytes
}.

Record Finished : Type := mkFinished {
  VerifyData : bytes
}.

(** [type ServerHandshake struct]; every field is a pointer, [None] is
    nil (and, for the three parameter fields, omitted from the JSON). *)
Record ServerHandshake : Type := mkServerHandshake {
  hs_ServerHello : option ServerHello;
  hs_ServerCertificates : option Certificates;
  hs_ServerKeyExchange : option ServerKeyExchange;
  hs_RSAExportParams : option RSAExportParams;
  hs_DHExportParams : option DHParams;
  hs_DHParams : option DHParams;
  hs_ServerFinished : option Finished
}.

Definition newServerHandshake : ServerHandshake :=
  mkServerHandshake None None None None None None None.

Definition set_ServerKeyExchange hs v :=
  mkServerHandshake (hs_ServerHello hs) (hs_ServerCertificates hs) (Some v)
    (hs_RSAExportParams hs) (hs_DHExportParams hs) (hs_DHParams hs)
    (hs_ServerFinished hs).
Definition set_RSAExportParams hs v :=
  mkServerHandshake (hs_ServerHello hs) (hs_ServerCertificates hs)
    (hs_ServerKeyExchange hs) (Some v) (hs_DHExportParams hs)
    (hs_DHParams hs) (hs_ServerFinished hs).
Definition set_DHExportParams hs v :=
  mkServerHandshake (hs_ServerHello hs) (hs_ServerCertificates hs)
    (hs_ServerKeyExchange hs) (hs_RSAExportParams hs) (Some v)
    (hs_DHParams hs) (hs_ServerFinished hs).
Definition set_DHParams hs v :=
  mkServerHandshake (hs_ServerHello hs) (hs_ServerCertificates hs)
    (hs_ServerKeyExchange hs) (hs_RSAExportParams hs)
    (hs_DHExportParams hs) (Some v) (hs_ServerFinished hs).

(** The package-level cipher-suite tables ([var DHECiphers = []uint16{...}]
    and the like) are declared in a file of the package that is not among
    the sources at hand.  A table is referred to by its name. *)
Inductive CipherTable : Type :=
| DHECiphers
| RSAExportCiphers
| RSA512ExportCiphers
| DHEExportCiphers
| ChromeCiphers
| ChromeNoDHECiphers
| FirefoxCiphers
| FirefoxNoDHECiphers
| SafariCiphers
| SafariNoDHECiphers.

(** What [setSkx] calls and the sources at hand do not define: the
    contents of the tables, the lookup [cipherInList], and the decoder
    [rsaExportParams.unmarshal] (which, like the DH decoder, fills its
    receiver and returns a flag, and is taken to return on every input). *)
Record Externs : Type := mkExterns {
  suites : CipherTable -> list uint16;
  cipherInList : uint16 -> list uint16 -> bool;
  rsa_unmarshal : bytes -> rsaExportParams * bool
}.

(** [func (hs *ServerHandshake) setSkx(skx *serverKeyExchangeMsg, cipher uint16)] *)
Definition setSkx (X : Externs) (hs : ServerHandshake)
           (skx : serverKeyExchangeMsg) (cipher : uint16)
  : go ServerHandshake :=
  let hs := set_ServerKeyExchange hs (skx_MakeLog skx) in
  if cipherInList X cipher (suites X RSAExportCiphers) then
    let '(p, ok) := rsa_unmarshal X (skx_key skx) in
    if ok then Ret (set_RSAExportParams hs (rsa_MakeLog p)) else Ret hs
  else if cipherInList X cipher (suites X DHEExportCiphers) then
    r <- unmarshal newDHParams (skx_key skx) ;;
    let '(p, ok) := r in
    if ok then Ret (set_DHExportParams hs p) else Ret hs
  else if cipherInList X cipher (suites X DHECiphers) then
    r <- unmarshal newDHParams (skx_key skx) ;;
    let '(p, ok) := r in
    if ok then Ret (set_DHParams hs p) else Ret hs
  else Ret hs.

(** ** [ExportSignatureAlgorithm] *)

Definition exportHashes : list string :=
  ["MD5"; "SHA-1"; "SHA-224"; "SHA-256"; "SHA-384"; "SHA-512"]%string.

Definition exportAlgorithms : list string :=
  ["anon"; "RSA"; "DSA"; "ECDSA"]%string.

(** [tbl[i]] *)
Definition index (tbl : list string) (i : Z) : go string :=
  if (0 <=? i) && (i <? len tbl)
  then Ret (nth (Z.to_nat i) tbl EmptyString)
  else Panic "index out of range".

(** The anonymous struct [aux] of [MarshalJSON]. *)
Record esaAux : Type := mkEsaAux {
  aux_Value : Z;
  aux_HashName : string;
  aux_HashID : Z;
  aux_AlgName : string;
  aux_AlgID : Z
}.

(** A JSON object as [encoding/json] writes a struct: the members in
    field order, a member tagged [omitempty] left out when it holds the
    zero value of its type. *)
Inductive JSON : Type :=
| JNumber (n : Z)
| JString (s : string).

Definition member : Type := (string * JSON)%type.

Definition omitempty (name : string) (s : string) : list member :=
  if String.eqb s EmptyString then [] else [(name, JString s)].

Definition json_Marshal_aux (aux : esaAux) : list member :=
  [("value"%string, JNumber (aux_Value aux))]
    ++ omitempty "hash_name" (aux_HashName aux)
    ++ [("hash_id"%string, JNumber (aux_HashID aux))]
    ++ omitempty "algorithm_name" (aux_AlgName aux)
    ++ [("algorithm_id"%string, JNumber (aux_AlgID aux))].

(** The struct [MarshalJSON] hands to [json.Marshal]; [esa] is the
    [uint16] under the receiver. *)
Definition esa_aux (esa : uint16) : go esaAux :=
  let value := esa in
  let hash := byteZ (byte_of_Z (Z.shiftr value 8)) in
  let alg := byteZ (byte_of_Z value) in
  HashName <- (if hash <? len exportHashes
               then index exportHashes hash else Ret EmptyString) ;;
  AlgName <- (if alg <? len exportAlgorithms
              then index exportAlgorithms alg else Ret EmptyString) ;;
  Ret (mkEsaAux value HashName hash AlgName alg).

(** [func (esa *ExportSignatureAlgorithm) MarshalJSON() ([]byte, error)];
    marshalling this struct cannot fail, the error is always nil. *)
Definition MarshalJSON (esa : uint16) : go (list member) :=
  aux <- esa_aux esa ;;
  Ret (json_Marshal_aux aux).

(** ** The TLS engine as the wrapper sees it *)

(** The fields of [ztls.Config] that [TLSHandshake] assigns;
    [new(ztls.Config)] holds the zero value of each.  [CipherSuites] is
    nil ([None]) or one of the package's tables. *)
Record Config : Type := mkConfig {
  InsecureSkipVerify : bool;
  MinVersion : uint16;
  MaxVersion : uint16;
  RootCAs : option foreign;
  HeartbeatEnabled : bool;
  ClientDSAEnabled : bool;
  ServerName : string;
  CipherSuites : option CipherTable;
  ForceSuites : bool;
  ExtendedRandom : bool
}.

Definition newConfig : Config :=
  mkConfig false 0 0 None false false EmptyString None false false.

Definition set_ServerName (v : string) (t : Config) : Config :=
  mkConfig (InsecureSkipVerify t) (MinVersion t) (MaxVersion t) (RootCAs t)
           (HeartbeatEnabled t) (ClientDSAEnabled t) v (CipherSuites t)
           (ForceSuites t) (ExtendedRandom t).
Definition set_CipherSuites (v : CipherTable) (t : Config) : Config :=
  mkConfig (InsecureSkipVerify t) (MinVersion t) (MaxVersion t) (RootCAs t)
           (HeartbeatEnabled t) (ClientDSAEnabled t) (ServerName t) (Some v)
           (ForceSuites t) (ExtendedRandom t).
Definition set_ForceSuites (v : bool) (t : Config) : Config :=
  mkConfig (InsecureSkipVerify t) (MinVersion t) (MaxVersion t) (RootCAs t)
           (HeartbeatEnabled t) (ClientDSAEnabled t) (ServerName t)
           (CipherSuites t) v (ExtendedRandom t).
Definition set_ExtendedRandom (v : bool) (t : Config) : Config :=
  mkConfig (InsecureSkipVerify t) (MinVersion t) (MaxVersion t) (RootCAs t)
           (HeartbeatEnabled t) (ClientDSAEnabled t) (ServerName t)
           (CipherSuites t) (ForceSuites t) v.

(** Modelled from the spec: the constant [VersionSSL30], declared in a
    file of the package that is not at hand; the minimum version is fixed
    at the oldest supported version, SSL 3.0, whose wire value is 0x0300. *)
Definition VersionSSL30 : uint16 := 0x0300.

(** [ztls.Conn]: the configuration it was created with and the logs the
    wrapper reads back. *)
Record Conn : Type := mkConn {
  config : Config;
  handshakeLog : option ServerHandshake;
  heartbleedLog : option foreign
}.

(** [ztls.Client(conn, config)] *)
Definition Client (config : Config) : Conn := mkConn config None None.

(** [func (c *Conn) GetHandshakeLog() *ServerHandshake] *)
Definition GetHandshakeLog (c : Conn) : option ServerHandshake :=
  handshakeLog c.

(** Reading a member back from a marshalled object. *)
Fixpoint get (name : string) (obj : list member) : option JSON :=
  match obj with
  | [] => None
  | (k, v) :: rest => if String.eqb k name then Some v else get name rest
  end.

End ztls.

(* ===================================================================== *)
(** * Package zlib: the connection wrapper                                 *)
(* ===================================================================== *)

Module zlib.

Import Slice.

Definition Time := Z.

(** ** The socket and the outside world *)

(** Which stream an operation talks to: the raw socket, or the TLS stream
    layered over it. *)
Inductive Stream : Type :=
| Raw
| Tls.

(** The raw [net.Conn].  [written] lists, oldest first, the buffers handed
    to a [Write] on the socket or on the TLS stream over it, together
    with what the TLS, SSH, FTP, HTTP and Modbus collaborators report to
    have written. *)
Record NetConn : Type := mkNetConn {
  local : string;
  remote : string;
  written : list (Stream * bytes);
  closed : bool
}.

Inductive Regex : Type :=
| smtpEndRegex
| pop3EndRegex
| imapStatusEndRegex.

(** Carriage return, line feed. *)
Definition CRLF : string := String "013" (String "010" EmptyString).

Definition SMTP_COMMAND : string := String.append "STARTTLS" CRLF.
Definition POP3_COMMAND : string := String.append "STLS" CRLF.
Definition IMAP_COMMAND : string := String.append "a001 STARTTLS" CRLF.

(** What the TLS engine answers to [Handshake] and to [CheckHeartbleed]. *)
Record HandshakeOutcome : Type := mkHandshakeOutcome {
  ho_err : option error;
  ho_log : option ztls.ServerHandshake;
  ho_wire : list bytes
}.

Record HeartbleedOutcome : Type := mkHeartbleedOutcome {
  hb_n : Z;
  hb_err : option error;
  hb_log : option foreign;
  hb_wire : list bytes
}.

(** What a collaborator that works on the connection as a whole leaves
    behind: its error, the log it built, what it wrote, and (HTTP only)
    the domain after following redirects. *)
Record Outcome : Type := mkOutcome {
  out_n : Z;
  out_ready : bool;
  out_err : option error;
  out_log : option foreign;
  out_domain : string;
  out_wire : list bytes
}.

(** The answers of everything the wrapper calls and does not define: the
    peer behind the socket, [util.ReadUntilRegex], the TLS engine and the
    SSH, FTP, HTTP and Modbus collaborators.  A read answers with the
    bytes it stored in the buffer; their number is the count it returns. *)
Record Env : Type := mkEnv {
  net_Write : Stream -> bytes -> Z * option error;
  net_Read : Stream -> Z -> bytes * option error;
  net_Close : Stream -> option error;
  net_SetDeadline : Stream -> Time -> option error;
  util_ReadUntilRegex : Stream -> Regex -> Z -> bytes * option error;
  tls_Handshake : ztls.Config -> HandshakeOutcome;
  tls_CheckHeartbleed : bytes -> HeartbleedOutcome;
  ssh_ClientHandshake : option foreign -> Outcome;
  ftp_SetupFTPS : option foreign -> Stream -> Outcome;
  http_exchange : foreign -> string -> bool -> go Outcome;
  modbus_exchange : Stream -> go Outcome
}.

(** ** The result record *)

Record SMTPHelpEvent : Type := mkSMTPHelpEvent {
  Response : string
}.

(** The fields of [GrabData] (declared in a file that is not at hand)
    that [conn.go] assigns. *)
Record GrabData : Type := mkGrabData {
  gd_Write : string;
  gd_Banner : string;
  gd_Read : string;
  gd_StartTLS : string;
  gd_EHLO : string;
  gd_SMTPHelp : option SMTPHelpEvent;
  gd_HTTP : option foreign;
  gd_TLSHandshake : option ztls.ServerHandshake;
  gd_Heartbleed : option foreign;
  gd_Modbus : option foreign;
  gd_FTP : option foreign;
  gd_SSH : option foreign
}.

Definition set_gd_Write (v : string) (g : GrabData) : GrabData :=
  mkGrabData
   v (gd_Banner g) (gd_Read g) (gd_StartTLS g) (gd_EHLO g) (gd_SMTPHelp g)
     (gd_HTTP g) (gd_TLSHandshake g) (gd_Heartbleed g) (gd_Modbus g)
     (gd_FTP g) (gd_SSH g).
Definition set_gd_Banner (v : string) (g : GrabData) : GrabData :=
  mkGrabData
   (gd_Write g) v (gd_Read g) (gd_StartTLS g) (gd_EHLO g) (gd_SMTPHelp g)
     (gd_HTTP g) (gd_TLSHandshake g) (gd_Heartbleed g) (gd_Modbus g)
     (gd_FTP g) (gd_SSH g).
Definition set_gd_Read (v : string) (g : GrabData) : GrabData :=
  mkGrabData
   (gd_Write g) (gd_Banner g) v (gd_StartTLS g) (gd_EHLO g) (gd_SMTPHelp g)
     (gd_HTTP g) (gd_TLSHandshake g) (gd_Heartbleed g) (gd_Modbus g)
     (gd_FTP g) (gd_SSH g).
Definition set_gd_StartTLS (v : string) (g : GrabData) : GrabData :=
  mkGrabData
   (gd_Write g) (gd_Banner g) (gd_Read g) v (gd_EHLO g) (gd_SMTPHelp g)
     (gd_HTTP g) (gd_TLSHandshake g) (gd_Heartbleed g) (gd_Modbus g)
     (gd_FTP g) (gd_SSH g).
Definition set_gd_EHLO (v : string) (g : GrabData) : GrabData :=
  mkGrabData
   (gd_Write g) (gd_Banner g) (gd_Read g) (gd_StartTLS g) v (gd_SMTPHelp g)
     (gd_HTTP g) (gd_TLSHandshake g) (gd_Heartbleed g) (gd_Modbus g)
     (gd_FTP g) (gd_SSH g).
Definition set_gd_SMTPHelp (v : option SMTPHelpEvent) (g : GrabData) : GrabData :=
  mkGrabData
   (gd_Write g) (gd_Banner g) (gd_Read g) (gd_StartTLS g) (gd_EHLO g) v
     (gd_HTTP g) (gd_TLSHandshake g) (gd_Heartbleed g) (gd_Modbus g)
     (gd_FTP g) (gd_SSH g).
Definition set_gd_HTTP (v : option foreign) (g : GrabData) : GrabData :=
  mkGrabData
   (gd_Write g) (gd_Banner g) (gd_Read g) (gd_StartTLS g) (gd_EHLO g)
     (gd_SMTPHelp g) v (gd_TLSHandshake g) (gd_Heartbleed g) (gd_Modbus g)
     (gd_FTP g) (gd_SSH g).
Definition set_gd_TLSHandshake (v : option ztls.ServerHandshake) (g : GrabData) : GrabData :=
  mkGrabData
   (gd_Write g) (gd_Banner g) (gd_Read g) (gd_StartTLS g) (gd_EHLO g)
     (gd_SMTPHelp g) (gd_HTTP g) v (gd_Heartbleed g) (gd_Modbus g)
     (gd_FTP g) (gd_SSH g).
Definition set_gd_Heartbleed (v : option foreign) (g : GrabData) : GrabData :=
  mkGrabData
   (gd_Write g) (gd_Banner g) (gd_Read g) (gd_StartTLS g) (gd_EHLO g)
     (gd_SMTPHelp g) (gd_HTTP g) (gd_TLSHandshake g) v (gd_Modbus g)
     (gd_FTP g) (gd_SSH g).
Definition set_gd_Modbus (v : option foreign) (g : GrabData) : GrabData :=
  mkGrabData
   (gd_Write g) (gd_Banner g) (gd_Read g) (gd_StartTLS g) (gd_EHLO g)
     (gd_SMTPHelp g) (gd_HTTP g) (gd_TLSHandshake g) (gd_Heartbleed g) v
     (gd_FTP g) (gd_SSH g).
Definition set_gd_FTP (v : option foreign) (g : GrabData) : GrabData :=
  mkGrabData
   (gd_Write g) (gd_Banner g) (gd_Read g) (gd_StartTLS g) (gd_EHLO g)
     (gd_SMTPHelp g) (gd_HTTP g) (gd_TLSHandshake g) (gd_Heartbleed g)
     (gd_Modbus g) v (gd_SSH g).
Definition set_gd_SSH (v : option foreign) (g : GrabData) : GrabData :=
  mkGrabData
   (gd_Write g) (gd_Banner g) (gd_Read g) (gd_StartTLS g) (gd_EHLO g)
     (gd_SMTPHelp g) (gd_HTTP g) (gd_TLSHandshake g) (gd_Heartbleed g)
     (gd_Modbus g) (gd_FTP g) v.

(** ** The connection *)

Record Conn : Type := mkConn {
  conn : NetConn;
  tlsConn : option ztls.Conn;
  isTls : bool;
  grabData : GrabData;
  maxTlsVersion : Z;
  readDeadline : Time;
  writeDeadline : Time;
  caPool : option foreign;
  onlyDHE : bool;
  onlyExports : bool;
  onlyExportsDH : bool;
  chromeCiphers : bool;
  chromeNoDHE : bool;
  firefoxCiphers : bool;
  firefoxNoDHECiphers : bool;
  safariCiphers : bool;
  safariNoDHECiphers : bool;
  noSNI : bool;
  extendedRandom : bool;
  domain : string;
  ReadEncoding : string;
  sshScan : option foreign;
  erroredComponent : string
}.

Definition set_conn (v : NetConn) (c : Conn) : Conn :=
  mkConn
   v (tlsConn c) (isTls c) (grabData c) (maxTlsVersion c) (readDeadline c)
     (writeDeadline c) (caPool c) (onlyDHE c) (onlyExports c)
     (onlyExportsDH c) (chromeCiphers c) (chromeNoDHE c) (firefoxCiphers c)
     (firefoxNoDHECiphers c) (safariCiphers c) (safariNoDHECiphers c)
     (noSNI c) (extendedRandom c) (domain c) (ReadEncoding c) (sshScan c)
     (erroredComponent c).
Definition set_tlsConn (v : option ztls.Conn) (c : Conn) : Conn :=
  mkConn
   (conn c) v (isTls c) (grabData c) (maxTlsVersion c) (readDeadline c)
     (writeDeadline c) (caPool c) (onlyDHE c) (onlyExports c)
     (onlyExportsDH c) (chromeCiphers c) (chromeNoDHE c) (firefoxCiphers c)
     (firefoxNoDHECiphers c) (safariCiphers c) (safariNoDHECiphers c)
     (noSNI c) (extendedRandom c) (domain c) (ReadEncoding c) (sshScan c)
     (erroredComponent c).
Definition set_isTls (v : bool) (c : Conn) : Conn :=
  mkConn
   (conn c) (tlsConn c) v (grabData c) (maxTlsVersion c) (readDeadline c)
     (writeDeadline c) (caPool c) (onlyDHE c) (onlyExports c)
     (onlyExportsDH c) (chromeCiphers c) (chromeNoDHE c) (firefoxCiphers c)
     (firefoxNoDHECiphers c) (safariCiphers c) (safariNoDHECiphers c)
     (noSNI c) (extendedRandom c) (domain c) (ReadEncoding c) (sshScan c)
     (erroredComponent c).
Definition set_grabData (v : GrabData) (c : Conn) : Conn :=
  mkConn
   (conn c) (tlsConn c) (isTls c) v (maxTlsVersion c) (readDeadline c)
     (writeDeadline c) (caPool c) (onlyDHE c) (onlyExports c)
     (onlyExportsDH c) (chromeCiphers c) (chromeNoDHE c) (firefoxCiphers c)
     (firefoxNoDHECiphers c) (safariCiphers c) (safariNoDHECiphers c)
     (noSNI c) (extendedRandom c) (domain c) (ReadEncoding c) (sshScan c)
     (erroredComponent c).
Definition set_readDeadline (v : Time) (c : Conn) : Conn :=
  mkConn
   (conn c) (tlsConn c) (isTls c) (grabData c) (maxTlsVersion c) v
     (writeDeadline c) (caPool c) (onlyDHE c) (onlyExports c)
     (onlyExportsDH c) (chromeCiphers c) (chromeNoDHE c) (firefoxCiphers c)
     (firefoxNoDHECiphers c) (safariCiphers c) (safariNoDHECiphers c)
     (noSNI c) (extendedRandom c) (domain c) (ReadEncoding c) (sshScan c)
     (erroredComponent c).
Definition set_writeDeadline (v : Time) (c : Conn) : Conn :=
  mkConn
   (conn c) (tlsConn c) (isTls c) (grabData c) (maxTlsVersion c)
     (readDeadline c) v (caPool c) (onlyDHE c) (onlyExports c)
     (onlyExportsDH c) (chromeCiphers c) (chromeNoDHE c) (firefoxCiphers c)
     (firefoxNoDHECiphers c) (safariCiphers c) (safariNoDHECiphers c)
     (noSNI c) (extendedRandom c) (domain c) (ReadEncoding c) (sshScan c)
     (erroredComponent c).
Definition set_caPool (v : option foreign) (c : Conn) : Conn :=
  mkConn
   (conn c) (tlsConn c) (isTls c) (grabData c) (maxTlsVersion c)
     (readDeadline c) (writeDeadline c) v (onlyDHE c) (onlyExports c)
     (onlyExportsDH c) (chromeCiphers c) (chromeNoDHE c) (firefoxCiphers c)
     (firefoxNoDHECiphers c) (safariCiphers c) (safariNoDHECiphers c)
     (noSNI c) (extendedRandom c) (domain c) (ReadEncoding c) (sshScan c)
     (erroredComponent c).
Definition set_onlyDHE (v : bool) (c : Conn) : Conn :=
  mkConn
   (conn c) (tlsConn c) (isTls c) (grabData c) (maxTlsVersion c)
     (readDeadline c) (writeDeadline c) (caPool c) v (onlyExports c)
     (onlyExportsDH c) (chromeCiphers c) (chromeNoDHE c) (firefoxCiphers c)
     (firefoxNoDHECiphers c) (safariCiphers c) (safariNoDHECiphers c)
     (noSNI c) (extendedRandom c) (domain c) (ReadEncoding c) (sshScan c)
     (erroredComponent c).
Definition set_onlyExports (v : bool) (c : Conn) : Conn :=
  mkConn
   (conn c) (tlsConn c) (isTls c) (grabData c) (maxTlsVersion c)
     (readDeadline c) (writeDeadline c) (caPool c) (onlyDHE c) v
     (onlyExportsDH c) (chromeCiphers c) (chromeNoDHE c) (firefoxCiphers c)
     (firefoxNoDHECiphers c) (safariCiphers c) (safariNoDHECiphers c)
     (noSNI c) (extendedRandom c) (domain c) (ReadEncoding c) (sshScan c)
     (erroredComponent c).
Definition set_onlyExportsDH (v : bool) (c : Conn) : Conn :=
  mkConn
   (conn c) (tlsConn c) (isTls c) (grabData c) (maxTlsVersion c)
     (readDeadline c) (writeDeadline c) (caPool c) (onlyDHE c)
     (onlyExports c) v (chromeCiphers c) (chromeNoDHE c) (firefoxCiphers c)
     (firefoxNoDHECiphers c) (safariCiphers c) (safariNoDHECiphers c)
     (noSNI c) (extendedRandom c) (domain c) (ReadEncoding c) (sshScan c)
     (erroredComponent c).
Definition set_chromeCiphers (v : bool) (c : Conn) : Conn :=
  mkConn
   (conn c) (tlsConn c) (isTls c) (grabData c) (maxTlsVersion c)
     (readDeadline c) (writeDeadline c) (caPool c) (onlyDHE c)
     (onlyExports c) (onlyExportsDH c) v (chromeNoDHE c) (firefoxCiphers c)
     (firefoxNoDHECiphers c) (safariCiphers c) (safariNoDHECiphers c)
     (noSNI c) (extendedRandom c) (domain c) (ReadEncoding c) (sshScan c)
     (erroredComponent c).
Definition set_chromeNoDHE (v : bool) (c : Conn) : Conn :=
  mkConn
   (conn c) (tlsConn c) (isTls c) (grabData c) (maxTlsVersion c)
     (readDeadline c) (writeDeadline c) (caPool c) (onlyDHE c)
     (onlyExports c) (onlyExportsDH c) (chromeCiphers c) v
     (firefoxCiphers c) (firefoxNoDHECiphers c) (safariCiphers c)
     (safariNoDHECiphers c) (noSNI c) (extendedRandom c) (domain c)
     (ReadEncoding c) (sshScan c) (erroredComponent c).
Definition set_firefoxCiphers (v : bool) (c : Conn) : Conn :=
  mkConn
   (conn c) (tlsConn c) (isTls c) (grabData c) (maxTlsVersion c)
     (readDeadline c) (writeDeadline c) (caPool c) (onlyDHE c)
     (onlyExports c) (onlyExportsDH c) (chromeCiphers c) (chromeNoDHE c) v
     (firefoxNoDHECiphers c) (safariCiphers c) (safariNoDHECiphers c)
     (noSNI c) (extendedRandom c) (domain c) (ReadEncoding c) (sshScan c)
     (erroredComponent c).
Definition set_firefoxNoDHECiphers (v : bool) (c : Conn) : Conn :=
  mkConn
   (conn c) (tlsConn c) (isTls c) (grabData c) (maxTlsVersion c)
     (readDeadline c) (writeDeadline c) (caPool c) (onlyDHE c)
     (onlyExports c) (onlyExportsDH c) (chromeCiphers c) (chromeNoDHE c)
     (firefoxCiphers c) v (safariCiphers c) (safariNoDHECiphers c)
     (noSNI c) (extendedRandom c) (domain c) (ReadEncoding c) (sshScan c)
     (erroredComponent c).
Definition set_safariCiphers (v : bool) (c : Conn) : Conn :=
  mkConn
   (conn c) (tlsConn c) (isTls c) (grabData c) (maxTlsVersion c)
     (readDeadline c) (writeDeadline c) (caPool c) (onlyDHE c)
     (onlyExports c) (onlyExportsDH c) (chromeCiphers c) (chromeNoDHE c)
     (firefoxCiphers c) (firefoxNoDHECiphers c) v (safariNoDHECiphers c)
     (noSNI c) (extendedRandom c) (domain c) (ReadEncoding c) (sshScan c)
     (erroredComponent c).
Definition set_safariNoDHECiphers (v : bool) (c : Conn) : Conn :=
  mkConn
   (conn c) (tlsConn c) (isTls c) (grabData c) (maxTlsVersion c)
     (readDeadline c) (writeDeadline c) (caPool c) (onlyDHE c)
     (onlyExports c) (onlyExportsDH c) (chromeCiphers c) (chromeNoDHE c)
     (firefoxCiphers c) (firefoxNoDHECiphers c) (safariCiphers c) v
     (noSNI c) (extendedRandom c) (domain c) (ReadEncoding c) (sshScan c)
     (erroredComponent c).
Definition set_noSNI (v : bool) (c : Conn) : Conn :=
  mkConn
   (conn c) (tlsConn c) (isTls c) (grabData c) (maxTlsVersion c)
     (readDeadline c) (writeDeadline c) (caPool c) (onlyDHE c)
     (onlyExports c) (onlyExportsDH c) (chromeCiphers c) (chromeNoDHE c)
     (firefoxCiphers c) (firefoxNoDHECiphers c) (safariCiphers c)
     (safariNoDHECiphers c) v (extendedRandom c) (domain c)
     (ReadEncoding c) (sshScan c) (erroredComponent c).
Definition set_extendedRandom (v : bool) (c : Conn) : Conn :=
  mkConn
   (conn c) (tlsConn c) (isTls c) (grabData c) (maxTlsVersion c)
     (readDeadline c) (writeDeadline c) (caPool c) (onlyDHE c)
     (onlyExports c) (onlyExportsDH c) (chromeCiphers c) (chromeNoDHE c)
     (firefoxCiphers c) (firefoxNoDHECiphers c) (safariCiphers c)
     (safariNoDHECiphers c) (noSNI c) v (domain c) (ReadEncoding c)
     (sshScan c) (erroredComponent c).
Definition set_domain (v : string) (c : Conn) : Conn :=
  mkConn
   (conn c) (tlsConn c) (isTls c) (grabData c) (maxTlsVersion c)
     (readDeadline c) (writeDeadline c) (caPool c) (onlyDHE c)
     (onlyExports c) (onlyExportsDH c) (chromeCiphers c) (chromeNoDHE c)
     (firefoxCiphers c) (firefoxNoDHECiphers c) (safariCiphers c)
     (safariNoDHECiphers c) (noSNI c) (extendedRandom c) v (ReadEncoding c)
     (sshScan c) (erroredComponent c).

(** ** Methods as state transformers *)

(** A method of [*Conn] reads and updates the connection it is called on,
    and returns or panics. *)
Definition M (A : Type) : Type := Conn -> go (A * Conn).

Definition ret {A : Type} (a : A) : M A := fun c => Ret (a, c).

Definition bind {A B : Type} (m : M A) (k : A -> M B) : M B :=
  fun c => match m c with
           | Ret (a, c') => k a c'
           | Panic msg => Panic msg
           end.

Definition get : M Conn := fun c => Ret (c, c).

Definition modify (f : Conn -> Conn) : M unit := fun c => Ret (tt, f c).

Definition lift {A : Type} (g : go A) : M A :=
  fun c => match g with
           | Ret a => Ret (a, c)
           | Panic msg => Panic msg
           end.

Declare Scope conn_scope.
Delimit Scope conn_scope with conn.
Notation "x <- m ;; k" := (bind m (fun x => k))
  (at level 61, m at next level, right associativity) : conn_scope.
Notation "m ;;; k" := (bind m (fun _ => k))
  (at level 61, right associativity) : conn_scope.
Local Open Scope conn_scope.

Definition modify_grabData (f : GrabData -> GrabData) : M unit :=
  modify (fun c => set_grabData (f (grabData c)) c).

(** Recording in the socket what was handed to it. *)
Definition log_written (ws : list (Stream * bytes)) (n : NetConn) : NetConn :=
  mkNetConn (local n) (remote n) (written n ++ ws) (closed n).

Definition wrote (ws : list (Stream * bytes)) : M unit :=
  modify (fun c => set_conn (log_written ws (conn c)) c).

Definition on_socket (wire : list bytes) : list (Stream * bytes) :=
  map (fun b => (Raw, b)) wire.

(** [make([]byte, size)] and what a read that stored [data] leaves in a
    buffer. *)
Definition make (size : Z) : bytes := repeat x00 (Z.to_nat size).

Definition fill (buf data : bytes) : bytes :=
  firstn (List.length buf) (data ++ skipn (List.length data) buf).

(** [string(b)] and [[]byte(s)] *)
Definition string_of (b : bytes) : string := string_of_list_byte b.
Definition bytes_of (s : string) : bytes := list_byte_of_string s.

(** [s[0:hi]] on a string *)
Definition str_upto (s : string) (hi : Z) : go string :=
  if (0 <=? hi) && (hi <=? Z.of_nat (String.length s))
  then Ret (String.substring 0 (Z.to_nat hi) s)
  else Panic "slice bounds out of range".

(** [func (c *Conn) getUnderlyingConn() net.Conn]; calling a method on the
    nil [tlsConn] it returns before any handshake would panic. *)
Definition getUnderlyingConn : M Stream :=
  c <- get ;;
  if isTls c then
    match tlsConn c with
    | Some _ => ret Tls
    | None => lift (Panic "nil pointer dereference")
    end
  else ret Raw.

Definition SetDHEOnly : M unit := modify (set_onlyDHE true).
Definition SetExportsOnly : M unit := modify (set_onlyExports true).
Definition SetExportsDHOnly : M unit := modify (set_onlyExportsDH true).
Definition SetChromeCiphers : M unit := modify (set_chromeCiphers true).
Definition SetChromeNoDHECiphers : M unit := modify (set_chromeNoDHE true).
Definition SetFirefoxCiphers : M unit := modify (set_firefoxCiphers true).
Definition SetFirefoxNoDHECiphers : M unit :=
  modify (set_firefoxNoDHECiphers true).
Definition SetSafariCiphers : M unit := modify (set_safariCiphers true).
Definition SetSafariNoDHECiphers : M unit :=
  modify (set_safariNoDHECiphers true).
Definition SetExtendedRandom : M unit := modify (set_extendedRandom true).
Definition SetCAPool (pool : option foreign) : M unit :=
  modify (set_caPool pool).
Definition SetDomain (d : string) : M unit := modify (set_domain d).
Definition SetNoSNI : M unit := modify (set_noSNI true).

Definition LocalAddr : M string :=
  _ <- getUnderlyingConn ;; c <- get ;; ret (local (conn c)).

Definition RemoteAddr : M string :=
  _ <- getUnderlyingConn ;; c <- get ;; ret (remote (conn c)).

Definition SetDeadline (e : Env) (t : Time) : M (option error) :=
  modify (set_readDeadline t) ;;;
  modify (set_writeDeadline t) ;;;
  s <- getUnderlyingConn ;;
  ret (net_SetDeadline e s t).

Definition SetReadDeadline (e : Env) (t : Time) : M (option error) :=
  modify (set_readDeadline t) ;;;
  s <- getUnderlyingConn ;;
  ret (net_SetDeadline e s t).

Definition SetWriteDeadline (e : Env) (t : Time) : M (option error) :=
  modify (set_writeDeadline t) ;;;
  s <- getUnderlyingConn ;;
  ret (net_SetDeadline e s t).

(** [func (c *Conn) Write(b []byte) (int, error)] *)
Definition Write (e : Env) (b : bytes) : M (Z * option error) :=
  s <- getUnderlyingConn ;;
  let '(n, err) := net_Write e s b in
  wrote [(s, b)] ;;;
  sent <- lift (upto b n) ;;
  modify_grabData (set_gd_Write (string_of sent)) ;;;
  ret (n, err).

(** [func (c *Conn) BasicBanner() (string, error)] *)
Definition BasicBanner (e : Env) : M (string * option error) :=
  let b := make 1024 in
  s <- getUnderlyingConn ;;
  let '(data, err) := net_Read e s (len b) in
  got <- lift (upto (fill b data) (len data)) ;;
  modify_grabData (set_gd_Banner (string_of got)) ;;;
  c <- get ;;
  ret (gd_Banner (grabData c), err).

(** [func (c *Conn) Read(b []byte) (int, error)] *)
Definition Read (e : Env) (b : bytes) : M (Z * option error) :=
  s <- getUnderlyingConn ;;
  let '(data, err) := net_Read e s (len b) in
  got <- lift (upto (fill b data) (len data)) ;;
  modify_grabData (set_gd_Read (string_of got)) ;;;
  ret (len data, err).

(** [func (c *Conn) Close() error] *)
Definition Close (e : Env) : M (option error) :=
  s <- getUnderlyingConn ;;
  modify (fun c => set_conn (mkNetConn (local (conn c)) (remote (conn c))
                                      (written (conn c)) true) c) ;;;
  ret (net_Close e s).

(** [func (c *Conn) HTTP(config *HTTPConfig) error].  The request and
    response types, [net/http] and the redirect tests are outside these
    files; of the connection, [HTTP] and the functions under it assign
    [grabData.HTTP] and [domain] and write to the current stream, and the
    values come from the environment. *)
Definition HTTP (e : Env) (config : foreign) : M (option error) :=
  c <- get ;;
  out <- lift (http_exchange e config (domain c) (isTls c)) ;;
  wrote (on_socket (out_wire out)) ;;;
  modify_grabData (set_gd_HTTP (out_log out)) ;;;
  modify (set_domain (out_domain out)) ;;;
  ret (out_err out).

(** [if cond { assignments }] on the configuration under construction. *)
Definition when (cond : bool) (assignments : ztls.Config -> ztls.Config)
           (tlsConfig : ztls.Config) : ztls.Config :=
  if cond then assignments tlsConfig else tlsConfig.

(** The configuration [TLSHandshake] builds, lines 394 to 436: the policy
    flags are tested one after the other, each assigning the list when
    set. *)
Definition handshakeConfig (c : Conn) : ztls.Config :=
  let tlsConfig :=
    ztls.mkConfig true ztls.VersionSSL30 (maxTlsVersion c) (caPool c)
                  true true EmptyString None false false in
  let tlsConfig :=
    when (negb (noSNI c) && negb (String.eqb (domain c) EmptyString))
         (ztls.set_ServerName (domain c)) tlsConfig in
  let tlsConfig :=
    when (onlyDHE c) (ztls.set_CipherSuites ztls.DHECiphers) tlsConfig in
  let tlsConfig :=
    when (onlyExports c)
         (ztls.set_CipherSuites ztls.RSA512ExportCiphers) tlsConfig in
  let tlsConfig :=
    when (onlyExportsDH c)
         (ztls.set_CipherSuites ztls.DHEExportCiphers) tlsConfig in
  let tlsConfig :=
    when (chromeCiphers c)
         (ztls.set_CipherSuites ztls.ChromeCiphers) tlsConfig in
  let tlsConfig :=
    when (chromeNoDHE c)
         (ztls.set_CipherSuites ztls.ChromeNoDHECiphers) tlsConfig in
  let tlsConfig :=
    when (firefoxCiphers c)
         (ztls.set_CipherSuites ztls.FirefoxCiphers) tlsConfig in
  let tlsConfig :=
    when (firefoxNoDHECiphers c)
         (ztls.set_CipherSuites ztls.FirefoxNoDHECiphers) tlsConfig in
  let tlsConfig :=
    when (safariCiphers c)
         (fun t => ztls.set_ForceSuites true
                     (ztls.set_CipherSuites ztls.SafariCiphers t))
         tlsConfig in
  let tlsConfig :=
    when (safariNoDHECiphers c)
         (fun t => ztls.set_ForceSuites true
                     (ztls.set_CipherSuites ztls.SafariNoDHECiphers t))
         tlsConfig in
  when (extendedRandom c) (ztls.set_ExtendedRandom true) tlsConfig.

(** Lines 438 to 441: the TLS stream is created over the socket, the
    cached deadlines are applied to it, and the connection is marked. *)
Definition TLSHandshake_begin (e : Env) (tlsConfig : ztls.Config) : M unit :=
  modify (set_tlsConn (Some (ztls.Client tlsConfig))) ;;;
  c <- get ;;
  let _ := net_SetDeadline e Tls (readDeadline c) in
  let _ := net_SetDeadline e Tls (writeDeadline c) in
  modify (set_isTls true).

(** [c.tlsConn.Handshake()]: the engine talks to the peer over the socket
    and keeps the log of what it received. *)
Definition tlsConn_Handshake (e : Env) : M (option error) :=
  c <- get ;;
  match tlsConn c with
  | None => lift (Panic "nil pointer dereference")
  | Some tc =>
      let out := tls_Handshake e (ztls.config tc) in
      wrote (on_socket (ho_wire out)) ;;;
      modify (set_tlsConn
                (Some (ztls.mkConn (ztls.config tc) (ho_log out)
                                   (ztls.heartbleedLog tc)))) ;;;
      ret (ho_err out)
  end.

Definition tlsConn_GetHandshakeLog : M (option ztls.ServerHandshake) :=
  c <- get ;;
  match tlsConn c with
  | None => lift (Panic "nil pointer dereference")
  | Some tc => ret (ztls.GetHandshakeLog tc)
  end.

Definition is_ErrUnimplementedCipher (err : option error) : bool :=
  match err with
  | Some ErrUnimplementedCipher => true
  | _ => false
  end.

Definition is_HeartbleedError (err : option error) : bool :=
  match err with
  | Some HeartbleedError => true
  | _ => false
  end.

(** Lines 442 to 448. *)
Definition TLSHandshake_run (e : Env) (tlsConfig : ztls.Config)
  : M (option error) :=
  err <- tlsConn_Handshake e ;;
  let err :=
    if ztls.ForceSuites tlsConfig && is_ErrUnimplementedCipher err
    then None else err in
  hl <- tlsConn_GetHandshakeLog ;;
  modify_grabData (set_gd_TLSHandshake hl) ;;;
  ret err.

(** [func (c *Conn) TLSHandshake() error] *)
Definition TLSHandshake (e : Env) : M (option error) :=
  c <- get ;;
  if isTls c then
    addr <- RemoteAddr ;;
    ret (Some (errorString
                 (String.append
                    "Attempted repeat handshake with remote host " addr)))
  else
    let tlsConfig := handshakeConfig c in
    TLSHandshake_begin e tlsConfig ;;;
    TLSHandshake_run e tlsConfig.

(** [func (c *Conn) sendStartTLSCommand(command string) error] *)
Definition sendStartTLSCommand (e : Env) (command : string)
  : M (option error) :=
  c <- get ;;
  if isTls c then
    addr <- RemoteAddr ;;
    ret (Some (errorString
                 (String.append
                    "Attempt STARTTLS after TLS handshake with remote host "
                    addr)))
  else
    let starttls := bytes_of command in
    let '(_, err) := net_Write e Raw starttls in
    wrote [(Raw, starttls)] ;;;
    ret err.

(** [util.ReadUntilRegex(c.getUnderlyingConn(), res, regex)]: the count
    read and the error, the bytes stored in [res]. *)
Definition readResponse (e : Env) (r : Regex) (res : bytes)
  : M (bytes * Z * option error) :=
  s <- getUnderlyingConn ;;
  let '(data, err) := util_ReadUntilRegex e s r (len res) in
  ret (fill res data, len data, err).

Definition readSmtpResponse (e : Env) := readResponse e smtpEndRegex.
Definition readPop3Response (e : Env) := readResponse e pop3EndRegex.
Definition readImapStatusResponse (e : Env) :=
  readResponse e imapStatusEndRegex.

(** [strconv.Atoi]: an optional sign, then decimal digits and nothing
    else, the value within the range of [int]; [None] stands for the
    error it returns otherwise. *)
Definition digit (ch : ascii) : option Z :=
  let d := Z.of_N (N_of_ascii ch) - 48 in
  if (0 <=? d) && (d <=? 9) then Some d else None.

Fixpoint digits (s : string) (acc : Z) : option Z :=
  match s with
  | EmptyString => Some acc
  | String ch rest =>
      match digit ch with
      | Some d => digits rest (acc * 10 + d)
      | None => None
      end
  end.

Definition Atoi (s : string) : option Z :=
  match s with
  | EmptyString => None
  | String ch rest =>
      let neg := Ascii.eqb ch "-" in
      let body := if neg || Ascii.eqb ch "+" then rest else s in
      match body with
      | EmptyString => None
      | _ =>
          match digits body 0 with
          | Some n =>
              let n := if neg then - n else n in
              if (- 2 ^ 63 <=? n) && (n <? 2 ^ 63) then Some n else None
          | None => None
          end
      end
  end.

Definition errors_New (text : string) : option error :=
  Some (errorString text).

Definition is_nil (err : option error) : bool :=
  match err with
  | None => true
  | Some _ => false
  end.

(** [func (c *Conn) SMTPStartTLSHandshake() error] *)
Definition SMTPStartTLSHandshake (e : Env) : M (option error) :=
  err <- sendStartTLSCommand e SMTP_COMMAND ;;
  if negb (is_nil err) then ret err else
  let buf := make 256 in
  r <- readSmtpResponse e buf ;;
  let '(buf, n, err) := r in
  got <- lift (upto buf n) ;;
  modify_grabData (set_gd_StartTLS (string_of got)) ;;;
  let err :=
    if n <? 5
    then errors_New "Server did not indicate support for STARTTLS"
    else err in
  err <- (if is_nil err then
            c <- get ;;
            code <- lift (str_upto (gd_StartTLS (grabData c)) 3) ;;
            match Atoi code with
            | Some ret_ =>
                if (ret_ <? 200) || (ret_ >=? 300)
                then ret (errors_New "Bad return code for STARTTLS")
                else ret None
            | None => ret (errors_New "Bad return code for STARTTLS")
            end
          else ret err) ;;
  if negb (is_nil err) then ret err else
  TLSHandshake e.

(** [func (c *Conn) POP3StartTLSHandshake() error] *)
Definition POP3StartTLSHandshake (e : Env) : M (option error) :=
  err <- sendStartTLSCommand e POP3_COMMAND ;;
  if negb (is_nil err) then ret err else
  let buf := make 512 in
  r <- readPop3Response e buf ;;
  let '(buf, n, err) := r in
  got <- lift (upto buf n) ;;
  modify_grabData (set_gd_StartTLS (string_of got)) ;;;
  c <- get ;;
  let err :=
    if is_nil err && negb (String.prefix "+" (gd_StartTLS (grabData c)))
    then errors_New "Server did not indicate support for STARTTLS"
    else err in
  if negb (is_nil err) then ret err else
  TLSHandshake e.

(** [func (c *Conn) IMAPStartTLSHandshake() error] *)
Definition IMAPStartTLSHandshake (e : Env) : M (option error) :=
  err <- sendStartTLSCommand e IMAP_COMMAND ;;
  if negb (is_nil err) then ret err else
  let buf := make 512 in
  r <- readImapStatusResponse e buf ;;
  let '(buf, n, err) := r in
  got <- lift (upto buf n) ;;
  modify_grabData (set_gd_StartTLS (string_of got)) ;;;
  c <- get ;;
  let err :=
    if is_nil err
       && negb (String.prefix "a001 OK" (gd_StartTLS (grabData c)))
    then errors_New "Server did not indicate support for STARTTLS"
    else err in
  if negb (is_nil err) then ret err else
  TLSHandshake e.

(** The three banner readers: [SMTPBanner], [POP3Banner], [IMAPBanner]. *)
Definition banner (e : Env) (r : Regex) (b : bytes)
  : M (Z * option error) :=
  r <- readResponse e r b ;;
  let '(b, n, err) := r in
  got <- lift (upto b n) ;;
  modify_grabData (set_gd_Banner (string_of got)) ;;;
  ret (n, err).

Definition SMTPBanner (e : Env) := banner e smtpEndRegex.
Definition POP3Banner (e : Env) := banner e pop3EndRegex.
Definition IMAPBanner (e : Env) := banner e imapStatusEndRegex.

(** [func (c *Conn) EHLO(domain string) error] *)
Definition EHLO (e : Env) (domain : string) : M (option error) :=
  let cmd := bytes_of (String.append "EHLO " (String.append domain CRLF)) in
  s <- getUnderlyingConn ;;
  let '(_, err) := net_Write e s cmd in
  wrote [(s, cmd)] ;;;
  if negb (is_nil err) then ret err else
  let buf := make 512 in
  r <- readSmtpResponse e buf ;;
  let '(buf, n, err) := r in
  got <- lift (upto buf n) ;;
  modify_grabData (set_gd_EHLO (string_of got)) ;;;
  ret err.

(** [func (c *Conn) SMTPHelp() error] *)
Definition SMTPHelp (e : Env) : M (option error) :=
  let cmd := bytes_of (String.append "HELP" CRLF) in
  let h := mkSMTPHelpEvent EmptyString in
  s <- getUnderlyingConn ;;
  let '(_, err) := net_Write e s cmd in
  wrote [(s, cmd)] ;;;
  if negb (is_nil err) then
    modify_grabData (set_gd_SMTPHelp (Some h)) ;;;
    ret err
  else
  let buf := make 512 in
  r <- readSmtpResponse e buf ;;
  let '(buf, n, err) := r in
  got <- lift (upto buf n) ;;
  let h := mkSMTPHelpEvent (string_of got) in
  modify_grabData (set_gd_SMTPHelp (Some h)) ;;;
  ret err.

(** [func (c *Conn) CheckHeartbleed(b []byte) (int, error)] *)
Definition CheckHeartbleed (e : Env) (b : bytes) : M (Z * option error) :=
  c <- get ;;
  if negb (isTls c) then
    addr <- RemoteAddr ;;
    ret (0, Some (errorString
                    (String.append
                       "Must perform TLS handshake before sending Heartbleed probe to "
                       addr)))
  else
    match tlsConn c with
    | None => lift (Panic "nil pointer dereference")
    | Some tc =>
        let out := tls_CheckHeartbleed e b in
        wrote (on_socket (hb_wire out)) ;;;
        modify (set_tlsConn
                  (Some (ztls.mkConn (ztls.config tc) (ztls.handshakeLog tc)
                                     (hb_log out)))) ;;;
        let hb := hb_log out in
        let err :=
          if is_HeartbleedError (hb_err out) then None else hb_err out in
        modify_grabData (set_gd_Heartbleed hb) ;;;
        ret (hb_n out, err)
    end.

(** [func (c *Conn) SendModbusEcho() (int, error)].  The request codec
    and [GetModbusResponse] are outside these files; of the connection,
    the method assigns [grabData.Modbus] and writes to the current
    stream. *)
Definition SendModbusEcho (e : Env) : M (Z * option error) :=
  s <- getUnderlyingConn ;;
  out <- lift (modbus_exchange e s) ;;
  wrote (on_socket (out_wire out)) ;;;
  modify_grabData (set_gd_Modbus (out_log out)) ;;;
  ret (out_n out, out_err out).

(** [func (c *Conn) GetFTPSCertificates() error]; [ftp.SetupFTPS] works
    on the FTP log in place. *)
Definition GetFTPSCertificates (e : Env) : M (option error) :=
  c <- get ;;
  s <- getUnderlyingConn ;;
  let out := ftp_SetupFTPS e (gd_FTP (grabData c)) s in
  wrote (on_socket (out_wire out)) ;;;
  modify_grabData (set_gd_FTP (out_log out)) ;;;
  if negb (is_nil (out_err out)) then ret (out_err out) else
  if out_ready out then TLSHandshake e else ret None.

(** [func (c *Conn) SSHHandshake() error] *)
Definition SSHHandshake (e : Env) : M (option error) :=
  c <- get ;;
  let out := ssh_ClientHandshake e (sshScan c) in
  wrote (on_socket (out_wire out)) ;;;
  modify_grabData (set_gd_SSH (out_log out)) ;;;
  ret (out_err out).

(** ** Runs *)

(** The methods a caller can invoke on a connection. *)
Inductive Op : Type :=
| OpSetDHEOnly | OpSetExportsOnly | OpSetExportsDHOnly
| OpSetChromeCiphers | OpSetChromeNoDHECiphers
| OpSetFirefoxCiphers | OpSetFirefoxNoDHECiphers
| OpSetSafariCiphers | OpSetSafariNoDHECiphers
| OpSetExtendedRandom | OpSetNoSNI
| OpSetCAPool (pool : option foreign)
| OpSetDomain (d : string)
| OpLocalAddr | OpRemoteAddr
| OpSetDeadline (t : Time)
| OpSetReadDeadline (t : Time)
| OpSetWriteDeadline (t : Time)
| OpWrite (b : bytes)
| OpBasicBanner
| OpRead (b : bytes)
| OpClose
| OpHTTP (config : foreign)
| OpTLSHandshake
| OpSendStartTLSCommand (command : string)
| OpSMTPStartTLSHandshake | OpPOP3StartTLSHandshake
| OpIMAPStartTLSHandshake
| OpSMTPBanner (b : bytes) | OpPOP3Banner (b : bytes)
| OpIMAPBanner (b : bytes)
| OpEHLO (d : string)
| OpSMTPHelp
| OpCheckHeartbleed (b : bytes)
| OpSendModbusEcho
| OpGetFTPSCertificates
| OpSSHHandshake.

Definition ignore {A : Type} (m : M A) : M unit := _ <- m ;; ret tt.

(** One call, its result dropped. *)
Definition exec (e : Env) (op : Op) : M unit :=
  match op with
  | OpSetDHEOnly => SetDHEOnly
  | OpSetExportsOnly => SetExportsOnly
  | OpSetExportsDHOnly => SetExportsDHOnly
  | OpSetChromeCiphers => SetChromeCiphers
  | OpSetChromeNoDHECiphers => SetChromeNoDHECiphers
  | OpSetFirefoxCiphers => SetFirefoxCiphers
  | OpSetFirefoxNoDHECiphers => SetFirefoxNoDHECiphers
  | OpSetSafariCiphers => SetSafariCiphers
  | OpSetSafariNoDHECiphers => SetSafariNoDHECiphers
  | OpSetExtendedRandom => SetExtendedRandom
  | OpSetNoSNI => SetNoSNI
  | OpSetCAPool pool => SetCAPool pool
  | OpSetDomain d => SetDomain d
  | OpLocalAddr => ignore LocalAddr
  | OpRemoteAddr => ignore RemoteAddr
  | OpSetDeadline t => ignore (SetDeadline e t)
  | OpSetReadDeadline t => ignore (SetReadDeadline e t)
  | OpSetWriteDeadline t => ignore (SetWriteDeadline e t)
  | OpWrite b => ignore (Write e b)
  | OpBasicBanner => ignore (BasicBanner e)
  | OpRead b => ignore (Read e b)
  | OpClose => ignore (Close e)
  | OpHTTP config => ignore (HTTP e config)
  | OpTLSHandshake => ignore (TLSHandshake e)
  | OpSendStartTLSCommand command => ignore (sendStartTLSCommand e command)
  | OpSMTPStartTLSHandshake => ignore (SMTPStartTLSHandshake e)
  | OpPOP3StartTLSHandshake => ignore (POP3StartTLSHandshake e)
  | OpIMAPStartTLSHandshake => ignore (IMAPStartTLSHandshake e)
  | OpSMTPBanner b => ignore (SMTPBanner e b)
  | OpPOP3Banner b => ignore (POP3Banner e b)
  | OpIMAPBanner b => ignore (IMAPBanner e b)
  | OpEHLO d => ignore (EHLO e d)
  | OpSMTPHelp => ignore (SMTPHelp e)
  | OpCheckHeartbleed b => ignore (CheckHeartbleed e b)
  | OpSendModbusEcho => ignore (SendModbusEcho e)
  | OpGetFTPSCertificates => ignore (GetFTPSCertificates e)
  | OpSSHHandshake => ignore (SSHHandshake e)
  end.

(** A sequence of calls, each against the answers the outside world
    gives at that moment. *)
Fixpoint run (calls : list (Env * Op)) : M unit :=
  match calls with
  | [] => ret tt
  | (e, op) :: rest => exec e op ;;; run rest
  end.

End zlib.

(* ===================================================================== *)
(** * The wire format of the DH key exchange, as the specification has it *)
(* ===================================================================== *)

Module Wire.

Import Slice.

(** The 16-bit big-endian number two bytes stand for. *)
Definition declared (hi lo : byte) : Z := byteZ hi * 256 + byteZ lo.

(** [binary.BigEndian.PutUint16] *)
Definition PutUint16 (v : Z) : bytes :=
  [byte_of_Z (Z.shiftr v 8); byte_of_Z v].

(** A field: its length on 16 bits, big-endian, then its bytes. *)
Definition field (f : bytes) : bytes := PutUint16 (len f) ++ f.

(** A field's length has to fit the 16-bit prefix. *)
Definition fits (f : bytes) : Prop := len f < 2 ^ 16.

(** [Truncated n buf]: of the [n] fields expected in [buf], one is cut
    short: fewer than 2 bytes remain where its length prefix is expected,
    or its declared length exceeds the bytes that remain after the
    prefix. *)
Inductive Truncated : nat -> bytes -> Prop :=
| short_prefix n buf :
    len buf < 2 -> Truncated (S n) buf
| short_body n hi lo rest :
    len rest < declared hi lo -> Truncated (S n) (hi :: lo :: rest)
| later_field n f rest :
    fits f -> Truncated n rest -> Truncated (S n) (field f ++ rest).

End Wire.

(* ===================================================================== *)
(** * Notions the properties are stated with                               *)
(* ===================================================================== *)

Module Recorder.

(** Membership of a negotiated suite in one of the package's families. *)
Definition in_family (X : ztls.Externs) (t : ztls.CipherTable)
           (cipher : ztls.uint16) : bool :=
  ztls.cipherInList X cipher (ztls.suites X t).

(** How many of [RSAExportParams], [DHExportParams] and [DHParams] a log
    holds. *)
Definition present {A : Type} (o : option A) : nat :=
  match o with
  | Some _ => 1
  | None => 0
  end.

Definition params_populated (hs : ztls.ServerHandshake) : nat :=
  (present (ztls.hs_RSAExportParams hs)
   + present (ztls.hs_DHExportParams hs)
   + present (ztls.hs_DHParams hs))%nat.

(** The three parameter fields are the same in two logs. *)
Definition same_params (hs hs' : ztls.ServerHandshake) : Prop :=
  ztls.hs_RSAExportParams hs' = ztls.hs_RSAExportParams hs
  /\ ztls.hs_DHExportParams hs' = ztls.hs_DHExportParams hs
  /\ ztls.hs_DHParams hs' = ztls.hs_DHParams hs.

(** A package instance to run the recorder on: one suite per family, the
    lookup a linear search, and an RSA decoder that wants at least one
    byte and takes the first one as the exponent. *)
Definition sample : ztls.Externs :=
  ztls.mkExterns
    (fun t => match t with
              | ztls.RSAExportCiphers => [0x0003]
              | ztls.RSA512ExportCiphers => [0x0003]
              | ztls.DHEExportCiphers => [0x0014]
              | ztls.DHECiphers => [0x0033; 0x0014]
              | _ => []
              end)
    (fun cipher l => existsb (Z.eqb cipher) l)
    (fun key => match key with
                | [] => (ztls.mkRsaExportParams [] [], false)
                | b :: rest => (ztls.mkRsaExportParams rest [b], true)
                end).

End Recorder.

Module Policy.

(** The cipher-policy flags of a connection in the order [TLSHandshake]
    tests them, each with the table it stands for. *)
Definition flags (c : zlib.Conn) : list (bool * ztls.CipherTable) :=
  [ (zlib.onlyDHE c, ztls.DHECiphers);
    (zlib.onlyExports c, ztls.RSA512ExportCiphers);
    (zlib.onlyExportsDH c, ztls.DHEExportCiphers);
    (zlib.chromeCiphers c, ztls.ChromeCiphers);
    (zlib.chromeNoDHE c, ztls.ChromeNoDHECiphers);
    (zlib.firefoxCiphers c, ztls.FirefoxCiphers);
    (zlib.firefoxNoDHECiphers c, ztls.FirefoxNoDHECiphers);
    (zlib.safariCiphers c, ztls.SafariCiphers);
    (zlib.safariNoDHECiphers c, ztls.SafariNoDHECiphers) ].

(** The table of the first flag that is set, if any. *)
Fixpoint first_set (l : list (bool * ztls.CipherTable))
  : option ztls.CipherTable :=
  match l with
  | [] => None
  | (b, t) :: rest => if b then Some t else first_set rest
  end.

(** The table of the last flag that is set, if any. *)
Definition last_set (l : list (bool * ztls.CipherTable))
  : option ztls.CipherTable :=
  first_set (rev l).

Definition count_set (l : list (bool * ztls.CipherTable)) : nat :=
  List.length (filter fst l).

(** The browser-emulation profiles. *)
Inductive Browser : Type :=
| Chrome | ChromeNoDHE | Firefox | FirefoxNoDHE | Safari | SafariNoDHE.

(** Selecting a profile: the setter the caller invokes for it. *)
Definition select (b : Browser) : zlib.M unit :=
  match b with
  | Chrome => zlib.SetChromeCiphers
  | ChromeNoDHE => zlib.SetChromeNoDHECiphers
  | Firefox => zlib.SetFirefoxCiphers
  | FirefoxNoDHE => zlib.SetFirefoxNoDHECiphers
  | Safari => zlib.SetSafariCiphers
  | SafariNoDHE => zlib.SetSafariNoDHECiphers
  end.

Definition selected (b : Browser) (c : zlib.Conn) : bool :=
  match b with
  | Chrome => zlib.chromeCiphers c
  | ChromeNoDHE => zlib.chromeNoDHE c
  | Firefox => zlib.firefoxCiphers c
  | FirefoxNoDHE => zlib.firefoxNoDHECiphers c
  | Safari => zlib.safariCiphers c
  | SafariNoDHE => zlib.safariNoDHECiphers c
  end.

End Policy.

Module Sample.

(** A connection as it is after dialling: plaintext, nothing recorded, no
    policy flag set. *)
Definition dialled : zlib.Conn :=
  zlib.mkConn
    (zlib.mkNetConn "192.0.2.1:50000" "192.0.2.25:25" [] false)
    None false
    (zlib.mkGrabData EmptyString EmptyString EmptyString EmptyString
                     EmptyString None None None None None None None)
    0x0303 0 0 None
    false false false false false false false false false
    false false EmptyString EmptyString None EmptyString.

(** A peer that accepts every write, answers every read with [response],
    and whose TLS handshake ends as [handshake] says. *)
Definition peer (response : string) (handshake : zlib.HandshakeOutcome)
  : zlib.Env :=
  let nothing := zlib.mkOutcome 0 false None None EmptyString [] in
  zlib.mkEnv
    (fun _ b => (Slice.len b, None))
    (fun _ _ => (zlib.bytes_of response, None))
    (fun _ => None)
    (fun _ _ => None)
    (fun _ _ _ => (zlib.bytes_of response, None))
    (fun _ => handshake)
    (fun _ => zlib.mkHeartbleedOutcome 0 None None [])
    (fun _ => nothing)
    (fun _ _ => nothing)
    (fun _ _ _ => Ret nothing)
    (fun _ => Ret nothing).

(** A handshake that completes, one that the server aborts for want of
    a common suite, and one that fails on the wire. *)
Definition completes : zlib.HandshakeOutcome :=
  zlib.mkHandshakeOutcome None (Some ztls.newServerHandshake) [[x16]].

Definition no_common_suite : zlib.HandshakeOutcome :=
  zlib.mkHandshakeOutcome (Some ErrUnimplementedCipher)
                          (Some ztls.newServerHandshake) [[x16]].

Definition breaks : zlib.HandshakeOutcome :=
  zlib.mkHandshakeOutcome (Some (errorString "EOF")) None [[x16]].

(** The result of [m] on [c], when it returns. *)
Definition after {A : Type} (m : zlib.M A) (c : zlib.Conn) : zlib.Conn :=
  match m c with
  | Ret (_, c') => c'
  | Panic _ => c
  end.

(** A caller that asked for DHE-only and for export-only suites, one that
    selected the Chrome profile, and one that selected the Safari
    profile. *)
Definition dhe_and_exports : zlib.Conn :=
  after zlib.SetExportsOnly (after zlib.SetDHEOnly dialled).

Definition chrome : zlib.Conn :=
  after (Policy.select Policy.Chrome) dialled.

Definition safari : zlib.Conn :=
  after (Policy.select Policy.Safari) dialled.

(** Two replies to STARTTLS. *)
Definition go_ahead : string := String.append "220 Go ahead" zlib.CRLF.
Definition unavailable : string :=
  String.append "454 TLS unavailable" zlib.CRLF.

(** The dialled connection after a handshake that broke. *)
Definition broken : zlib.Conn :=
  after (zlib.TLSHandshake (peer EmptyString breaks)) dialled.

(** What a caller may try after the handshake broke: the SMTP upgrade, a
    write, the handshake again. *)
Definition retries : list (zlib.Env * zlib.Op) :=
  [ (peer go_ahead completes, zlib.OpSMTPStartTLSHandshake);
    (peer go_ahead completes, zlib.OpWrite [x68; x69]);
    (peer go_ahead completes, zlib.OpTLSHandshake) ].

Definition retried : zlib.Conn := after (zlib.run retries) broken.

(** The dialled connection after a handshake that completed. *)
Definition upgraded : zlib.Conn :=
  after (zlib.TLSHandshake (peer EmptyString completes)) dialled.

End Sample.

Module Upgrade.

Import zlib.

(** The connection has gone through [TLSHandshake]: it is marked as TLS
    and owns a TLS stream. *)
Definition established (c : Conn) : Prop :=
  isTls c = true /\ tlsConn c <> None.

(** The mark alone. *)
Definition marked (c : Conn) : Prop := isTls c = true.

(** A method keeps a property of the connection whenever it returns. *)
Definition preserves {A : Type} (I : Conn -> Prop) (m : M A) : Prop :=
  forall c a c', I c -> m c = Ret (a, c') -> I c'.

(** The three errors that report a misuse of the connection. *)
Definition repeat_handshake (c : Conn) : error :=
  errorString (String.append "Attempted repeat handshake with remote host "
                             (remote (conn c))).

Definition starttls_after_tls (c : Conn) : error :=
  errorString
    (String.append "Attempt STARTTLS after TLS handshake with remote host "
                   (remote (conn c))).

Definition heartbleed_before_tls (c : Conn) : error :=
  errorString
    (String.append
       "Must perform TLS handshake before sending Heartbleed probe to "
       (remote (conn c))).

(** The error [TLSHandshake] returns for an outcome of the engine. *)
Definition handshake_error (tlsConfig : ztls.Config)
           (out : HandshakeOutcome) : option error :=
  if ztls.ForceSuites tlsConfig && is_ErrUnimplementedCipher (ho_err out)
  then None else ho_err out.

(** The reply to STARTTLS is accepted: the read succeeded, it holds at
    least 5 bytes, and its first three characters parse as an integer
    from 200 to 299. *)
Definition smtp_accepts (reply : Slice.bytes) (err : option error) : bool :=
  is_nil err
  && (5 <=? Slice.len reply)
  && match Atoi (String.substring 0 3 (string_of reply)) with
     | Some code => (200 <=? code) && (code <=? 299)
     | None => false
     end.

(** Fewer than 5 bytes came back. *)
Definition reply_short (reply : Slice.bytes) : bool :=
  Slice.len reply <? 5.

(** The connection once the STARTTLS command went out and its reply was
    recorded. *)
Definition negotiated (command : string) (reply : Slice.bytes) (c : Conn)
  : Conn :=
  set_grabData
    (set_gd_StartTLS (string_of reply) (grabData c))
    (set_conn (log_written [(Raw, bytes_of command)] (conn c)) c).

End Upgrade.

(* ===================================================================== *)
(** * Package ztls: the other records of the handshake log                 *)
(* ===================================================================== *)

Module Log.

Import Slice.
Local Open Scope go_scope.

(** The fields of [serverHelloMsg] that [MakeLog] reads. *)
Record serverHelloMsg : Type := mkServerHelloMsg {
  vers : ztls.uint16;
  random : bytes;
  sessionId : bytes;
  cipherSuite : ztls.uint16;
  compressionMethod : Z;
  ocspStapling : bool;
  ticketSupported : bool;
  secureRenegotiation : bool;
  heartbeatEnabled : bool
}.

(** [func (m *serverHelloMsg) MakeLog() *ServerHello] *)
Definition hello_MakeLog (m : serverHelloMsg) : ztls.ServerHello :=
  ztls.mkServerHello (vers m) (clone (random m)) (clone (sessionId m))
                     (cipherSuite m) (compressionMethod m) (ocspStapling m)
                     (ticketSupported m) (secureRenegotiation m)
                     (heartbeatEnabled m).

Record certificateMsg : Type := mkCertificateMsg {
  certificates : list bytes
}.

(** [dst[idx] = v] *)
Definition store {A : Type} (dst : list A) (idx : nat) (v : A)
  : go (list A) :=
  if (idx <? List.length dst)%nat
  then Ret (firstn idx dst ++ v :: skipn (S idx) dst)
  else Panic "index out of range".

(** The loop of [certificateMsg.MakeLog]:
    [for idx, cert := range m.certificates { sc.Certificates[idx] = copy of cert }],
    from index [idx] on. *)
Fixpoint copy_certificates (dst : list bytes) (idx : nat)
         (certs : list bytes) : go (list bytes) :=
  match certs with
  | [] => Ret dst
  | cert :: rest =>
      dst <- store dst idx (clone cert) ;;
      copy_certificates dst (S idx) rest
  end.

(** [func (m *certificateMsg) MakeLog() *Certificates]; the slice is made
    with one nil entry per certificate and filled by index. *)
Definition cert_MakeLog (m : certificateMsg) : go ztls.Certificates :=
  let dst := repeat [] (List.length (certificates m)) in
  filled <- copy_certificates dst 0 (certificates m) ;;
  Ret (ztls.mkCertificates filled).

Record finishedMsg : Type := mkFinishedMsg {
  verifyData : bytes
}.

(** [func (m *finishedMsg) MakeLog() *Finished] *)
Definition finished_MakeLog (m : finishedMsg) : ztls.Finished :=
  ztls.mkFinished (clone (verifyData m)).

(** The anonymous struct [aux] of [DHParams.MarshalJSON]. *)
Record dhAux : Type := mkDhAux {
  dh_P : bytes;
  dh_PrimeLen : Z;
  dh_G : bytes;
  dh_Ys : bytes
}.

(** Calling a method of [*big.Int] that reads the number, on a pointer
    that may be nil. *)
Definition deref (x : option Z) : go Z :=
  match x with
  | Some v => Ret v
  | None => Panic "nil pointer dereference"
  end.

(** The struct [DHParams.MarshalJSON] hands to [json.Marshal]. *)
Definition dh_aux (p : ztls.DHParams) : go dhAux :=
  P <- deref (ztls.P p) ;;
  let aux_P := Big.Bytes P in
  let aux_PrimeLen := Big.BitLen P in
  G <- deref (ztls.G p) ;;
  let aux_G := Big.Bytes G in
  Ys <- deref (ztls.Ys p) ;;
  let aux_Ys := Big.Bytes Ys in
  Ret (mkDhAux aux_P aux_PrimeLen aux_G aux_Ys).

End Log.

(* ===================================================================== *)
(** * Further notions on connections                                       *)
(* ===================================================================== *)

Module Conns.

Import zlib.

(** The stream the pass-through methods talk to. *)
Definition current (c : Conn) : Stream :=
  if isTls c then Tls else Raw.

(** A connection as the methods of [conn.go] leave it: in plaintext, or
    marked as TLS with its TLS stream in place. *)
Definition usable (c : Conn) : Prop :=
  isTls c = false \/ Upgrade.established c.

(** The boolean settings of a connection that have a setter. *)
Inductive Setting : Type :=
| OnlyDHE | OnlyExports | OnlyExportsDH
| Chrome | ChromeNoDHE | Firefox | FirefoxNoDHE | Safari | SafariNoDHE
| NoSNI | ExtendedRandom.

Definition setting (s : Setting) (c : Conn) : bool :=
  match s with
  | OnlyDHE => onlyDHE c
  | OnlyExports => onlyExports c
  | OnlyExportsDH => onlyExportsDH c
  | Chrome => chromeCiphers c
  | ChromeNoDHE => chromeNoDHE c
  | Firefox => firefoxCiphers c
  | FirefoxNoDHE => firefoxNoDHECiphers c
  | Safari => safariCiphers c
  | SafariNoDHE => safariNoDHECiphers c
  | NoSNI => noSNI c
  | ExtendedRandom => extendedRandom c
  end.

(** The setter of a setting. *)
Definition turn_on (s : Setting) : Op :=
  match s with
  | OnlyDHE => OpSetDHEOnly
  | OnlyExports => OpSetExportsOnly
  | OnlyExportsDH => OpSetExportsDHOnly
  | Chrome => OpSetChromeCiphers
  | ChromeNoDHE => OpSetChromeNoDHECiphers
  | Firefox => OpSetFirefoxCiphers
  | FirefoxNoDHE => OpSetFirefoxNoDHECiphers
  | Safari => OpSetSafariCiphers
  | SafariNoDHE => OpSetSafariNoDHECiphers
  | NoSNI => OpSetNoSNI
  | ExtendedRandom => OpSetExtendedRandom
  end.

(** What the setter of a setting does to the connection. *)
Definition switch (s : Setting) : Conn -> Conn :=
  match s with
  | OnlyDHE => set_onlyDHE true
  | OnlyExports => set_onlyExports true
  | OnlyExportsDH => set_onlyExportsDH true
  | Chrome => set_chromeCiphers true
  | ChromeNoDHE => set_chromeNoDHE true
  | Firefox => set_firefoxCiphers true
  | FirefoxNoDHE => set_firefoxNoDHECiphers true
  | Safari => set_safariCiphers true
  | SafariNoDHE => set_safariNoDHECiphers true
  | NoSNI => set_noSNI true
  | ExtendedRandom => set_extendedRandom true
  end.

(** The reply to a STARTTLS-like command is accepted: the read succeeded
    and the reply starts with the marker of the protocol. *)
Definition reply_accepted (marker : string) (reply : Slice.bytes)
           (err : option error) : bool :=
  is_nil err && String.prefix marker (string_of reply).

(** The result record but for one field. *)
Definition but_TLSHandshake (g : GrabData) : GrabData :=
  set_gd_TLSHandshake None g.
Definition but_Heartbleed (g : GrabData) : GrabData :=
  set_gd_Heartbleed None g.
Definition but_Write (g : GrabData) : GrabData :=
  set_gd_Write EmptyString g.
Definition but_EHLO (g : GrabData) : GrabData :=
  set_gd_EHLO EmptyString g.
Definition but_SMTPHelp (g : GrabData) : GrabData :=
  set_gd_SMTPHelp None g.
Definition but_Banner (g : GrabData) : GrabData :=
  set_gd_Banner EmptyString g.
Definition but_FTP (g : GrabData) : GrabData :=
  set_gd_FTP None g.

(** The connection but for the socket's write log. *)
Definition but_written (c : Conn) : Conn :=
  set_conn (mkNetConn (local (conn c)) (remote (conn c)) [] (closed (conn c)))
           c.

End Conns.

Module Cases.

(** A peer like [Sample.peer] whose heartbeat answer is [probe]. *)
Definition bleeding (probe : zlib.HeartbleedOutcome) : zlib.Env :=
  let quiet := Sample.peer EmptyString Sample.completes in
  zlib.mkEnv (zlib.net_Write quiet) (zlib.net_Read quiet)
             (zlib.net_Close quiet) (zlib.net_SetDeadline quiet)
             (zlib.util_ReadUntilRegex quiet) (zlib.tls_Handshake quiet)
             (fun _ => probe)
             (zlib.ssh_ClientHandshake quiet) (zlib.ftp_SetupFTPS quiet)
             (zlib.http_exchange quiet) (zlib.modbus_exchange quiet).

(** The server answered the malformed heartbeat with 16 bytes. *)
Definition leaked : zlib.HeartbleedOutcome :=
  zlib.mkHeartbleedOutcome 16 (Some HeartbleedError) (Some (Foreign 1))
                           [[x18]].

(** A peer like [Sample.peer] whose socket takes [n] bytes of each write
    and then fails with [err]. *)
Definition choking (n : Z) (err : option error) (response : string)
  : zlib.Env :=
  let quiet := Sample.peer response Sample.completes in
  zlib.mkEnv (fun _ _ => (n, err)) (zlib.net_Read quiet)
             (zlib.net_Close quiet) (zlib.net_SetDeadline quiet)
             (zlib.util_ReadUntilRegex quiet) (zlib.tls_Handshake quiet)
             (zlib.tls_CheckHeartbleed quiet)
             (zlib.ssh_ClientHandshake quiet) (zlib.ftp_SetupFTPS quiet)
             (zlib.http_exchange quiet) (zlib.modbus_exchange quiet).

(** A peer like [Sample.peer] behind an FTP server that answered AUTH TLS
    as [setup] says. *)
Definition ftp_server (setup : zlib.Outcome) : zlib.Env :=
  let quiet := Sample.peer EmptyString Sample.completes in
  zlib.mkEnv (zlib.net_Write quiet) (zlib.net_Read quiet)
             (zlib.net_Close quiet) (zlib.net_SetDeadline quiet)
             (zlib.util_ReadUntilRegex quiet) (zlib.tls_Handshake quiet)
             (zlib.tls_CheckHeartbleed quiet)
             (zlib.ssh_ClientHandshake quiet) (fun _ _ => setup)
             (zlib.http_exchange quiet) (zlib.modbus_exchange quiet).

End Cases.

(* ===================================================================== *)
(** * Package zlib: the HTTP exchange and the Modbus probe                 *)
(* ===================================================================== *)

(** Go's [int], 64 bits wide: the result of an arithmetic operation wraps
    around. *)
Definition int64 (x : Z) : Z := (x + 2 ^ 63) mod 2 ^ 64 - 2 ^ 63.

(** [%d] of [fmt]. *)
Definition itoa (x : Z) : string := NilZero.string_of_int (Z.to_int x).

(** [strings.Split(s, sep)[0]] for a separator of one character: what
    comes before its first occurrence, all of [s] when there is none. *)
Fixpoint before (sep : ascii) (s : string) : string :=
  match s with
  | EmptyString => EmptyString
  | String ch rest =>
      if Ascii.eqb ch sep then EmptyString else String ch (before sep rest)
  end.

Module St.

(** A method that reads and updates a state [S] and returns or panics:
    the connection together with the objects the method reaches through
    pointers. *)
Definition ST (S A : Type) : Type := S -> go (A * S).

Definition ret {S A : Type} (a : A) : ST S A := fun s => Ret (a, s).

Definition bind {S A B : Type} (m : ST S A) (k : A -> ST S B) : ST S B :=
  fun s => match m s with
           | Ret (a, s') => k a s'
           | Panic msg => Panic msg
           end.

Definition get {S : Type} : ST S S := fun s => Ret (s, s).

Definition modify {S : Type} (f : S -> S) : ST S unit :=
  fun s => Ret (tt, f s).

Definition lift {S A : Type} (g : go A) : ST S A :=
  fun s => match g with
           | Ret a => Ret (a, s)
           | Panic msg => Panic msg
           end.

(** A method of the connection, run on the connection inside the state. *)
Definition zoom {S A : Type} (proj : S -> zlib.Conn)
           (inj : zlib.Conn -> S -> S) (m : zlib.M A) : ST S A :=
  fun s => match m (proj s) with
           | Ret (a, c) => Ret (a, inj c s)
           | Panic msg => Panic msg
           end.

(** A method relates the state it is called in to the state it returns
    in. *)
Definition leads {S A : Type} (R : S -> S -> Prop) (m : ST S A) : Prop :=
  forall s a s', m s = Ret (a, s') -> R s s'.

End St.

Declare Scope st_scope.
Delimit Scope st_scope with st.
Notation "x <- m ;; k" := (St.bind m (fun x => k))
  (at level 61, m at next level, right associativity) : st_scope.
Notation "m ;;; k" := (St.bind m (fun _ => k))
  (at level 61, right associativity) : st_scope.

Module Http.

Import Slice zlib.
Local Open Scope st_scope.

(** ** The values exchanged *)

(** The fields of [HTTPConfig] (declared in a file that is not at hand)
    that [conn.go] reads. *)
Record HTTPConfig : Type := mkHTTPConfig {
  cfg_Method : string;
  cfg_Endpoint : string;
  cfg_UserAgent : string;
  cfg_ProxyDomain : string;
  cfg_MaxSize : Z;
  cfg_MaxRedirects : Z
}.

Definition set_cfg_Endpoint (v : string) (config : HTTPConfig) : HTTPConfig :=
  mkHTTPConfig (cfg_Method config) v (cfg_UserAgent config)
               (cfg_ProxyDomain config) (cfg_MaxSize config)
               (cfg_MaxRedirects config).

(** The fields of [HTTPRequest] that [conn.go] assigns. *)
Record HTTPRequest : Type := mkHTTPRequest {
  enc_Endpoint : string;
  enc_Method : string;
  enc_UserAgent : string
}.

Definition set_enc_Endpoint (v : string) (r : HTTPRequest) : HTTPRequest :=
  mkHTTPRequest v (enc_Method r) (enc_UserAgent r).
Definition set_enc_Method (v : string) (r : HTTPRequest) : HTTPRequest :=
  mkHTTPRequest (enc_Endpoint r) v (enc_UserAgent r).

(** [url.URL] and [http.Request], the fields that [conn.go] assigns;
    [req_UserAgent] is the [User-Agent] entry of the header. *)
Record URL : Type := mkURL {
  Scheme : string;
  Host : string;
  Path : string
}.

Definition set_Host (v : string) (u : URL) : URL :=
  mkURL (Scheme u) v (Path u).
Definition set_Path (v : string) (u : URL) : URL :=
  mkURL (Scheme u) (Host u) v.

Record http_Request : Type := mk_http_Request {
  req_Method : string;
  req_Host : string;
  req_Proto : string;
  req_URL : URL;
  req_UserAgent : string
}.

Definition set_req_Method (v : string) (r : http_Request) : http_Request :=
  mk_http_Request v (req_Host r) (req_Proto r) (req_URL r) (req_UserAgent r).
Definition set_req_Host (v : string) (r : http_Request) : http_Request :=
  mk_http_Request (req_Method r) v (req_Proto r) (req_URL r)
                  (req_UserAgent r).
Definition set_req_URL (v : URL) (r : http_Request) : http_Request :=
  mk_http_Request (req_Method r) (req_Host r) (req_Proto r) v
                  (req_UserAgent r).

(** [http.Response], the fields that [conn.go] reads; [res_Body] is what
    [ioutil.ReadAll(res.Body)] returns: the bytes, and the message of the
    error if there is one. *)
Record http_Response : Type := mk_http_Response {
  res_StatusCode : Z;
  res_Status : string;
  res_Proto : string;
  res_ProtoMajor : Z;
  res_ProtoMinor : Z;
  res_Header : foreign;
  res_Body : bytes * option string
}.

(** [HTTPHeaders]: [conn.go] indexes it with a string and asserts the
    entry to be a string, so it is a map from strings to values of an
    interface type. *)
Inductive Value : Type :=
| VString (s : string)
| VOther (v : foreign).

Definition HTTPHeaders : Type := list (string * Value).

(** [h[key]]: the entry, nil when there is none. *)
Fixpoint index (h : HTTPHeaders) (key : string) : option Value :=
  match h with
  | [] => None
  | (k, v) :: rest => if String.eqb k key then Some v else index rest key
  end.

(** [v.(string)] *)
Definition assert_string (v : option Value) : go string :=
  match v with
  | Some (VString s) => Ret s
  | _ => Panic "interface conversion: interface is not string"
  end.

(** The fields of [HTTPResponse] that [conn.go] assigns or reads. *)
Record HTTPResponse : Type := mkHTTPResponse {
  StatusCode : Z;
  StatusLine : string;
  VersionMajor : Z;
  VersionMinor : Z;
  Headers : HTTPHeaders;
  Body : string;
  BodySHA256 : option bytes
}.

(** The fields of [HTTPRequestResponse] that [conn.go] assigns. *)
Record HTTPRequestResponse : Type := mkHTTPRequestResponse {
  ProxyRequest : option HTTPRequest;
  ProxyResponse : option HTTPResponse;
  Request : option HTTPRequest;
  Response : option HTTPResponse;
  RedirectRequests : list (option HTTPRequest);
  RedirectResponses : list (option HTTPResponse)
}.

Definition set_ProxyRequest (v : option HTTPRequest)
           (h : HTTPRequestResponse) : HTTPRequestResponse :=
  mkHTTPRequestResponse v (ProxyResponse h) (Request h) (Response h)
                        (RedirectRequests h) (RedirectResponses h).
Definition set_ProxyResponse (v : option HTTPResponse)
           (h : HTTPRequestResponse) : HTTPRequestResponse :=
  mkHTTPRequestResponse (ProxyRequest h) v (Request h) (Response h)
                        (RedirectRequests h) (RedirectResponses h).
Definition set_Request (v : option HTTPRequest)
           (h : HTTPRequestResponse) : HTTPRequestResponse :=
  mkHTTPRequestResponse (ProxyRequest h) (ProxyResponse h) v (Response h)
                        (RedirectRequests h) (RedirectResponses h).
Definition set_Response (v : option HTTPResponse)
           (h : HTTPRequestResponse) : HTTPRequestResponse :=
  mkHTTPRequestResponse (ProxyRequest h) (ProxyResponse h) (Request h) v
                        (RedirectRequests h) (RedirectResponses h).
Definition set_RedirectRequests (v : list (option HTTPRequest))
           (h : HTTPRequestResponse) : HTTPRequestResponse :=
  mkHTTPRequestResponse (ProxyRequest h) (ProxyResponse h) (Request h)
                        (Response h) v (RedirectResponses h).
Definition set_RedirectResponses (v : list (option HTTPResponse))
           (h : HTTPRequestResponse) : HTTPRequestResponse :=
  mkHTTPRequestResponse (ProxyRequest h) (ProxyResponse h) (Request h)
                        (Response h) (RedirectRequests h) v.

(** [new(HTTPRequestResponse)] *)
Definition new_HTTPRequestResponse : HTTPRequestResponse :=
  mkHTTPRequestResponse None None None None [] [].

(** ** The outside world *)

(** The answers of what the HTTP methods call and do not define.  The
    peer answers a request knowing the requests it was sent before:
    [req_Write] and [http_ReadResponse] are given all the requests handed
    to the stream so far, the current one last.

    - [http_NewRequest method]: the error of
      [http.NewRequest(method, url, nil)] for the empty url;
    - [net_SplitHostPort]: the host [net.SplitHostPort] returns, the
      empty string when it fails;
    - [req_Write]: what [req.Write] wrote, and its error;
    - [http_ReadResponse]: the response, or the message of the error;
    - [HeadersFromGolangHeaders], [isRedirect], [canRedirectWithConn]:
      functions of package [zlib] that are declared in files that are not
      at hand;
    - [sha256_Sum]: the digest;
    - [url_Parse]: the [Host] and the [RequestURI()] of the parsed
      location, or the error. *)
Record World : Type := mkWorld {
  http_NewRequest : string -> option error;
  net_SplitHostPort : string -> string;
  req_Write : list http_Request -> Stream -> http_Request
              -> list bytes * option error;
  http_ReadResponse : list http_Request -> Stream -> http_Request
                      -> http_Response + string;
  HeadersFromGolangHeaders : foreign -> HTTPHeaders;
  sha256_Sum : bytes -> bytes;
  isRedirect : HTTPResponse -> bool;
  canRedirectWithConn : HTTPResponse -> Conn -> bool;
  url_Parse : string -> (string * string) + error
}.

(** ** The state *)

(** What the HTTP methods reach: the connection, [c.grabData.HTTP] (kept
    here with its fields, the result record of the connection holding it
    as an opaque value), the configuration [config] points to (the caller
    sees the assignments to it), and the requests handed to the stream,
    oldest first. *)
Record State : Type := mkState {
  st_conn : Conn;
  st_HTTP : option HTTPRequestResponse;
  st_config : HTTPConfig;
  st_asked : list http_Request
}.

Definition set_st_conn (v : Conn) (st : State) : State :=
  mkState v (st_HTTP st) (st_config st) (st_asked st).
Definition set_st_HTTP (v : option HTTPRequestResponse) (st : State) : State :=
  mkState (st_conn st) v (st_config st) (st_asked st).
Definition set_st_config (v : HTTPConfig) (st : State) : State :=
  mkState (st_conn st) (st_HTTP st) v (st_asked st).
Definition set_st_asked (v : list http_Request) (st : State) : State :=
  mkState (st_conn st) (st_HTTP st) (st_config st) v.

Definition H (A : Type) : Type := St.ST State A.

Definition on_conn {A : Type} (m : M A) : H A :=
  St.zoom st_conn set_st_conn m.

(** An assignment [c.grabData.HTTP.field = v]; it needs the record. *)
Definition update_HTTP (f : HTTPRequestResponse -> HTTPRequestResponse)
  : H unit :=
  st <- St.get ;;
  match st_HTTP st with
  | None => St.lift (Panic "nil pointer dereference")
  | Some h => St.modify (set_st_HTTP (Some (f h)))
  end.

(** [if c.grabData.HTTP == nil { c.grabData.HTTP = new(...) }] *)
Definition alloc_HTTP : H unit :=
  st <- St.get ;;
  match st_HTTP st with
  | None => St.modify (set_st_HTTP (Some new_HTTPRequestResponse))
  | Some _ => St.ret tt
  end.

Definition deref {A : Type} (p : option A) : H A :=
  match p with
  | Some a => St.ret a
  | None => St.lift (Panic "nil pointer dereference")
  end.

(** ** The methods *)

Definition default_UserAgent : string := "Mozilla/5.0 zgrab/0.x".

(** [func (c *Conn) makeHTTPRequest(config *HTTPConfig)
      (req *http.Request, encReq *HTTPRequest, err error)] *)
Definition makeHTTPRequest (w : World)
  : H (option http_Request * option HTTPRequest * option error) :=
  st <- St.get ;;
  let config := st_config st in
  let c := st_conn st in
  let err := http_NewRequest w (cfg_Method config) in
  if negb (is_nil err) then St.ret (None, None, err) else
  host <- (if 0 <? Z.of_nat (String.length (domain c))
           then St.ret (domain c)
           else addr <- on_conn RemoteAddr ;;
                St.ret (net_SplitHostPort w addr)) ;;
  let scheme := if isTls c then "https"%string else "http"%string in
  let url := mkURL scheme host (cfg_Endpoint config) in
  let userAgent :=
    if 0 <? Z.of_nat (String.length (cfg_UserAgent config))
    then cfg_UserAgent config
    else default_UserAgent in
  let req := mk_http_Request (cfg_Method config) host "HTTP/1.1" url
                             userAgent in
  let encReq := mkHTTPRequest (cfg_Endpoint config) (cfg_Method config)
                              userAgent in
  St.ret (Some req, Some encReq, None).

(** [1024*config.MaxSize] *)
Definition limit (config : HTTPConfig) : Z :=
  int64 (1024 * cfg_MaxSize config).

(** Lines 255 to 259 and 263 to 267: the error is replaced by one with
    the front of its message when the message is longer than the
    limit. *)
Definition clip_error (config : HTTPConfig) (msg : string) : go error :=
  if limit config <? Z.of_nat (String.length msg)
  then (m <- str_upto msg (limit config) ;; Ret (errorString m))%go
  else Ret (errorString msg).

(** Lines 275 to 280. *)
Definition clip_body (config : HTTPConfig) (body : bytes) : go bytes :=
  if limit config <? len body
  then upto body (limit config)
  else Ret body.

(** [func (c *Conn) sendHTTPRequestReadHTTPResponse(req *http.Request,
      config *HTTPConfig) (encRes *HTTPResponse, err error)].  The
    callers do not use [req] after the call, so the assignment to
    [req.Method] is seen by [http.ReadResponse] only. *)
Definition sendHTTPRequestReadHTTPResponse (w : World) (req : http_Request)
  : H (option HTTPResponse * option error) :=
  uc <- on_conn getUnderlyingConn ;;
  St.modify (fun st => set_st_asked (st_asked st ++ [req]) st) ;;;
  st <- St.get ;;
  let config := st_config st in
  let asked := st_asked st in
  let '(wire, err) := req_Write w asked uc req in
  on_conn (wrote (on_socket wire)) ;;;
  if negb (is_nil err) then St.ret (None, err) else
  let req :=
    if String.eqb (req_Method req) "CONNECT"
    then set_req_Method "HEAD" req
    else req in
  match http_ReadResponse w asked uc req with
  | inr msg =>
      err <- St.lift (clip_error config msg) ;;
      St.ret (None, Some err)
  | inl res =>
      match res_Body res with
      | (_, Some msg) =>
          err <- St.lift (clip_error config msg) ;;
          St.ret (None, Some err)
      | (body, None) =>
          let headers := HeadersFromGolangHeaders w (res_Header res) in
          bodyOutput <- St.lift (clip_body config body) ;;
          let encRes :=
            mkHTTPResponse
              (res_StatusCode res)
              (String.append (res_Proto res)
                             (String.append " " (res_Status res)))
              (res_ProtoMajor res) (res_ProtoMinor res) headers
              (string_of bodyOutput)
              (if 0 <? len bodyOutput
               then Some (sha256_Sum w bodyOutput)
               else None) in
          St.ret (Some encRes, None)
      end
  end.

Definition StatusOK : Z := 200.
Definition StatusMultipleChoices : Z := 300.
Definition StatusMovedPermanently : Z := 301.
Definition StatusFound : Z := 302.
Definition StatusSeeOther : Z := 303.
Definition StatusNotModified : Z := 304.
Definition StatusUseProxy : Z := 305.
Definition StatusTemporaryRedirect : Z := 307.

Definition proxy_refused (code : Z) : error :=
  errorString (String.append "proxy connect returned status " (itoa code)).

(** [func (c *Conn) doProxy(config *HTTPConfig) error].  [encReq] is the
    pointer stored in [ProxyRequest], so the two assignments to it after
    the store show in the record. *)
Definition doProxy (w : World) : H (option error) :=
  r <- makeHTTPRequest w ;;
  let '(req, encReq, err) := r in
  if negb (is_nil err) then St.ret err else
  alloc_HTTP ;;;
  update_HTTP (set_ProxyRequest encReq) ;;;
  req <- deref req ;;
  st <- St.get ;;
  let config := st_config st in
  let req := set_req_Method "CONNECT" req in
  let req := set_req_URL (set_Path (cfg_ProxyDomain config) (req_URL req))
                         req in
  encReq <- deref encReq ;;
  let encReq := set_enc_Method (req_Method req) encReq in
  let encReq := set_enc_Endpoint (Path (req_URL req)) encReq in
  update_HTTP (set_ProxyRequest (Some encReq)) ;;;
  r <- sendHTTPRequestReadHTTPResponse w req ;;
  let '(encRes, err) := r in
  if negb (is_nil err) then St.ret err else
  update_HTTP (set_ProxyResponse encRes) ;;;
  encRes <- deref encRes ;;
  if negb (StatusCode encRes =? StatusOK)
  then St.ret (Some (proxy_refused (StatusCode encRes)))
  else St.ret None.

(** [func (c *Conn) makeAndSendHTTPRequest(config *HTTPConfig)]: the
    recorded request, the recorded response and the error. *)
Definition makeAndSendHTTPRequest (w : World)
  : H (option HTTPRequest * option HTTPResponse * option error) :=
  r <- makeHTTPRequest w ;;
  let '(req, encReq, err) := r in
  if negb (is_nil err) then St.ret (encReq, None, err) else
  st <- St.get ;;
  let config := st_config st in
  req <- (if 0 <? Z.of_nat (String.length (cfg_ProxyDomain config))
          then
            let host := before ":" (cfg_ProxyDomain config) in
            req <- deref req ;;
            let req := set_req_Host host req in
            St.ret (Some (set_req_URL (set_Host host (req_URL req)) req))
          else St.ret req) ;;
  req <- deref req ;;
  r <- sendHTTPRequestReadHTTPResponse w req ;;
  let '(encRes, err) := r in
  if negb (is_nil err) then St.ret (encReq, encRes, err) else
  St.ret (encReq, encRes, None).

(** The three errors of the redirect loop: the message, [%d], the domain
    and the remote address. *)
Definition redirect_error (what : string) (code : Z) (tail : string)
  : H (option error) :=
  addr <- on_conn RemoteAddr ;;
  st <- St.get ;;
  St.ret (Some (errorString
                  (String.append what
                  (String.append (itoa code)
                  (String.append tail
                  (String.append (domain (st_conn st))
                  (String.append " ("
                  (String.append addr ")")))))))).

Definition follows (code : Z) : bool :=
  (code =? StatusMultipleChoices) || (code =? StatusMovedPermanently)
  || (code =? StatusFound) || (code =? StatusSeeOther)
  || (code =? StatusTemporaryRedirect).

(** The loop of [doHTTP], lines 329 to 362.  [turns] is
    [config.MaxRedirects - redirectCount]: the loop does not assign
    [MaxRedirects], and [redirectCount] goes up by one at each turn. *)
Fixpoint redirects (w : World) (turns : nat)
         (httpResponse : option HTTPResponse) {struct turns}
  : H (option error) :=
  res <- deref httpResponse ;;
  st <- St.get ;;
  if negb (isRedirect w res && canRedirectWithConn w res (st_conn st))
  then St.ret None else
  match turns with
  | O => St.ret None
  | S turns =>
      location <- St.lift (assert_string (index (Headers res) "location")) ;;
      if String.eqb location EmptyString then
        redirect_error "No location found for " (StatusCode res)
                       " response from "
      else if follows (StatusCode res) then
        match url_Parse w location with
        | inr err => St.ret (Some err)
        | inl (host, uri) =>
            on_conn (modify (set_domain host)) ;;;
            St.modify (fun st =>
                         set_st_config (set_cfg_Endpoint uri (st_config st))
                                       st) ;;;
            r <- makeAndSendHTTPRequest w ;;
            let '(httpRequest, httpResponse, err) := r in
            if negb (is_nil err) then St.ret err else
            update_HTTP (fun h =>
                           set_RedirectRequests
                             (RedirectRequests h ++ [httpRequest]) h) ;;;
            update_HTTP (fun h =>
                           set_RedirectResponses
                             (RedirectResponses h ++ [httpResponse]) h) ;;;
            redirects w turns httpResponse
        end
      else if StatusCode res =? StatusUseProxy then
        redirects w turns httpResponse
      else if StatusCode res =? StatusNotModified then
        redirect_error "Unexpected StatusNotModified response code: "
                       StatusNotModified " from "
      else
        redirect_error "Invalid redirect response code: "
                       (StatusCode res) " from "
  end.

(** [func (c *Conn) doHTTP(config *HTTPConfig) error] *)
Definition doHTTP (w : World) : H (option error) :=
  alloc_HTTP ;;;
  r <- makeAndSendHTTPRequest w ;;
  let '(httpRequest, httpResponse, err) := r in
  if negb (is_nil err) then St.ret err else
  update_HTTP (set_Request httpRequest) ;;;
  update_HTTP (set_Response httpResponse) ;;;
  st <- St.get ;;
  redirects w (Z.to_nat (cfg_MaxRedirects (st_config st))) httpResponse.

(** [func (c *Conn) HTTP(config *HTTPConfig) error], with what it calls
    spelled out. *)
Definition HTTP (w : World) : H (option error) :=
  st <- St.get ;;
  err <- (if 0 <? Z.of_nat (String.length (cfg_ProxyDomain (st_config st)))
          then doProxy w
          else St.ret None) ;;
  if negb (is_nil err) then St.ret err else
  doHTTP w.

(** ** Notions the properties are stated with *)

(** The user agent a request goes out with. *)
Definition agent (config : HTTPConfig) : string :=
  if 0 <? Z.of_nat (String.length (cfg_UserAgent config))
  then cfg_UserAgent config
  else default_UserAgent.

(** The host a request is made for when no proxy is configured. *)
Definition target (w : World) (c : Conn) : string :=
  if 0 <? Z.of_nat (String.length (domain c))
  then domain c
  else net_SplitHostPort w (remote (conn c)).

(** The host of a request: the proxy's, without its port, when a proxy
    is configured. *)
Definition host_for (w : World) (st : State) : string :=
  if 0 <? Z.of_nat (String.length (cfg_ProxyDomain (st_config st)))
  then before ":" (cfg_ProxyDomain (st_config st))
  else target w (st_conn st).

(** The request for the configured endpoint, made for [host]. *)
Definition request_to (host : string) (st : State) : http_Request :=
  let config := st_config st in
  mk_http_Request
    (cfg_Method config) host "HTTP/1.1"
    (mkURL (if isTls (st_conn st) then "https" else "http")
           host (cfg_Endpoint config))
    (agent config).

(** The request [doProxy] hands over, and its record. *)
Definition connect (w : World) (st : State) : http_Request :=
  let req := request_to (target w (st_conn st)) st in
  set_req_URL (set_Path (cfg_ProxyDomain (st_config st)) (req_URL req))
              (set_req_Method "CONNECT" req).

Definition connect_record (st : State) : HTTPRequest :=
  mkHTTPRequest (cfg_ProxyDomain (st_config st)) "CONNECT"
                (agent (st_config st)).

(** The state once [req] was handed to the current stream. *)
Definition handed (w : World) (req : http_Request) (st : State) : State :=
  let asked := st_asked st ++ [req] in
  let c := st_conn st in
  let wire := fst (req_Write w asked (Conns.current c) req) in
  mkState (set_conn (log_written (on_socket wire) (conn c)) c)
          (st_HTTP st) (st_config st) asked.

(** The answers of the peer to [req] in state [st]: the error of the
    write, and what [http.ReadResponse] is given and returns. *)
Definition write_error (w : World) (req : http_Request) (st : State)
  : option error :=
  snd (req_Write w (st_asked st ++ [req]) (Conns.current (st_conn st)) req).

Definition read_as (req : http_Request) : http_Request :=
  if String.eqb (req_Method req) "CONNECT"
  then set_req_Method "HEAD" req
  else req.

Definition reply (w : World) (req : http_Request) (st : State)
  : http_Response + string :=
  http_ReadResponse w (st_asked st ++ [req]) (Conns.current (st_conn st))
                    (read_as req).

(** What the HTTP methods may do to the connection: write to the socket
    and move to another domain. *)
Definition touched (c c' : Conn) : Prop :=
  exists wire d,
    c' = set_domain d (set_conn (log_written (on_socket wire) (conn c)) c).

(** What they may do to the state besides the record: touch the
    connection, point the configuration to another endpoint, and hand
    over more requests. *)
Definition frame (st st' : State) : Prop :=
  touched (st_conn st) (st_conn st')
  /\ (exists endpoint,
         st_config st' = set_cfg_Endpoint endpoint (st_config st))
  /\ (exists more, st_asked st' = st_asked st ++ more).

(** The record in [c.grabData.HTTP], a fresh one if there is none. *)
Definition record (st : State) : HTTPRequestResponse :=
  match st_HTTP st with
  | Some h => h
  | None => new_HTTPRequestResponse
  end.

(** The state once the connection and the configuration point to the
    location of a redirect. *)
Definition pointed (host uri : string) (st : State) : State :=
  mkState (set_domain host (st_conn st)) (st_HTTP st)
          (set_cfg_Endpoint uri (st_config st)) (st_asked st).

(** What the redirect loop returns for a redirect it does not follow. *)
Definition verdict (code : Z) (c : Conn) : option error :=
  let place :=
    String.append (domain c)
                  (String.append " ("
                                 (String.append (remote (conn c)) ")")) in
  if code =? StatusUseProxy then None
  else if code =? StatusNotModified then
    Some (errorString
            (String.append
               "Unexpected StatusNotModified response code: 304 from "
               place))
  else
    Some (errorString
            (String.append
               "Invalid redirect response code: "
               (String.append (itoa code) (String.append " from " place)))).

(** The record once the requests [reqs] and the responses [ress] were
    appended to its redirects. *)
Definition followed (reqs : list (option HTTPRequest))
           (ress : list (option HTTPResponse)) (h : HTTPRequestResponse)
  : HTTPRequestResponse :=
  set_RedirectResponses
    (RedirectResponses h ++ ress)
    (set_RedirectRequests (RedirectRequests h ++ reqs) h).

End Http.

Module Web.

Import zlib Http.

(** Two answers: moved to another host, and a page of five bytes. *)
Definition moved : http_Response :=
  mk_http_Response 301 "301 Moved Permanently" "HTTP/1.1" 1 1 (Foreign 1)
                   ([], None).

Definition page : http_Response :=
  mk_http_Response 200 "200 OK" "HTTP/1.1" 1 1 (Foreign 2)
                   ([x68; x65; x6c; x6c; x6f], None).

(** A server that accepts every request, answers the first one with
    [first] and the others with the page; a response counts as a
    redirect when its status is between 300 and 399. *)
Definition server (first : http_Response) : World :=
  mkWorld
    (fun _ => None)
    (before ":")
    (fun _ _ _ => ([[x47]], None))
    (fun asked _ _ =>
       match asked with
       | [_] => inl first
       | _ => inl page
       end)
    (fun header =>
       match header with
       | Foreign 1 => [("location"%string, VString "http://example.org/")]
       | _ => []
       end)
    (fun _ => [x2c])
    (fun r => (300 <=? StatusCode r) && (StatusCode r <? 400))
    (fun _ _ => true)
    (fun _ => inl ("example.org"%string, "/"%string)).

(** A recorded response with status 308 and a location. *)
Definition permanent : HTTPResponse :=
  mkHTTPResponse 308 "HTTP/1.1 308 Permanent Redirect" 1 1
                 [("location"%string, VString "http://example.org/")]
                 EmptyString None.

(** A request for the root, bodies kept up to [kb] kilobytes, at most
    [hops] redirects followed, through [proxy] if it is not empty. *)
Definition fetch (kb hops : Z) (proxy : string) : HTTPConfig :=
  mkHTTPConfig "GET" "/" EmptyString proxy kb hops.

(** The dialled connection, nothing asked yet. *)
Definition start (config : HTTPConfig) : State :=
  mkState Sample.dialled None config [].

(** The state [m] leaves, when it returns. *)
Definition after {A : Type} (m : H A) (st : State) : State :=
  match m st with
  | Ret (_, st') => st'
  | Panic _ => st
  end.

End Web.

Module Modbus.

Import Slice zlib.
Local Open Scope st_scope.

(** The fields of [ModbusRequest], of the response [GetModbusResponse]
    returns and of [ModbusEvent] (all declared in files that are not at
    hand) that [conn.go] assigns or reads; [ev_parsed] stands for what
    [ParseSelf] adds to the event. *)
Record ModbusRequest : Type := mkModbusRequest {
  rq_Function : Z;
  rq_Data : bytes
}.

Record ModbusResponse : Type := mkModbusResponse {
  rs_Length : Z;
  rs_UnitID : Z;
  rs_Function : Z;
  rs_Data : bytes
}.

Record ModbusEvent : Type := mkModbusEvent {
  ev_Length : Z;
  ev_UnitID : Z;
  ev_Function : Z;
  ev_Response : bytes;
  ev_parsed : option foreign
}.

(** [new(ModbusEvent)] *)
Definition new_ModbusEvent : ModbusEvent := mkModbusEvent 0 0 0 [] None.

(** What [SendModbusEcho] calls and does not define: the function code,
    the request codec, [GetModbusResponse] (taken to read from the
    connection only; a nil response is [None]), [ParseSelf], and the
    socket, whose answer to a write depends on how many writes came
    before. *)
Record World : Type := mkWorld {
  ModbusFunctionEncapsulatedInterface : Z;
  MarshalBinary : ModbusRequest -> bytes * option error;
  GetModbusResponse : Conn -> option ModbusResponse * option error;
  ParseSelf : ModbusEvent -> ModbusEvent;
  socket : nat -> Env
}.

(** The connection and [c.grabData.Modbus], kept here with its fields. *)
Record State : Type := mkState {
  st_conn : Conn;
  st_Modbus : option ModbusEvent
}.

Definition set_st_conn (v : Conn) (st : State) : State :=
  mkState v (st_Modbus st).
Definition set_st_Modbus (v : option ModbusEvent) (st : State) : State :=
  mkState (st_conn st) v.

Definition MB (A : Type) : Type := St.ST State A.

Definition on_conn {A : Type} (m : M A) : MB A :=
  St.zoom st_conn set_st_conn m.

(** How the write loop ends: by the [return] inside it, by its condition
    turning false, or not within the turns it was given. *)
Inductive Flow : Type :=
| Returned (w : Z) (err : option error)
| Finished (w : Z)
| Unfinished.

(** The loop of [SendModbusEcho], lines 621 to 628, run for at most
    [turns] turns; [i] counts the writes made. *)
Fixpoint write_loop (world : World) (event : ModbusEvent) (data : bytes)
         (turns : nat) (i : nat) (w : Z) {struct turns} : MB Flow :=
  if negb (w <? len data) then St.ret (Finished w) else
  match turns with
  | O => St.ret Unfinished
  | S turns =>
      uc <- on_conn getUnderlyingConn ;;
      rest <- St.lift (from data w) ;;
      let '(written, err) := net_Write (socket world i) uc rest in
      on_conn (wrote [(uc, rest)]) ;;;
      let w := int64 (w + written) in
      if negb (is_nil err) then
        St.modify (set_st_Modbus (Some event)) ;;;
        St.ret (Returned w (errors_New "Could not write modbus request"))
      else write_loop world event data turns (S i) w
  end.

(** [func (c *Conn) SendModbusEcho() (int, error)]; [None] when the write
    loop did not end within [turns] turns. *)
Definition SendModbusEcho (world : World) (turns : nat)
  : MB (option (Z * option error)) :=
  let req :=
    mkModbusRequest (ModbusFunctionEncapsulatedInterface world)
                    [x0e; x01; x00] in
  let event := new_ModbusEvent in
  let '(data, _) := MarshalBinary world req in
  flow <- write_loop world event data turns 0 0 ;;
  match flow with
  | Unfinished => St.ret None
  | Returned w err => St.ret (Some (w, err))
  | Finished w =>
      st <- St.get ;;
      let '(res, err) := GetModbusResponse world (st_conn st) in
      match res with
      | None => St.lift (Panic "nil pointer dereference")
      | Some res =>
          let event :=
            mkModbusEvent (rs_Length res) (rs_UnitID res) (rs_Function res)
                          (rs_Data res) (ev_parsed event) in
          let event := ParseSelf world event in
          St.modify (set_st_Modbus (Some event)) ;;;
          St.ret (Some (w, err))
      end
  end.

(** ** Notions the properties are stated with *)

(** The request of [SendModbusEcho] on the wire. *)
Definition echo (world : World) : bytes :=
  fst (MarshalBinary
         world
         (mkModbusRequest (ModbusFunctionEncapsulatedInterface world)
                          [x0e; x01; x00])).

(** The socket keeps the contract of [io.Writer] as far as the write loop
    needs it: a write of a buffer that is not empty and that returns no
    error has taken at least one byte, and no more than the buffer
    holds. *)
Definition progresses (world : World) : Prop :=
  forall i s b,
    b <> [] ->
    snd (net_Write (socket world i) s b) = None ->
    0 < fst (net_Write (socket world i) s b) <= len b.

(** The event for a response. *)
Definition event_of (world : World) (res : ModbusResponse) : ModbusEvent :=
  ParseSelf world
            (mkModbusEvent (rs_Length res) (rs_UnitID res) (rs_Function res)
                           (rs_Data res) None).

(** A device whose request is [data], whose socket takes up to [n] bytes
    of each write and fails from write number [broken] on, and that
    answers with an empty response. *)
Definition device (data : bytes) (n : Z) (broken : nat) : World :=
  let quiet := Sample.peer EmptyString Sample.completes in
  mkWorld
    43
    (fun _ => (data, None))
    (fun _ => (Some (mkModbusResponse 0 0 43 []), None))
    (fun event => event)
    (fun i =>
       mkEnv (fun _ b => (Z.min n (len b),
                          if (broken <=? i)%nat
                          then Some (errorString "EOF") else None))
             (net_Read quiet) (net_Close quiet) (net_SetDeadline quiet)
             (util_ReadUntilRegex quiet) (tls_Handshake quiet)
             (tls_CheckHeartbleed quiet) (ssh_ClientHandshake quiet)
             (ftp_SetupFTPS quiet) (http_exchange quiet)
             (modbus_exchange quiet)).

(** The dialled connection, no event recorded. *)
Definition start : State := mkState Sample.dialled None.

End Modbus.
Module Deadlines.

Import zlib.




End Deadlines.

(* ===================================================================== *)
(** * Properties: bytes and slices                                         *)
(* ===================================================================== *)

Section SliceFacts.

Import Slice.

Lemma byteZ_range (b : byte) : 0 <= byteZ b < 256.
Proof.
  unfold byteZ. pose proof (Byte.to_N_bounded b) as H.
  split; [apply N2Z.is_nonneg | ].
  apply N2Z.inj_le in H. change (Z.of_N 255) with 255 in H. lia.
Qed.

Lemma byteZ_byte_of_Z (v : Z) : byteZ (byte_of_Z v) = v mod 256.
Proof.
  unfold byte_of_Z, byteZ.
  change 255 with (Z.ones 8). rewrite Z.land_ones by lia.
  change (2 ^ 8) with 256.
  pose proof (Z.mod_pos_bound v 256 ltac:(lia)) as Hm.
  destruct (Byte.of_N (Z.to_N (v mod 256))) as [b|] eqn:Hb.
  - apply Byte.to_of_N in Hb. rewrite Hb. apply Z2N.id. lia.
  - apply Byte.of_N_None_iff in Hb. lia.
Qed.

Lemma len_nonneg {A : Type} (s : list A) : 0 <= len s.
Proof. unfold len. lia. Qed.

Lemma len_app {A : Type} (s t : list A) : len (s ++ t) = len s + len t.
Proof. unfold len. rewrite length_app. lia. Qed.

Lemma len_cons {A : Type} (a : A) (s : list A) : len (a :: s) = 1 + len s.
Proof. unfold len. simpl List.length. lia. Qed.

Lemma upto_Ret {A : Type} (s : list A) (hi : Z) :
  0 <= hi <= len s -> upto s hi = Ret (firstn (Z.to_nat hi) s).
Proof.
  intros [H0 H1]. unfold upto.
  destruct (Z.leb_spec 0 hi); [ | lia].
  destruct (Z.leb_spec hi (len s)); [reflexivity | lia].
Qed.

Lemma from_Ret {A : Type} (s : list A) (lo : Z) :
  0 <= lo <= len s -> from s lo = Ret (skipn (Z.to_nat lo) s).
Proof.
  intros [H0 H1]. unfold from.
  destruct (Z.leb_spec 0 lo); [ | lia].
  destruct (Z.leb_spec lo (len s)); [reflexivity | lia].
Qed.

Lemma upto_app {A : Type} (f rest : list A) : upto (f ++ rest) (len f) = Ret f.
Proof.
  rewrite upto_Ret.
  - unfold len. rewrite Nat2Z.id, firstn_app, Nat.sub_diag, firstn_all.
    simpl. now rewrite app_nil_r.
  - rewrite len_app. pose proof (len_nonneg f). pose proof (len_nonneg rest). lia.
Qed.

Lemma from_app {A : Type} (f rest : list A) : from (f ++ rest) (len f) = Ret rest.
Proof.
  rewrite from_Ret.
  - unfold len. rewrite Nat2Z.id, skipn_app, Nat.sub_diag, skipn_all.
    reflexivity.
  - rewrite len_app. pose proof (len_nonneg f). pose proof (len_nonneg rest). lia.
Qed.

Lemma from_2 {A : Type} (a b : A) (s : list A) : from (a :: b :: s) 2 = Ret s.
Proof. apply (from_app [a; b] s). Qed.

Lemma len_lt_2 {A : Type} (s : list A) :
  (len s <? 2) = false -> exists a b t, s = a :: b :: t.
Proof.
  intros H. apply Z.ltb_ge in H.
  destruct s as [|a [|b t]]; unfold len in H; simpl in H; try lia.
  now exists a, b, t.
Qed.

(** The [|] and [<<] of [Uint16] add up: the two bytes occupy disjoint
    bits. *)
Lemma lor_shiftl_8 (x y : Z) :
  0 <= x < 256 -> 0 <= y -> Z.lor x (Z.shiftl y 8) = y * 256 + x.
Proof.
  intros Hx Hy.
  assert (Hdisj : Z.land x (Z.shiftl y 8) = 0).
  { apply Z.bits_inj'; intros n Hn.
    rewrite Z.land_spec, Z.bits_0.
    destruct (Z.ltb_spec n 8).
    - rewrite Z.shiftl_spec_low by lia. apply andb_false_r.
    - replace (Z.testbit x n) with false; [reflexivity | ].
      symmetry. destruct (Z.eq_dec x 0) as [->|Hnz]; [apply Z.bits_0 | ].
      apply Z.bits_above_log2; [lia | ].
      apply Z.lt_le_trans with 8; [ | lia].
      apply Z.log2_lt_pow2; lia. }
  rewrite <- Z.lxor_lor by exact Hdisj.
  rewrite <- Z.add_nocarry_lxor by exact Hdisj.
  rewrite Z.shiftl_mul_pow2 by lia.
  change (2 ^ 8) with 256. lia.
Qed.

Lemma Uint16_cons (hi lo : byte) (s : bytes) :
  BigEndian.Uint16 (hi :: lo :: s) = Ret (Wire.declared hi lo).
Proof.
  unfold BigEndian.Uint16, Wire.declared.
  rewrite lor_shiftl_8; [reflexivity | apply byteZ_range | apply byteZ_range].
Qed.

Lemma declared_range (hi lo : byte) : 0 <= Wire.declared hi lo < 2 ^ 16.
Proof.
  unfold Wire.declared.
  pose proof (byteZ_range hi). pose proof (byteZ_range lo). lia.
Qed.

Lemma declared_PutUint16 (v : Z) (s : bytes) :
  0 <= v < 2 ^ 16 ->
  exists hi lo, Wire.PutUint16 v ++ s = hi :: lo :: s /\ Wire.declared hi lo = v.
Proof.
  intros Hv. exists (byte_of_Z (Z.shiftr v 8)), (byte_of_Z v).
  split; [reflexivity | ].
  unfold Wire.declared. rewrite !byteZ_byte_of_Z, Z.shiftr_div_pow2 by lia.
  change (2 ^ 8) with 256.
  rewrite (Z.mod_small (v / 256) 256).
  - pose proof (Z.div_mod v 256 ltac:(lia)). lia.
  - split; [apply Z.div_pos; lia | apply Z.div_lt_upper_bound; lia].
Qed.

(** [SetBytes] computes the positional magnitude. *)
Lemma SetBytes_acc (buf : bytes) (acc : Z) :
  fold_left (fun acc b => acc * 256 + byteZ b) buf acc
  = acc * 256 ^ len buf + Big.magnitude buf.
Proof.
  revert acc. induction buf as [|b rest IH]; intros acc.
  - simpl. change (len []) with 0. lia.
  - simpl fold_left. rewrite IH. simpl Big.magnitude.
    rewrite len_cons, Z.pow_add_r by (try lia; apply len_nonneg).
    lia.
Qed.

Lemma SetBytes_magnitude (buf : bytes) : Big.SetBytes buf = Big.magnitude buf.
Proof. unfold Big.SetBytes. rewrite SetBytes_acc. lia. Qed.

End SliceFacts.

(* ===================================================================== *)
(** * Properties: the DH key-exchange decoder                              *)
(* ===================================================================== *)

Section DHDecoder.

Import Slice Wire.

Lemma len_ge_2 {A : Type} (a b : A) (s : list A) : (len (a :: b :: s) <? 2) = false.
Proof.
  apply Z.ltb_ge. rewrite !len_cons. pose proof (len_nonneg s). lia.
Qed.

Lemma len_app_ge {A : Type} (f rest : list A) : (len (f ++ rest) <? len f) = false.
Proof.
  apply Z.ltb_ge. rewrite len_app. pose proof (len_nonneg rest). lia.
Qed.

Lemma field_cons (f rest : bytes) :
  fits f ->
  exists hi lo,
    field f ++ rest = hi :: lo :: f ++ rest /\ declared hi lo = len f.
Proof.
  intros Hf. unfold field. rewrite <- app_assoc.
  apply declared_PutUint16. unfold fits in Hf.
  pose proof (len_nonneg f). lia.
Qed.

(** Reading the length prefix of a buffer that has one. *)
Ltac read_prefix :=
  rewrite len_ge_2, Uint16_cons, from_2; cbn [go_bind].

(** Reading a whole field off the front of the buffer. *)
Ltac read_field f rest Hf :=
  let hi := fresh "hi" in
  let lo := fresh "lo" in
  let Hbuf := fresh "Hbuf" in
  let Hlen := fresh "Hlen" in
  destruct (field_cons f rest Hf) as (hi & lo & Hbuf & Hlen);
  rewrite Hbuf; read_prefix; rewrite Hlen, len_app_ge.

(** Three fields in a row decode to their magnitudes, whatever follows
    them in the buffer. *)
Lemma unmarshal_fields (p : ztls.DHParams) (pb gb yb rest : bytes) :
  fits pb -> fits gb -> fits yb ->
  ztls.unmarshal p (field pb ++ field gb ++ field yb ++ rest)
  = Ret (ztls.mkDHParams (Some (Big.magnitude pb))
                         (Some (Big.magnitude gb))
                         (Some (Big.magnitude yb)), true).
Proof.
  intros Hp Hg Hy. unfold ztls.unmarshal.
  read_field pb (field gb ++ field yb ++ rest) Hp.
  rewrite upto_app, from_app; cbn [go_bind].
  read_field gb (field yb ++ rest) Hg.
  rewrite upto_app, from_app; cbn [go_bind].
  read_field yb rest Hy.
  rewrite upto_app; cbn [go_bind].
  rewrite !SetBytes_magnitude. reflexivity.
Qed.

(** The decoder returns on every buffer: no slice expression it evaluates
    is out of bounds. *)
Lemma unmarshal_total (p : ztls.DHParams) (buf : bytes) :
  exists p' ok, ztls.unmarshal p buf = Ret (p', ok).
Proof.
  unfold ztls.unmarshal.
  destruct (len buf <? 2) eqn:E1; [eauto | ].
  destruct (len_lt_2 _ E1) as (h1 & l1 & s1 & ->).
  rewrite Uint16_cons, from_2; cbn [go_bind].
  destruct (len s1 <? declared h1 l1) eqn:F1; [eauto | ].
  apply Z.ltb_ge in F1. pose proof (declared_range h1 l1).
  rewrite upto_Ret, from_Ret by lia; cbn [go_bind].
  destruct (len (skipn (Z.to_nat (declared h1 l1)) s1) <? 2) eqn:E2;
    [eauto | ].
  destruct (len_lt_2 _ E2) as (h2 & l2 & s2 & ->).
  rewrite Uint16_cons, from_2; cbn [go_bind].
  destruct (len s2 <? declared h2 l2) eqn:F2; [eauto | ].
  apply Z.ltb_ge in F2. pose proof (declared_range h2 l2).
  rewrite upto_Ret, from_Ret by lia; cbn [go_bind].
  destruct (len (skipn (Z.to_nat (declared h2 l2)) s2) <? 2) eqn:E3;
    [eauto | ].
  destruct (len_lt_2 _ E3) as (h3 & l3 & s3 & ->).
  rewrite Uint16_cons, from_2; cbn [go_bind].
  destruct (len s3 <? declared h3 l3) eqn:F3; [eauto | ].
  apply Z.ltb_ge in F3. pose proof (declared_range h3 l3).
  rewrite upto_Ret by lia; cbn [go_bind]. eauto.
Qed.

(** A field cut short stops the decoder with [false]. *)
Lemma cut_prefix {B : Type} (buf : bytes) (a b : B) :
  len buf < 2 -> (if len buf <? 2 then a else b) = a.
Proof. intros H. now destruct (Z.ltb_spec (len buf) 2); [ | lia]. Qed.

Lemma cut_body {B : Type} (s : bytes) (l : Z) (a b : B) :
  len s < l -> (if len s <? l then a else b) = a.
Proof. intros H. now destruct (Z.ltb_spec (len s) l); [ | lia]. Qed.

Lemma unmarshal_truncated (p : ztls.DHParams) (buf : bytes) :
  Truncated 3 buf -> exists p', ztls.unmarshal p buf = Ret (p', false).
Proof.
  intros T. unfold ztls.unmarshal.
  inversion T as [n1 b1 H1 | n1 h1 l1 r1 H1 | n1 f1 r1 Hf1 T1]; subst.
  - rewrite cut_prefix by assumption. eauto.
  - read_prefix. rewrite cut_body by assumption. eauto.
  - read_field f1 r1 Hf1. rewrite upto_app, from_app; cbn [go_bind].
    inversion T1 as [n2 b2 H2 | n2 h2 l2 r2 H2 | n2 f2 r2 Hf2 T2]; subst.
    + rewrite cut_prefix by assumption. eauto.
    + read_prefix. rewrite cut_body by assumption. eauto.
    + read_field f2 r2 Hf2. rewrite upto_app, from_app; cbn [go_bind].
      inversion T2 as [n3 b3 H3 | n3 h3 l3 r3 H3 | n3 f3 r3 Hf3 T3]; subst.
      * rewrite cut_prefix by assumption. eauto.
      * read_prefix. rewrite cut_body by assumption. eauto.
      * inversion T3.
Qed.

Lemma byte_of_Z_byteZ (b : byte) : byte_of_Z (byteZ b) = b.
Proof.
  unfold byte_of_Z, byteZ. pose proof (byteZ_range b) as Hb.
  unfold byteZ in Hb.
  change 255 with (Z.ones 8). rewrite Z.land_ones by lia.
  change (2 ^ 8) with 256. rewrite Z.mod_small by lia.
  now rewrite N2Z.id, Byte.of_to_N.
Qed.

Lemma PutUint16_declared (hi lo : byte) :
  PutUint16 (declared hi lo) = [hi; lo].
Proof.
  unfold PutUint16, declared.
  pose proof (byteZ_range hi) as Hhi. pose proof (byteZ_range lo) as Hlo.
  rewrite Z.shiftr_div_pow2 by lia. change (2 ^ 8) with 256.
  replace ((byteZ hi * 256 + byteZ lo) / 256) with (byteZ hi)
    by (apply Z.div_unique with (byteZ lo); lia).
  rewrite byte_of_Z_byteZ. f_equal. f_equal.
  rewrite <- (byte_of_Z_byteZ lo) at 2.
  unfold byte_of_Z. change 255 with (Z.ones 8).
  rewrite !Z.land_ones by lia. change (2 ^ 8) with 256.
  replace ((byteZ hi * 256 + byteZ lo) mod 256) with (byteZ lo mod 256);
    [reflexivity | ].
  rewrite Z.add_comm, Z.mod_add by lia. reflexivity.
Qed.

(** A prefix followed by at least as many bytes as it declares is a field
    followed by the rest. *)
Lemma cons_field (hi lo : byte) (s : bytes) :
  declared hi lo <= len s ->
  let n := Z.to_nat (declared hi lo) in
  fits (firstn n s) /\ hi :: lo :: s = field (firstn n s) ++ skipn n s.
Proof.
  intros Hle n. pose proof (declared_range hi lo) as Hd.
  assert (Hlen : len (firstn n s) = declared hi lo).
  { unfold len in *. rewrite length_firstn. subst n. lia. }
  split.
  - unfold fits. lia.
  - unfold field. rewrite Hlen, PutUint16_declared.
    cbn [app]. now rewrite firstn_skipn.
Qed.

(** Conversely, the decoder answers [false] on truncated buffers only. *)
Lemma unmarshal_false_truncated (p p' : ztls.DHParams) (buf : bytes) :
  ztls.unmarshal p buf = Ret (p', false) -> Truncated 3 buf.
Proof.
  unfold ztls.unmarshal.
  destruct (len buf <? 2) eqn:E1;
    [intros _; apply short_prefix; now apply Z.ltb_lt | ].
  destruct (len_lt_2 _ E1) as (h1 & l1 & s1 & ->).
  rewrite Uint16_cons, from_2; cbn [go_bind].
  destruct (len s1 <? declared h1 l1) eqn:F1;
    [intros _; apply short_body; now apply Z.ltb_lt | ].
  apply Z.ltb_ge in F1. pose proof (declared_range h1 l1).
  destruct (cons_field h1 l1 s1 F1) as [Hf1 ->].
  rewrite upto_Ret, from_Ret by lia; cbn [go_bind].
  destruct (len (skipn (Z.to_nat (declared h1 l1)) s1) <? 2) eqn:E2;
    [intros _; apply later_field; [exact Hf1 | ];
     apply short_prefix; now apply Z.ltb_lt | ].
  destruct (len_lt_2 _ E2) as (h2 & l2 & s2 & ->).
  rewrite Uint16_cons, from_2; cbn [go_bind].
  destruct (len s2 <? declared h2 l2) eqn:F2;
    [intros _; apply later_field; [exact Hf1 | ];
     apply short_body; now apply Z.ltb_lt | ].
  apply Z.ltb_ge in F2. pose proof (declared_range h2 l2).
  destruct (cons_field h2 l2 s2 F2) as [Hf2 ->].
  rewrite upto_Ret, from_Ret by lia; cbn [go_bind].
  destruct (len (skipn (Z.to_nat (declared h2 l2)) s2) <? 2) eqn:E3;
    [intros _; do 2 (apply later_field; [assumption | ]);
     apply short_prefix; now apply Z.ltb_lt | ].
  destruct (len_lt_2 _ E3) as (h3 & l3 & s3 & ->).
  rewrite Uint16_cons, from_2; cbn [go_bind].
  destruct (len s3 <? declared h3 l3) eqn:F3;
    [intros _; do 2 (apply later_field; [assumption | ]);
     apply short_body; now apply Z.ltb_lt | ].
  apply Z.ltb_ge in F3. pose proof (declared_range h3 l3).
  rewrite upto_Ret by lia; cbn [go_bind]. discriminate.
Qed.

End DHDecoder.

(** C1. A buffer made of exactly three well-formed length-prefixed fields
    (prime, generator, server public value) decodes with [ok = true] to the
    unsigned big-endian magnitudes of the three fields; a buffer in which
    fewer than 2 bytes remain where a length prefix is expected, or a
    declared length exceeds the bytes that remain, decodes with
    [ok = false], and no other buffer does; and the decoder returns (it
    does not panic) on every buffer. *)
Theorem dh_unmarshal_decodes (p : ztls.DHParams) (buf : Slice.bytes) :
  (exists p' ok, ztls.unmarshal p buf = Ret (p', ok))
  /\ (forall pb gb yb,
         Wire.fits pb -> Wire.fits gb -> Wire.fits yb ->
         buf = Wire.field pb ++ Wire.field gb ++ Wire.field yb ->
         ztls.unmarshal p buf
         = Ret (ztls.mkDHParams (Some (Big.magnitude pb))
                                (Some (Big.magnitude gb))
                                (Some (Big.magnitude yb)), true))
  /\ (Wire.Truncated 3 buf <->
      exists p', ztls.unmarshal p buf = Ret (p', false)).
Proof.
  split; [apply unmarshal_total | split; [ | split]].
  - intros pb gb yb Hp Hg Hy ->.
    rewrite <- (app_nil_r (Wire.field yb)).
    now apply unmarshal_fields.
  - apply unmarshal_truncated.
  - intros [p' E]. exact (unmarshal_false_truncated p p' buf E).
Qed.

(** The prime 23, the generator 5 and the public value 256, and the same
    buffer with its last byte missing. *)
Lemma dh_unmarshal_decodes_witness :
  ztls.unmarshal ztls.newDHParams
                 [x00; x01; x17; x00; x01; x05; x00; x02; x01; x00]
  = Ret (ztls.mkDHParams (Some 23) (Some 5) (Some 256), true)
  /\ exists p',
      ztls.unmarshal ztls.newDHParams
                     [x00; x01; x17; x00; x01; x05; x00; x02; x01]
      = Ret (p', false).
Proof.
  split.
  - apply (proj1 (proj2 (dh_unmarshal_decodes ztls.newDHParams _))
             [x17] [x05] [x01; x00]);
      reflexivity.
  - apply (proj1 (proj2 (proj2 (dh_unmarshal_decodes ztls.newDHParams _)))).
    apply (Wire.later_field 2 [x17]); [reflexivity | ].
    apply (Wire.later_field 1 [x05]); [reflexivity | ].
    apply Wire.short_body. reflexivity.
Defined.

(* ===================================================================== *)
(** * Properties: the handshake recorder                                   *)
(* ===================================================================== *)

Section RecorderFacts.

Import Recorder.

Variable X : ztls.Externs.

Lemma present_le_1 {A : Type} (o : option A) : (present o <= 1)%nat.
Proof. destruct o; simpl; lia. Qed.

(** The key-exchange log is the only field [setSkx] assigns besides the
    three parameter fields. *)
Lemma setSkx_returns hs skx cipher :
  exists hs', ztls.setSkx X hs skx cipher = Ret hs'
              /\ ztls.hs_ServerKeyExchange hs' = Some (ztls.skx_MakeLog skx)
              /\ ztls.hs_ServerHello hs' = ztls.hs_ServerHello hs
              /\ ztls.hs_ServerCertificates hs' = ztls.hs_ServerCertificates hs
              /\ ztls.hs_ServerFinished hs' = ztls.hs_ServerFinished hs.
Proof.
  unfold ztls.setSkx.
  destruct (unmarshal_total ztls.newDHParams (ztls.skx_key skx))
    as (p & ok & E).
  rewrite E; cbn [go_bind].
  destruct (ztls.rsa_unmarshal X (ztls.skx_key skx)) as [q okq].
  repeat match goal with
         | |- context [if ?b then _ else _] => destruct b
         end;
    eexists; repeat split.
Qed.

End RecorderFacts.

(** C2. Whatever suite was negotiated and whatever bytes the key exchange
    holds, [setSkx] returns, and of [RSAExportParams], [DHExportParams] and
    [DHParams] it assigns at most one: the one of the first family, in the
    order RSA-export, DHE-export, DHE, that contains the suite, and only
    when that family's decoder accepts the bytes.  It assigns none when the
    suite is in no family or when the decoder rejects the bytes; it has no
    error to report. *)
Theorem setSkx_populates_at_most_one
        (X : ztls.Externs) (hs : ztls.ServerHandshake)
        (skx : ztls.serverKeyExchangeMsg) (cipher : ztls.uint16) :
  let key := ztls.skx_key skx in
  let rsa := Recorder.in_family X ztls.RSAExportCiphers cipher in
  let dhx := Recorder.in_family X ztls.DHEExportCiphers cipher in
  let dhe := Recorder.in_family X ztls.DHECiphers cipher in
  exists hs',
    ztls.setSkx X hs skx cipher = Ret hs'
    /\ (Recorder.params_populated hs = 0%nat ->
        (Recorder.params_populated hs' <= 1)%nat)
    /\ ((ztls.hs_RSAExportParams hs' = ztls.hs_RSAExportParams hs
         /\ ztls.hs_DHExportParams hs' = ztls.hs_DHExportParams hs)
        \/ (ztls.hs_RSAExportParams hs' = ztls.hs_RSAExportParams hs
            /\ ztls.hs_DHParams hs' = ztls.hs_DHParams hs)
        \/ (ztls.hs_DHExportParams hs' = ztls.hs_DHExportParams hs
            /\ ztls.hs_DHParams hs' = ztls.hs_DHParams hs))
    /\ (ztls.hs_RSAExportParams hs' <> ztls.hs_RSAExportParams hs ->
        rsa = true)
    /\ (ztls.hs_DHExportParams hs' <> ztls.hs_DHExportParams hs ->
        rsa = false /\ dhx = true)
    /\ (ztls.hs_DHParams hs' <> ztls.hs_DHParams hs ->
        rsa = false /\ dhx = false /\ dhe = true)
    /\ (rsa = false -> dhx = false -> dhe = false ->
        Recorder.same_params hs hs')
    /\ (rsa = true -> snd (ztls.rsa_unmarshal X key) = false ->
        Recorder.same_params hs hs')
    /\ (rsa = false ->
        (exists p, ztls.unmarshal ztls.newDHParams key = Ret (p, false)) ->
        Recorder.same_params hs hs')
    /\ (rsa = true -> forall p, ztls.rsa_unmarshal X key = (p, true) ->
        ztls.hs_RSAExportParams hs' = Some (ztls.rsa_MakeLog p))
    /\ (rsa = false -> dhx = true ->
        forall p, ztls.unmarshal ztls.newDHParams key = Ret (p, true) ->
        ztls.hs_DHExportParams hs' = Some p)
    /\ (rsa = false -> dhx = false -> dhe = true ->
        forall p, ztls.unmarshal ztls.newDHParams key = Ret (p, true) ->
        ztls.hs_DHParams hs' = Some p).
Proof.
  intros key rsa dhx dhe.
  unfold ztls.setSkx, Recorder.same_params, Recorder.params_populated.
  fold key.
  change (ztls.cipherInList X cipher (ztls.suites X ztls.RSAExportCiphers))
    with rsa.
  change (ztls.cipherInList X cipher (ztls.suites X ztls.DHEExportCiphers))
    with dhx.
  change (ztls.cipherInList X cipher (ztls.suites X ztls.DHECiphers))
    with dhe.
  destruct (unmarshal_total ztls.newDHParams key) as (p & ok & E).
  rewrite E; cbn [go_bind].
  destruct (ztls.rsa_unmarshal X key) as [q okq] eqn:Eq.
  destruct hs as [sh sc sk r x d fin]; cbn.
  destruct rsa, dhx, dhe, okq, ok; cbn;
    eexists; (split; [reflexivity | ]); cbn;
    repeat split;
    try (intros; subst; cbn; lia);
    try congruence;
    try (intros; exfalso; congruence);
    try (intros; repeat match goal with
                        | H : exists _, _ |- _ => destruct H
                        end; congruence);
    try (left; split; reflexivity);
    try (right; left; split; reflexivity);
    try (right; right; split; reflexivity).
Qed.

(** On a DHE-export suite with a well-formed key exchange, the export
    field is the one populated. *)
Lemma setSkx_populates_at_most_one_witness :
  exists hs',
    ztls.setSkx Recorder.sample ztls.newServerHandshake
                (ztls.mkServerKeyExchangeMsg []
                   [x00; x01; x17; x00; x01; x05; x00; x02; x01; x00])
                0x0014
    = Ret hs'
    /\ (Recorder.params_populated hs' <= 1)%nat
    /\ ztls.hs_DHExportParams hs'
       = Some (ztls.mkDHParams (Some 23) (Some 5) (Some 256)).
Proof.
  destruct (setSkx_populates_at_most_one
              Recorder.sample ztls.newServerHandshake
              (ztls.mkServerKeyExchangeMsg []
                 [x00; x01; x17; x00; x01; x05; x00; x02; x01; x00])
              0x0014)
    as (hs' & E & Hpop & _ & _ & _ & _ & _ & _ & _ & _ & Hdhx & _).
  exists hs'. split; [exact E | ]. split.
  - apply Hpop. reflexivity.
  - apply Hdhx; reflexivity.
Defined.

(* ===================================================================== *)
(** * Properties: the export signature algorithm                           *)
(* ===================================================================== *)

Section ExportSignatureAlgorithm.

Import Slice.

Lemma esa_hash (v : Z) :
  0 <= v < 2 ^ 16 -> byteZ (byte_of_Z (Z.shiftr v 8)) = v / 256.
Proof.
  intros Hv. rewrite byteZ_byte_of_Z, Z.shiftr_div_pow2 by lia.
  change (2 ^ 8) with 256. apply Z.mod_small.
  split; [apply Z.div_pos; lia | apply Z.div_lt_upper_bound; lia].
Qed.

Lemma esa_alg (v : Z) : byteZ (byte_of_Z v) = v mod 256.
Proof. apply byteZ_byte_of_Z. Qed.

(** The name looked up for an identifier: the table entry when the
    identifier is below the table's length, the empty string otherwise;
    the lookup never indexes out of range. *)
Lemma name_lookup (tbl : list string) (i : Z) :
  0 <= i ->
  (if i <? len tbl then ztls.index tbl i else Ret EmptyString)
  = Ret (if i <? len tbl then nth (Z.to_nat i) tbl EmptyString
         else EmptyString).
Proof.
  intros Hi. destruct (Z.ltb_spec i (len tbl)) as [Hlt|]; [ | reflexivity].
  unfold ztls.index.
  destruct (Z.leb_spec 0 i); [ | lia].
  destruct (Z.ltb_spec i (len tbl)); [reflexivity | lia].
Qed.

Lemma esa_aux_value (v : Z) :
  0 <= v < 2 ^ 16 ->
  ztls.esa_aux v
  = Ret (ztls.mkEsaAux
           v
           (if v / 256 <? 6
            then nth (Z.to_nat (v / 256)) ztls.exportHashes EmptyString
            else EmptyString)
           (v / 256)
           (if v mod 256 <? 4
            then nth (Z.to_nat (v mod 256)) ztls.exportAlgorithms EmptyString
            else EmptyString)
           (v mod 256)).
Proof.
  intros Hv. unfold ztls.esa_aux.
  rewrite (esa_hash v Hv), esa_alg.
  rewrite !name_lookup.
  - reflexivity.
  - apply Z.mod_pos_bound. lia.
  - apply Z.div_pos; lia.
Qed.

End ExportSignatureAlgorithm.

(** C7. For every 16-bit value, [MarshalJSON] returns an object whose
    [value] is the value itself, whose [hash_id] is its high byte and whose
    [algorithm_id] is its low byte, so that the value is recovered from the
    two identifiers; the name of an identifier below its table's length is
    the table entry, and the name of an identifier at or beyond the length
    is left out of the object, without any failure. *)
Theorem export_signature_algorithm_json (v : Z) :
  0 <= v < 2 ^ 16 ->
  exists obj,
    ztls.MarshalJSON v = Ret obj
    /\ ztls.get "value" obj = Some (ztls.JNumber v)
    /\ ztls.get "hash_id" obj = Some (ztls.JNumber (v / 256))
    /\ ztls.get "algorithm_id" obj = Some (ztls.JNumber (v mod 256))
    /\ 256 * (v / 256) + v mod 256 = v
    /\ (Slice.len ztls.exportHashes <= v / 256 ->
        ztls.get "hash_name" obj = None)
    /\ (Slice.len ztls.exportAlgorithms <= v mod 256 ->
        ztls.get "algorithm_name" obj = None)
    /\ (v / 256 < Slice.len ztls.exportHashes ->
        ztls.get "hash_name" obj
        = Some (ztls.JString
                  (nth (Z.to_nat (v / 256)) ztls.exportHashes EmptyString)))
    /\ (v mod 256 < Slice.len ztls.exportAlgorithms ->
        ztls.get "algorithm_name" obj
        = Some (ztls.JString
                  (nth (Z.to_nat (v mod 256)) ztls.exportAlgorithms
                       EmptyString))).
Proof.
  intros Hv. unfold ztls.MarshalJSON.
  rewrite (esa_aux_value v Hv); cbn [go_bind].
  eexists; split; [reflexivity | ].
  pose proof (Z.div_mod v 256 ltac:(lia)) as Hdm.
  pose proof (Z.mod_pos_bound v 256 ltac:(lia)) as Hm.
  assert (Hh : 0 <= v / 256) by (apply Z.div_pos; lia).
  change (Slice.len ztls.exportHashes) with 6.
  change (Slice.len ztls.exportAlgorithms) with 4.
  set (h := v / 256) in *. set (a := v mod 256) in *.
  unfold ztls.json_Marshal_aux; cbn [ztls.aux_Value ztls.aux_HashName
    ztls.aux_HashID ztls.aux_AlgName ztls.aux_AlgID].
  assert (Hcase_h : h = 0 \/ h = 1 \/ h = 2 \/ h = 3 \/ h = 4 \/ h = 5
                    \/ 6 <= h) by lia.
  assert (Hcase_a : a = 0 \/ a = 1 \/ a = 2 \/ a = 3 \/ 4 <= a) by lia.
  assert (Hh6 : 6 <= h -> (h <? 6) = false) by (intros; apply Z.ltb_ge; lia).
  assert (Ha4 : 4 <= a -> (a <? 4) = false) by (intros; apply Z.ltb_ge; lia).
  clearbody h a. clear Hm Hh Hv.
  split; [reflexivity | ].
  destruct Hcase_h as [-> | [-> | [-> | [-> | [-> | [-> | H6]]]]]];
    try rewrite (Hh6 H6); clear Hh6;
    (destruct Hcase_a as [-> | [-> | [-> | [-> | H4]]]];
     try rewrite (Ha4 H4); clear Ha4;
     cbn -[Z.mul Z.add Z.le Z.lt];
     repeat split; try reflexivity; try lia; intros; lia).
Qed.

(** The value 0x0805 names neither a known hash nor a known algorithm. *)
Lemma export_signature_algorithm_json_witness :
  exists obj,
    ztls.MarshalJSON 0x0805 = Ret obj
    /\ ztls.get "value" obj = Some (ztls.JNumber 0x0805)
    /\ ztls.get "hash_id" obj = Some (ztls.JNumber 8)
    /\ ztls.get "algorithm_id" obj = Some (ztls.JNumber 5)
    /\ ztls.get "hash_name" obj = None
    /\ ztls.get "algorithm_name" obj = None.
Proof.
  destruct (export_signature_algorithm_json 0x0805 ltac:(lia))
    as (obj & E & Hv & Hh & Ha & _ & Hhn & Han & _).
  exists obj. repeat split; try assumption.
  - apply Hhn. vm_compute. discriminate.
  - apply Han. vm_compute. discriminate.
Defined.

(* ===================================================================== *)
(** * Properties: the handshake configuration                              *)
(* ===================================================================== *)

Section ConfigFacts.

Variables (cond : bool) (t : ztls.Config).

(** What each kind of conditional assignment leaves in the two fields
    the policy flags decide. *)
Lemma CipherSuites_when_list (v : ztls.CipherTable) :
  ztls.CipherSuites (zlib.when cond (ztls.set_CipherSuites v) t)
  = if cond then Some v else ztls.CipherSuites t.
Proof. now destruct cond. Qed.

Lemma CipherSuites_when_forced (v : ztls.CipherTable) :
  ztls.CipherSuites
    (zlib.when cond
       (fun t => ztls.set_ForceSuites true (ztls.set_CipherSuites v t)) t)
  = if cond then Some v else ztls.CipherSuites t.
Proof. now destruct cond. Qed.

Lemma CipherSuites_when_name (v : string) :
  ztls.CipherSuites (zlib.when cond (ztls.set_ServerName v) t)
  = ztls.CipherSuites t.
Proof. now destruct cond. Qed.

Lemma CipherSuites_when_random (v : bool) :
  ztls.CipherSuites (zlib.when cond (ztls.set_ExtendedRandom v) t)
  = ztls.CipherSuites t.
Proof. now destruct cond. Qed.

Lemma ForceSuites_when_list (v : ztls.CipherTable) :
  ztls.ForceSuites (zlib.when cond (ztls.set_CipherSuites v) t)
  = ztls.ForceSuites t.
Proof. now destruct cond. Qed.

Lemma ForceSuites_when_forced (v : ztls.CipherTable) :
  ztls.ForceSuites
    (zlib.when cond
       (fun t => ztls.set_ForceSuites true (ztls.set_CipherSuites v t)) t)
  = cond || ztls.ForceSuites t.
Proof. now destruct cond. Qed.

Lemma ForceSuites_when_name (v : string) :
  ztls.ForceSuites (zlib.when cond (ztls.set_ServerName v) t)
  = ztls.ForceSuites t.
Proof. now destruct cond. Qed.

Lemma ForceSuites_when_random (v : bool) :
  ztls.ForceSuites (zlib.when cond (ztls.set_ExtendedRandom v) t)
  = ztls.ForceSuites t.
Proof. now destruct cond. Qed.

End ConfigFacts.

Create Rewrite HintDb config.
#[export] Hint Rewrite CipherSuites_when_list CipherSuites_when_forced
  CipherSuites_when_name CipherSuites_when_random ForceSuites_when_list
  ForceSuites_when_forced ForceSuites_when_name ForceSuites_when_random
  : config.

(* ===================================================================== *)
(** * Properties: the connection upgrade                                   *)
(* ===================================================================== *)

Section Preservation.

Import zlib Upgrade.
Local Open Scope conn_scope.

Variable I : Conn -> Prop.

Lemma preserves_ret {A : Type} (a : A) : preserves I (ret a).
Proof. intros c a' c' Hc E. now inversion E; subst. Qed.

Lemma preserves_get : preserves I get.
Proof. intros c a' c' Hc E. now inversion E; subst. Qed.

Lemma preserves_lift {A : Type} (g : go A) : preserves I (lift g).
Proof.
  intros c a' c' Hc E. unfold lift in E.
  destruct g; [now inversion E; subst | discriminate].
Qed.

Lemma preserves_modify (f : Conn -> Conn) :
  (forall c, I c -> I (f c)) -> preserves I (modify f).
Proof. intros Hf c a' c' Hc E. inversion E; subst. now apply Hf. Qed.

Lemma preserves_bind {A B : Type} (m : M A) (k : A -> M B) :
  preserves I m -> (forall a, preserves I (k a)) -> preserves I (bind m k).
Proof.
  intros Hm Hk c b c' Hc E. unfold bind in E.
  destruct (m c) as [[a c1]|] eqn:Em; [ | discriminate].
  exact (Hk a c1 b c' (Hm c a c1 Hc Em) E).
Qed.

End Preservation.

Section Stable.

Import zlib Upgrade.
Local Open Scope conn_scope.

(** A property of the connection that depends on the mark and on the TLS
    stream only, and that setting the mark or installing a stream
    keeps. *)
Variable I : Conn -> Prop.

Hypothesis I_frame :
  forall c c', isTls c' = isTls c -> tlsConn c' = tlsConn c -> I c -> I c'.
Hypothesis I_mark : forall c, I c -> I (set_isTls true c).
Hypothesis I_stream : forall tc c, I c -> I (set_tlsConn (Some tc) c).

(** Decomposing a method along its statements: the only assignments to
    [isTls] and [tlsConn] are those of [TLSHandshake] and of the TLS
    engine. *)
Ltac keeps :=
  repeat first
    [ solve [auto]
    | progress cbv zeta
    | apply preserves_ret
    | apply preserves_get
    | apply preserves_lift
    | apply preserves_modify;
      let c := fresh "c" in
      let Hc := fresh "Hc" in
      intros c Hc;
      first [ apply I_mark; exact Hc
            | apply I_stream; exact Hc
            | apply (I_frame c); [reflexivity | reflexivity | exact Hc] ]
    | apply preserves_bind; [ | intros ? ]
    | match goal with
      | |- preserves _ (if ?b then _ else _) => destruct b
      | |- preserves _ (match ?x with _ => _ end) => destruct x
      end ].

Lemma getUnderlyingConn_keeps : preserves I getUnderlyingConn.
Proof. unfold getUnderlyingConn. keeps. Qed.

Lemma RemoteAddr_keeps : preserves I RemoteAddr.
Proof. pose proof getUnderlyingConn_keeps. unfold RemoteAddr. keeps. Qed.

Lemma LocalAddr_keeps : preserves I LocalAddr.
Proof. pose proof getUnderlyingConn_keeps. unfold LocalAddr. keeps. Qed.

Lemma readResponse_keeps e r res : preserves I (readResponse e r res).
Proof. pose proof getUnderlyingConn_keeps. unfold readResponse. keeps. Qed.

Lemma TLSHandshake_keeps e : preserves I (TLSHandshake e).
Proof.
  pose proof RemoteAddr_keeps.
  unfold TLSHandshake, TLSHandshake_begin, TLSHandshake_run,
    tlsConn_Handshake, tlsConn_GetHandshakeLog, modify_grabData, wrote.
  keeps.
Qed.

Lemma sendStartTLSCommand_keeps e cmd :
  preserves I (sendStartTLSCommand e cmd).
Proof.
  pose proof RemoteAddr_keeps.
  unfold sendStartTLSCommand, wrote. keeps.
Qed.

(** Every method keeps the property. *)
Lemma exec_keeps e op : preserves I (exec e op).
Proof.
  pose proof getUnderlyingConn_keeps.
  pose proof RemoteAddr_keeps.
  pose proof LocalAddr_keeps.
  pose proof (TLSHandshake_keeps e).
  pose proof (sendStartTLSCommand_keeps e).
  pose proof (readResponse_keeps e).
  destruct op; cbn [exec];
    unfold ignore, SetDHEOnly, SetExportsOnly, SetExportsDHOnly,
      SetChromeCiphers, SetChromeNoDHECiphers, SetFirefoxCiphers,
      SetFirefoxNoDHECiphers, SetSafariCiphers, SetSafariNoDHECiphers,
      SetExtendedRandom, SetNoSNI, SetCAPool, SetDomain,
      SetDeadline, SetReadDeadline, SetWriteDeadline, Write, BasicBanner,
      Read, Close, HTTP, SMTPStartTLSHandshake, POP3StartTLSHandshake,
      IMAPStartTLSHandshake, SMTPBanner, POP3Banner, IMAPBanner, banner,
      readSmtpResponse, readPop3Response, readImapStatusResponse,
      EHLO, SMTPHelp, CheckHeartbleed, SendModbusEcho,
      GetFTPSCertificates, SSHHandshake, modify_grabData, wrote;
    keeps.
Qed.

Lemma run_keeps calls : preserves I (run calls).
Proof.
  induction calls as [|[e op] rest IH]; cbn [run].
  - apply preserves_ret.
  - apply preserves_bind; [apply exec_keeps | intros _; exact IH].
Qed.

End Stable.

Section Marked.

Import zlib Upgrade.

(** No method clears the mark. *)
Lemma run_keeps_marked calls : preserves marked (run calls).
Proof.
  apply run_keeps; unfold marked.
  - intros c c' Htls _ Hc. congruence.
  - reflexivity.
  - intros tc c Hc. exact Hc.
Qed.

(** No method clears the mark or drops the TLS stream. *)
Lemma run_keeps_established calls : preserves established (run calls).
Proof.
  apply run_keeps; unfold established.
  - intros c c' Htls Hconn [H1 H2]. split; congruence.
  - intros c [H1 H2]. split; [reflexivity | exact H2].
  - intros tc c [H1 H2]. split; [exact H1 | discriminate].
Qed.

End Marked.

Section Handshake.

Import zlib Upgrade.
Local Open Scope conn_scope.

(** On a plaintext connection [TLSHandshake] runs the engine with the
    configuration built from the connection, returns the engine's error
    (with the forced-suites exception), and leaves the connection
    established, whatever the engine answered. *)
Lemma TLSHandshake_plain (e : Env) (c : Conn) :
  isTls c = false ->
  let tlsConfig := handshakeConfig c in
  let out := tls_Handshake e tlsConfig in
  exists c',
    TLSHandshake e c = Ret (handshake_error tlsConfig out, c')
    /\ established c'
    /\ gd_TLSHandshake (grabData c') = ho_log out
    /\ written (conn c') = written (conn c) ++ on_socket (ho_wire out)
    /\ option_map ztls.config (tlsConn c') = Some tlsConfig.
Proof.
  intros Hplain tlsConfig out.
  unfold TLSHandshake, TLSHandshake_begin, TLSHandshake_run,
    tlsConn_Handshake, tlsConn_GetHandshakeLog, modify_grabData, wrote,
    bind, get, modify, ret.
  rewrite Hplain. cbn.
  eexists. split; [reflexivity | ].
  cbn. repeat split. discriminate.
Qed.

Lemma RemoteAddr_established (c : Conn) :
  established c -> RemoteAddr c = Ret (remote (conn c), c).
Proof.
  intros [Htls Hconn]. unfold RemoteAddr, getUnderlyingConn, bind, get.
  rewrite Htls. destruct (tlsConn c); [reflexivity | contradiction].
Qed.

Lemma RemoteAddr_plain (c : Conn) :
  isTls c = false -> RemoteAddr c = Ret (remote (conn c), c).
Proof.
  intros Hplain. unfold RemoteAddr, getUnderlyingConn, bind, get.
  now rewrite Hplain.
Qed.

(** On an established connection [TLSHandshake] is refused and changes
    nothing. *)
Lemma TLSHandshake_established (e : Env) (c : Conn) :
  established c ->
  TLSHandshake e c = Ret (Some (repeat_handshake c), c).
Proof.
  intros Hc. unfold TLSHandshake, bind at 1, get.
  rewrite (proj1 Hc). unfold bind. now rewrite (RemoteAddr_established c Hc).
Qed.

Lemma sendStartTLSCommand_established (e : Env) (command : string)
      (c : Conn) :
  established c ->
  sendStartTLSCommand e command c = Ret (Some (starttls_after_tls c), c).
Proof.
  intros Hc. unfold sendStartTLSCommand, bind at 1, get.
  rewrite (proj1 Hc). unfold bind. now rewrite (RemoteAddr_established c Hc).
Qed.

(** A call of [TLSHandshake] that returns leaves the connection
    established, refused or not. *)
Lemma TLSHandshake_establishes (e : Env) (c : Conn) r c' :
  TLSHandshake e c = Ret (r, c') -> established c'.
Proof.
  intros E. destruct (isTls c) eqn:Htls.
  - assert (Hc : established c).
    { split; [assumption | ].
      unfold TLSHandshake, bind at 1, get in E. rewrite Htls in E.
      unfold bind, RemoteAddr, getUnderlyingConn, bind, get in E.
      rewrite Htls in E. destruct (tlsConn c); [discriminate | ].
      discriminate E. }
    rewrite (TLSHandshake_established e c Hc) in E.
    now inversion E; subst.
  - destruct (TLSHandshake_plain e c Htls) as (c1 & E1 & Hc1 & _).
    rewrite E1 in E. now inversion E; subst.
Qed.

End Handshake.

(** C3, as the code has it.  The cipher-suite list [TLSHandshake] hands to
    the TLS engine is the one of the last policy flag that is set, in the
    order DHE-only, export-only, export-DHE-only, Chrome, Chrome-no-DHE,
    Firefox, Firefox-no-DHE, Safari, Safari-no-DHE; it is nil when no flag
    is set. *)
Theorem cipher_suites_last_flag_wins (e : zlib.Env) (c : zlib.Conn) :
  ztls.CipherSuites (zlib.handshakeConfig c)
  = Policy.last_set (Policy.flags c)
  /\ (zlib.isTls c = false ->
      exists r c' tc,
        zlib.TLSHandshake e c = Ret (r, c')
        /\ zlib.tlsConn c' = Some tc
        /\ ztls.CipherSuites (ztls.config tc)
           = Policy.last_set (Policy.flags c)).
Proof.
  assert (Hcfg : ztls.CipherSuites (zlib.handshakeConfig c)
                 = Policy.last_set (Policy.flags c)).
  { unfold zlib.handshakeConfig, Policy.last_set, Policy.flags.
    cbv zeta. autorewrite with config. reflexivity. }
  split; [exact Hcfg | ].
  intros Hplain.
  destruct (TLSHandshake_plain e c Hplain) as (c' & E & _ & _ & _ & Htc).
  destruct (zlib.tlsConn c') as [tc|] eqn:Etc; [ | discriminate].
  eexists; exists c', tc. split; [exact E | ]. split; [exact Etc | ].
  cbn in Htc. injection Htc as Htc. rewrite Htc. exact Hcfg.
Qed.

(** With export-only and Safari both set, the Safari list is used. *)
Lemma cipher_suites_last_flag_wins_witness :
  exists r c' tc,
    zlib.TLSHandshake (Sample.peer EmptyString Sample.completes)
                      (Sample.after zlib.SetExportsOnly Sample.safari)
    = Ret (r, c')
    /\ zlib.tlsConn c' = Some tc
    /\ ztls.CipherSuites (ztls.config tc) = Some ztls.SafariCiphers.
Proof.
  exact (proj2 (cipher_suites_last_flag_wins
                  (Sample.peer EmptyString Sample.completes)
                  (Sample.after zlib.SetExportsOnly Sample.safari))
               eq_refl).
Defined.

(** C3, as stated: the first set flag does not win.  With DHE-only and
    export-only both set, the first set flag is DHE-only, and the list
    handed to the engine is the RSA-export one. *)
Lemma cipher_suites_first_flag_loses :
  (2 <= Policy.count_set (Policy.flags Sample.dhe_and_exports))%nat
  /\ Policy.first_set (Policy.flags Sample.dhe_and_exports)
     = Some ztls.DHECiphers
  /\ option_map (fun tc => ztls.CipherSuites (ztls.config tc))
                (zlib.tlsConn
                   (Sample.after
                      (zlib.TLSHandshake
                         (Sample.peer EmptyString Sample.completes))
                      Sample.dhe_and_exports))
     = Some (Some ztls.RSA512ExportCiphers)
  /\ ztls.CipherSuites (zlib.handshakeConfig Sample.dhe_and_exports)
     <> Policy.first_set (Policy.flags Sample.dhe_and_exports).
Proof.
  repeat split; try reflexivity.
  vm_compute. discriminate.
Qed.

(** C6, as the code has it.  The force-suites flag of the configuration
    [TLSHandshake] hands to the TLS engine is set exactly when the Safari
    or the Safari-no-DHE flag is set: these two profiles set it, and the
    Chrome, Chrome-no-DHE, Firefox and Firefox-no-DHE profiles leave it as
    it is. *)
Theorem force_suites_safari_only (e : zlib.Env) (c : zlib.Conn) :
  ztls.ForceSuites (zlib.handshakeConfig c)
  = zlib.safariCiphers c || zlib.safariNoDHECiphers c
  /\ (zlib.isTls c = false ->
      exists r c' tc,
        zlib.TLSHandshake e c = Ret (r, c')
        /\ zlib.tlsConn c' = Some tc
        /\ ztls.ForceSuites (ztls.config tc)
           = zlib.safariCiphers c || zlib.safariNoDHECiphers c).
Proof.
  assert (Hcfg : ztls.ForceSuites (zlib.handshakeConfig c)
                 = zlib.safariCiphers c || zlib.safariNoDHECiphers c).
  { unfold zlib.handshakeConfig.
    cbv zeta. autorewrite with config. cbn [ztls.ForceSuites].
    now destruct (zlib.safariCiphers c), (zlib.safariNoDHECiphers c). }
  split; [exact Hcfg | ].
  intros Hplain.
  destruct (TLSHandshake_plain e c Hplain) as (c' & E & _ & _ & _ & Htc).
  destruct (zlib.tlsConn c') as [tc|] eqn:Etc; [ | discriminate].
  eexists; exists c', tc. split; [exact E | ]. split; [exact Etc | ].
  cbn in Htc. injection Htc as Htc. rewrite Htc. exact Hcfg.
Qed.

(** The Safari profile forces its suites. *)
Lemma force_suites_safari_only_witness :
  exists r c' tc,
    zlib.TLSHandshake (Sample.peer EmptyString Sample.completes) Sample.safari
    = Ret (r, c')
    /\ zlib.tlsConn c' = Some tc
    /\ ztls.ForceSuites (ztls.config tc) = true.
Proof.
  exact (proj2 (force_suites_safari_only
                  (Sample.peer EmptyString Sample.completes) Sample.safari)
               eq_refl).
Defined.

(** C6, as stated: selecting the Chrome profile on a fresh connection
    leaves the force-suites flag unset in the configuration the engine
    gets. *)
Lemma force_suites_chrome_unset :
  Policy.selected Policy.Chrome Sample.chrome = true
  /\ option_map (fun tc => (ztls.CipherSuites (ztls.config tc),
                            ztls.ForceSuites (ztls.config tc)))
                (zlib.tlsConn
                   (Sample.after
                      (zlib.TLSHandshake
                         (Sample.peer EmptyString Sample.completes))
                      Sample.chrome))
     = Some (Some ztls.ChromeCiphers, false)
  /\ ztls.ForceSuites (zlib.handshakeConfig Sample.chrome) <> true.
Proof.
  repeat split; try reflexivity.
  vm_compute. discriminate.
Qed.

(** C4. When [TLSHandshake] has returned on a connection, a second call
    returns the error "Attempted repeat handshake with remote host ..." and
    leaves the connection, and so the handshake log recorded in [grabData],
    as the first call left it. *)
Theorem repeat_handshake_refused
        (e1 e2 : zlib.Env) (c c1 : zlib.Conn) (r1 : option error) :
  zlib.TLSHandshake e1 c = Ret (r1, c1) ->
  exists c2,
    zlib.TLSHandshake e2 c1 = Ret (Some (Upgrade.repeat_handshake c1), c2)
    /\ c2 = c1
    /\ zlib.gd_TLSHandshake (zlib.grabData c2)
       = zlib.gd_TLSHandshake (zlib.grabData c1).
Proof.
  intros E1. exists c1.
  rewrite (TLSHandshake_established e2 c1 (TLSHandshake_establishes _ _ _ _ E1)).
  repeat split.
Qed.

(** A handshake completes; the next call is refused and the log stays. *)
Lemma repeat_handshake_refused_witness :
  zlib.TLSHandshake (Sample.peer EmptyString Sample.completes) Sample.dialled
  = Ret (None, Sample.upgraded)
  /\ zlib.TLSHandshake (Sample.peer EmptyString Sample.breaks) Sample.upgraded
     = Ret (Some (errorString
                    "Attempted repeat handshake with remote host 192.0.2.25:25"),
            Sample.upgraded)
  /\ zlib.gd_TLSHandshake (zlib.grabData Sample.upgraded)
     = Some ztls.newServerHandshake.
Proof.
  split; [reflexivity | ]. split; [ | reflexivity].
  destruct (repeat_handshake_refused
              (Sample.peer EmptyString Sample.completes)
              (Sample.peer EmptyString Sample.breaks)
              Sample.dialled Sample.upgraded None eq_refl)
    as (c2 & E2 & -> & _).
  exact E2.
Defined.

(** C5. On a plaintext connection whose configuration has the force-suites
    flag set, when the engine's handshake returns [ErrUnimplementedCipher],
    [TLSHandshake] returns nil and the handshake log of the engine is
    recorded in [grabData]. *)
Theorem forced_suites_mismatch_is_success (e : zlib.Env) (c : zlib.Conn) :
  zlib.isTls c = false ->
  ztls.ForceSuites (zlib.handshakeConfig c) = true ->
  zlib.ho_err (zlib.tls_Handshake e (zlib.handshakeConfig c))
  = Some ErrUnimplementedCipher ->
  exists c',
    zlib.TLSHandshake e c = Ret (None, c')
    /\ zlib.gd_TLSHandshake (zlib.grabData c')
       = zlib.ho_log (zlib.tls_Handshake e (zlib.handshakeConfig c)).
Proof.
  intros Hplain Hforce Herr.
  destruct (TLSHandshake_plain e c Hplain) as (c' & E & _ & Hlog & _).
  exists c'. split; [ | exact Hlog].
  rewrite E. unfold Upgrade.handshake_error. now rewrite Hforce, Herr.
Qed.

(** The Safari profile against a server that accepts none of its suites. *)
Lemma forced_suites_mismatch_is_success_witness :
  exists c',
    zlib.TLSHandshake (Sample.peer EmptyString Sample.no_common_suite)
                      Sample.safari
    = Ret (None, c')
    /\ zlib.gd_TLSHandshake (zlib.grabData c')
       = Some ztls.newServerHandshake.
Proof.
  exact (forced_suites_mismatch_is_success
           (Sample.peer EmptyString Sample.no_common_suite) Sample.safari
           eq_refl eq_refl eq_refl).
Defined.

(** C9. On a connection that has not gone through [TLSHandshake],
    [CheckHeartbleed] returns the count 0 and the error "Must perform TLS
    handshake before sending Heartbleed probe to ...", and leaves the
    connection as it was: nothing is written to the socket. *)
Theorem heartbleed_needs_handshake
        (e : zlib.Env) (b : Slice.bytes) (c : zlib.Conn) :
  zlib.isTls c = false ->
  exists c',
    zlib.CheckHeartbleed e b c
    = Ret ((0, Some (Upgrade.heartbleed_before_tls c)), c')
    /\ c' = c
    /\ zlib.written (zlib.conn c') = zlib.written (zlib.conn c).
Proof.
  intros Hplain. exists c. split; [ | split; reflexivity].
  unfold zlib.CheckHeartbleed, zlib.bind at 1, zlib.get.
  rewrite Hplain. cbn [negb]. unfold zlib.bind.
  now rewrite (RemoteAddr_plain c Hplain).
Qed.

Lemma heartbleed_needs_handshake_witness :
  zlib.CheckHeartbleed (Sample.peer EmptyString Sample.completes)
                       [x18; x03; x02] Sample.dialled
  = Ret ((0, Some (errorString
                     "Must perform TLS handshake before sending Heartbleed probe to 192.0.2.25:25")),
         Sample.dialled)
  /\ zlib.written (zlib.conn Sample.dialled) = [].
Proof.
  split; [ | reflexivity].
  destruct (heartbleed_needs_handshake
              (Sample.peer EmptyString Sample.completes)
              [x18; x03; x02] Sample.dialled eq_refl)
    as (c' & E & -> & _).
  exact E.
Defined.

Section Starttls.

Import zlib Upgrade Slice.
Local Open Scope conn_scope.

Lemma bind_Ret {A B : Type} (m : M A) (k : A -> M B) c a c1 :
  m c = Ret (a, c1) -> bind m k c = k a c1.
Proof. intros E. unfold bind. now rewrite E. Qed.

Lemma sendStartTLSCommand_plain (e : Env) (command : string) (c : Conn) :
  isTls c = false ->
  sendStartTLSCommand e command c
  = Ret (snd (net_Write e Raw (bytes_of command)),
         set_conn (log_written [(Raw, bytes_of command)] (conn c)) c).
Proof.
  intros Hplain. unfold sendStartTLSCommand, bind at 1, get.
  rewrite Hplain. cbv zeta.
  now destruct (net_Write e Raw (bytes_of command)).
Qed.

Lemma readResponse_plain (e : Env) (r : Regex) (res : bytes) (c : Conn) :
  isTls c = false ->
  readResponse e r res c
  = Ret ((fill res (fst (util_ReadUntilRegex e Raw r (len res))),
          len (fst (util_ReadUntilRegex e Raw r (len res))),
          snd (util_ReadUntilRegex e Raw r (len res))), c).
Proof.
  intros Hplain. unfold readResponse, getUnderlyingConn, bind, get.
  rewrite Hplain. cbn.
  now destruct (util_ReadUntilRegex e Raw r (len res)).
Qed.

Lemma len_make (n : Z) : 0 <= n -> len (make n) = n.
Proof. intros Hn. unfold len, make. rewrite repeat_length. lia. Qed.

(** What was read is what the front of the buffer holds. *)
Lemma upto_fill (buf data : bytes) :
  len data <= len buf -> upto (fill buf data) (len data) = Ret data.
Proof.
  intros Hle. unfold len in Hle.
  assert (Hn : (List.length data <= List.length buf)%nat) by lia.
  assert (Hfill : fill buf data = data ++ skipn (List.length data) buf).
  { unfold fill. apply firstn_all2.
    rewrite length_app, length_skipn. lia. }
  rewrite Hfill. apply upto_app.
Qed.

Lemma length_string_of (b : bytes) :
  String.length (string_of b) = List.length b.
Proof.
  unfold string_of, string_of_list_byte.
  induction b as [|x rest IH]; cbn; [reflexivity | now rewrite IH].
Qed.

Lemma str_upto_Ret (s : string) (hi : Z) :
  0 <= hi <= Z.of_nat (String.length s) ->
  str_upto s hi = Ret (String.substring 0 (Z.to_nat hi) s).
Proof.
  intros [H0 H1]. unfold str_upto.
  destruct (Z.leb_spec 0 hi); [ | lia].
  destruct (Z.leb_spec hi (Z.of_nat (String.length s))); [reflexivity | lia].
Qed.

(** The test of the reply code, lines 480 to 486, is the acceptance of
    the reply. *)
Lemma code_test (code : Z) :
  ((code <? 200) || (code >=? 300)) = negb ((200 <=? code) && (code <=? 299)).
Proof.
  rewrite Z.geb_leb.
  destruct (Z.ltb_spec code 200), (Z.leb_spec 300 code),
    (Z.leb_spec 200 code), (Z.leb_spec code 299); cbn; lia || reflexivity.
Qed.

(** [SMTPStartTLSHandshake] on a plaintext connection, its three ways
    out: the command could not be sent; the reply was not accepted; the
    handshake is entered. *)
Lemma SMTPStartTLSHandshake_plain (e : Env) (c : Conn) :
  isTls c = false ->
  let command := bytes_of SMTP_COMMAND in
  let werr := snd (net_Write e Raw command) in
  let reply := fst (util_ReadUntilRegex e Raw smtpEndRegex 256) in
  let rerr := snd (util_ReadUntilRegex e Raw smtpEndRegex 256) in
  len reply <= 256 ->
  SMTPStartTLSHandshake e c
  = if negb (is_nil werr) then
      Ret (werr, set_conn (log_written [(Raw, command)] (conn c)) c)
    else if smtp_accepts reply rerr then
      TLSHandshake e (negotiated SMTP_COMMAND reply c)
    else
      Ret (if reply_short reply
           then errors_New "Server did not indicate support for STARTTLS"
           else if is_nil rerr
                then errors_New "Bad return code for STARTTLS"
                else rerr,
           negotiated SMTP_COMMAND reply c).
Proof.
  intros Hplain command werr reply rerr Hfit.
  unfold SMTPStartTLSHandshake.
  rewrite (bind_Ret _ _ _ _ _ (sendStartTLSCommand_plain e SMTP_COMMAND c Hplain)).
  fold command werr.
  destruct (is_nil werr) eqn:Hw; cbn [negb]; [ | reflexivity].
  unfold readSmtpResponse.
  set (c1 := set_conn (log_written [(Raw, command)] (conn c)) c).
  assert (Hplain1 : isTls c1 = false) by exact Hplain.
  rewrite (bind_Ret _ _ _ _ _
             (readResponse_plain e smtpEndRegex (make 256) c1 Hplain1)).
  rewrite (len_make 256) by lia. fold reply rerr.
  rewrite upto_fill by (rewrite len_make; lia).
  rewrite (bind_Ret _ _ c1 reply c1 eq_refl).
  rewrite (bind_Ret _ _ c1 tt (negotiated SMTP_COMMAND reply c) eq_refl).
  set (c2 := negotiated SMTP_COMMAND reply c).
  unfold smtp_accepts, reply_short.
  destruct (Z.ltb_spec (len reply) 5) as [Hshort|Hlong].
  - destruct (Z.leb_spec 5 (len reply)); [lia | ].
    rewrite andb_false_r. reflexivity.
  - destruct (Z.leb_spec 5 (len reply)); [ | lia].
    rewrite andb_true_r.
    destruct (is_nil rerr) eqn:Hr; cbn [andb negb].
    + rewrite (bind_Ret _ _ c2
                 (if match Atoi (substring 0 3 (string_of reply)) with
                     | Some code => (200 <=? code) && (code <=? 299)
                     | None => false
                     end
                  then None
                  else errors_New "Bad return code for STARTTLS") c2).
      * destruct (Atoi (substring 0 3 (string_of reply))) as [code|];
          [ | reflexivity].
        destruct ((200 <=? code) && (code <=? 299)); reflexivity.
      * rewrite (bind_Ret _ _ c2 c2 c2 eq_refl).
        cbn [c2 grabData negotiated set_grabData gd_StartTLS
                set_gd_StartTLS].
        rewrite str_upto_Ret
          by (rewrite length_string_of; unfold len in *; lia).
        rewrite (bind_Ret _ _ _ (substring 0 (Z.to_nat 3) (string_of reply))
                   _ eq_refl).
        change (Z.to_nat 3) with 3%nat.
        destruct (Atoi (substring 0 3 (string_of reply))) as [code|];
          [ | reflexivity].
        rewrite code_test.
        destruct ((200 <=? code) && (code <=? 299)); reflexivity.
    + rewrite (bind_Ret _ _ c2 rerr c2 eq_refl). now rewrite Hr.
Qed.

End Starttls.

(** C8. On a plaintext connection, with a reply that fits the 256-byte
    buffer it is read into (as [util.ReadUntilRegex] guarantees): once the
    STARTTLS command is sent,
    [SMTPStartTLSHandshake] enters [TLSHandshake] exactly when the read of
    the reply succeeded, the reply holds at least 5 bytes and its first
    three characters parse as an integer from 200 to 299.  Otherwise (the
    command could not be sent, the read failed, the reply is short or
    carries another code) it returns an error, and the connection is left
    in plaintext: its mark and its TLS stream are untouched, no handshake
    log is recorded, and only the command was written to the socket. *)
Theorem smtp_starttls_gate (e : zlib.Env) (c : zlib.Conn) :
  zlib.isTls c = false ->
  Slice.len (fst (zlib.util_ReadUntilRegex e zlib.Raw zlib.smtpEndRegex 256))
  <= 256 ->
  let command := zlib.bytes_of zlib.SMTP_COMMAND in
  let sent := zlib.is_nil (snd (zlib.net_Write e zlib.Raw command)) in
  let reply := fst (zlib.util_ReadUntilRegex e zlib.Raw zlib.smtpEndRegex 256) in
  let rerr := snd (zlib.util_ReadUntilRegex e zlib.Raw zlib.smtpEndRegex 256) in
  exists r c',
    zlib.SMTPStartTLSHandshake e c = Ret (r, c')
    /\ (sent && Upgrade.smtp_accepts reply rerr = true ->
        zlib.SMTPStartTLSHandshake e c
        = zlib.TLSHandshake e (Upgrade.negotiated zlib.SMTP_COMMAND reply c)
        /\ zlib.isTls c' = true)
    /\ (sent && Upgrade.smtp_accepts reply rerr = false ->
        r <> None
        /\ zlib.isTls c' = false
        /\ zlib.tlsConn c' = zlib.tlsConn c
        /\ zlib.gd_TLSHandshake (zlib.grabData c')
           = zlib.gd_TLSHandshake (zlib.grabData c)
        /\ zlib.written (zlib.conn c')
           = zlib.written (zlib.conn c) ++ [(zlib.Raw, command)]).
Proof.
  intros Hplain Hfit command sent reply rerr.
  rewrite (SMTPStartTLSHandshake_plain e c Hplain Hfit).
  fold command reply rerr. fold sent.
  destruct sent eqn:Hsent; cbn [negb andb].
  - destruct (Upgrade.smtp_accepts reply rerr) eqn:Hacc.
    + assert (Hplain2 :
                zlib.isTls (Upgrade.negotiated zlib.SMTP_COMMAND reply c)
                = false) by exact Hplain.
      destruct (TLSHandshake_plain e _ Hplain2) as (c' & E & [Hc' _] & _).
      rewrite E. eexists; exists c'.
      split; [reflexivity | ]. split; [ | discriminate].
      intros _. split; [reflexivity | exact Hc'].
    + eexists; eexists. split; [reflexivity | ]. split; [discriminate | ].
      intros _. split; [ | cbn; rewrite Hplain; repeat split].
      destruct (Upgrade.reply_short reply); [discriminate | ].
      destruct rerr; cbn; discriminate.
  - eexists; eexists. split; [reflexivity | ]. split; [discriminate | ].
    intros _. split; [ | cbn; rewrite Hplain; repeat split].
    intros Hnil. unfold sent in Hsent. rewrite Hnil in Hsent.
    discriminate Hsent.
Qed.

(** The reply "220 Go ahead" opens the handshake; the reply "454 TLS
    unavailable" is refused and the connection stays in plaintext. *)
Lemma smtp_starttls_gate_witness :
  (exists r c',
      zlib.SMTPStartTLSHandshake (Sample.peer Sample.go_ahead Sample.completes)
                                 Sample.dialled
      = Ret (r, c')
      /\ zlib.isTls c' = true)
  /\ (exists r c',
         zlib.SMTPStartTLSHandshake
           (Sample.peer Sample.unavailable Sample.completes) Sample.dialled
         = Ret (r, c')
         /\ r <> None
         /\ zlib.isTls c' = false).
Proof.
  split.
  - destruct (smtp_starttls_gate
                (Sample.peer Sample.go_ahead Sample.completes) Sample.dialled
                eq_refl ltac:(vm_compute; discriminate))
      as (r & c' & E & Hyes & _).
    exists r, c'. split; [exact E | ]. exact (proj2 (Hyes eq_refl)).
  - destruct (smtp_starttls_gate
                (Sample.peer Sample.unavailable Sample.completes)
                Sample.dialled eq_refl ltac:(vm_compute; discriminate))
      as (r & c' & E & _ & Hno).
    exists r, c'. split; [exact E | ].
    destruct (Hno eq_refl) as (Hr & Hplain & _). split; assumption.
Defined.

(** C10. [TLSHandshake] sets the mark before it runs the engine, and on a
    plaintext connection it returns with the connection established
    whatever the engine answers; no method clears the mark.  So after a
    call of [TLSHandshake] on a plaintext connection, failed or not, and
    after any further calls that return, [TLSHandshake] returns the
    repeat-handshake error and [sendStartTLSCommand] the after-TLS error,
    both leaving the connection as it is. *)
Theorem failed_handshake_not_retryable :
  (forall e tlsConfig c,
      exists c1, zlib.TLSHandshake_begin e tlsConfig c = Ret (tt, c1)
                 /\ zlib.isTls c1 = true)
  /\ (forall e c,
         zlib.isTls c = false ->
         zlib.TLSHandshake e c
         = zlib.bind (zlib.TLSHandshake_begin e (zlib.handshakeConfig c))
                     (fun _ => zlib.TLSHandshake_run e (zlib.handshakeConfig c))
                     c
         /\ exists c1,
             zlib.TLSHandshake e c
             = Ret (Upgrade.handshake_error
                      (zlib.handshakeConfig c)
                      (zlib.tls_Handshake e (zlib.handshakeConfig c)), c1)
             /\ zlib.isTls c1 = true)
  /\ (forall calls c c',
         zlib.isTls c = true ->
         zlib.run calls c = Ret (tt, c') -> zlib.isTls c' = true)
  /\ (forall e c r c1 calls c2,
         zlib.isTls c = false ->
         zlib.TLSHandshake e c = Ret (r, c1) ->
         zlib.run calls c1 = Ret (tt, c2) ->
         forall e' command,
           zlib.TLSHandshake e' c2
           = Ret (Some (Upgrade.repeat_handshake c2), c2)
           /\ zlib.sendStartTLSCommand e' command c2
              = Ret (Some (Upgrade.starttls_after_tls c2), c2)).
Proof.
  split; [ | split; [ | split]].
  - intros e tlsConfig c.
    unfold zlib.TLSHandshake_begin, zlib.bind, zlib.modify, zlib.get.
    eexists. split; reflexivity.
  - intros e c Hplain. split.
    + unfold zlib.TLSHandshake, zlib.bind at 1, zlib.get. now rewrite Hplain.
    + destruct (TLSHandshake_plain e c Hplain) as (c1 & E & [Hc1 _] & _).
      exists c1. split; assumption.
  - intros calls c c' Hc E. exact (run_keeps_marked calls c tt c' Hc E).
  - intros e c r c1 calls c2 Hplain E1 Erun e' command.
    assert (Hc2 : Upgrade.established c2).
    { apply (run_keeps_established calls c1 tt c2); [ | assumption].
      eapply TLSHandshake_establishes; eassumption. }
    split.
    + now apply TLSHandshake_established.
    + now apply sendStartTLSCommand_established.
Qed.

(** A handshake breaks on the wire; the caller then tries the SMTP
    upgrade, a write and the handshake again: the mark is still set, and
    both a new handshake and a new STARTTLS command are refused. *)
Lemma failed_handshake_not_retryable_witness :
  zlib.TLSHandshake (Sample.peer EmptyString Sample.breaks) Sample.dialled
  = Ret (Some (errorString "EOF"), Sample.broken)
  /\ zlib.run Sample.retries Sample.broken = Ret (tt, Sample.retried)
  /\ zlib.isTls Sample.retried = true
  /\ zlib.TLSHandshake (Sample.peer Sample.go_ahead Sample.completes)
                       Sample.retried
     = Ret (Some (Upgrade.repeat_handshake Sample.retried), Sample.retried)
  /\ zlib.sendStartTLSCommand
       (Sample.peer Sample.go_ahead Sample.completes) zlib.SMTP_COMMAND
       Sample.retried
     = Ret (Some (Upgrade.starttls_after_tls Sample.retried), Sample.retried).
Proof.
  split; [reflexivity | ]. split; [reflexivity | ].
  destruct failed_handshake_not_retryable as (_ & _ & Hmark & Hretry).
  split.
  - exact (Hmark Sample.retries Sample.broken Sample.retried
                 eq_refl eq_refl).
  - exact (Hretry (Sample.peer EmptyString Sample.breaks) Sample.dialled
                  (Some (errorString "EOF")) Sample.broken
                  Sample.retries Sample.retried eq_refl eq_refl eq_refl
                  (Sample.peer Sample.go_ahead Sample.completes)
                  zlib.SMTP_COMMAND).
Defined.

(* ===================================================================== *)
(** * Further properties: the DH key-exchange decoder                      *)
(* ===================================================================== *)

Section DHDecoderMore.

Import Slice Wire.

Ltac take_prefix :=
  rewrite len_ge_2, Uint16_cons, from_2; cbn [go_bind].

Ltac take_field f rest Hf :=
  let hi := fresh "hi" in
  let lo := fresh "lo" in
  let Hbuf := fresh "Hbuf" in
  let Hlen := fresh "Hlen" in
  destruct (field_cons f rest Hf) as (hi & lo & Hbuf & Hlen);
  rewrite Hbuf; take_prefix; rewrite Hlen, len_app_ge, upto_app;
  cbn [go_bind].

(** A buffer the decoder accepts starts with three fields. *)
Lemma unmarshal_true_fields (p p' : ztls.DHParams) (buf : bytes) :
  ztls.unmarshal p buf = Ret (p', true) ->
  exists pb gb yb rest,
    fits pb /\ fits gb /\ fits yb
    /\ buf = field pb ++ field gb ++ field yb ++ rest.
Proof.
  unfold ztls.unmarshal.
  destruct (len buf <? 2) eqn:E1; [discriminate | ].
  destruct (len_lt_2 _ E1) as (h1 & l1 & s1 & ->).
  rewrite Uint16_cons, from_2; cbn [go_bind].
  destruct (len s1 <? declared h1 l1) eqn:F1; [discriminate | ].
  apply Z.ltb_ge in F1. pose proof (declared_range h1 l1).
  destruct (cons_field h1 l1 s1 F1) as [Hf1 ->].
  rewrite upto_Ret, from_Ret by lia; cbn [go_bind].
  destruct (len (skipn (Z.to_nat (declared h1 l1)) s1) <? 2) eqn:E2;
    [discriminate | ].
  destruct (len_lt_2 _ E2) as (h2 & l2 & s2 & ->).
  rewrite Uint16_cons, from_2; cbn [go_bind].
  destruct (len s2 <? declared h2 l2) eqn:F2; [discriminate | ].
  apply Z.ltb_ge in F2. pose proof (declared_range h2 l2).
  destruct (cons_field h2 l2 s2 F2) as [Hf2 ->].
  rewrite upto_Ret, from_Ret by lia; cbn [go_bind].
  destruct (len (skipn (Z.to_nat (declared h2 l2)) s2) <? 2) eqn:E3;
    [discriminate | ].
  destruct (len_lt_2 _ E3) as (h3 & l3 & s3 & ->).
  rewrite Uint16_cons, from_2; cbn [go_bind].
  destruct (len s3 <? declared h3 l3) eqn:F3; [discriminate | ].
  apply Z.ltb_ge in F3.
  destruct (cons_field h3 l3 s3 F3) as [Hf3 ->].
  intros _. eauto 10.
Qed.

(** The decoder stopped at the first, the second or the third field. *)
Lemma truncated_1 (buf : bytes) :
  Truncated 1 buf ->
  len buf < 2
  \/ exists hi lo rest, buf = hi :: lo :: rest /\ len rest < declared hi lo.
Proof.
  intros T. inversion T as [n b H | n hi lo rest H | n f rest Hf T0]; subst.
  - now left.
  - right. now exists hi, lo, rest.
  - inversion T0.
Qed.

Lemma unmarshal_stops_at_first (p : ztls.DHParams) (buf : bytes) :
  Truncated 1 buf -> ztls.unmarshal p buf = Ret (p, false).
Proof.
  intros T. unfold ztls.unmarshal.
  destruct (truncated_1 buf T) as [H | (hi & lo & rest & -> & H)].
  - now rewrite cut_prefix.
  - take_prefix. now rewrite cut_body.
Qed.

Lemma unmarshal_stops_at_second (p : ztls.DHParams) (pb rest : bytes) :
  fits pb -> Truncated 1 rest ->
  ztls.unmarshal p (field pb ++ rest)
  = Ret (ztls.set_P p (Big.magnitude pb), false).
Proof.
  intros Hp T. unfold ztls.unmarshal.
  take_field pb rest Hp. rewrite from_app; cbn [go_bind].
  rewrite SetBytes_magnitude.
  destruct (truncated_1 rest T) as [H | (hi' & lo' & r & -> & H)].
  - now rewrite cut_prefix.
  - take_prefix. now rewrite cut_body.
Qed.

Lemma unmarshal_stops_at_third (p : ztls.DHParams) (pb gb rest : bytes) :
  fits pb -> fits gb -> Truncated 1 rest ->
  ztls.unmarshal p (field pb ++ field gb ++ rest)
  = Ret (ztls.set_G (ztls.set_P p (Big.magnitude pb)) (Big.magnitude gb),
         false).
Proof.
  intros Hp Hg T. unfold ztls.unmarshal.
  take_field pb (field gb ++ rest) Hp. rewrite from_app; cbn [go_bind].
  take_field gb rest Hg. rewrite from_app; cbn [go_bind].
  rewrite !SetBytes_magnitude.
  destruct (truncated_1 rest T) as [H | (hi' & lo' & r & -> & H)].
  - now rewrite cut_prefix.
  - take_prefix. now rewrite cut_body.
Qed.

End DHDecoderMore.

(** X1. [DHParams.unmarshal] answers [true] exactly on the buffers that
    start with three length-prefixed fields; whatever follows the third
    field is ignored, and the parameters it returns are the magnitudes of
    the three fields, whatever the receiver held before. *)
Theorem dh_unmarshal_accepts_prefix
        (p p' : ztls.DHParams) (buf : Slice.bytes) :
  ztls.unmarshal p buf = Ret (p', true)
  <-> exists pb gb yb rest,
      Wire.fits pb /\ Wire.fits gb /\ Wire.fits yb
      /\ buf = Wire.field pb ++ Wire.field gb ++ Wire.field yb ++ rest
      /\ p' = ztls.mkDHParams (Some (Big.magnitude pb))
                              (Some (Big.magnitude gb))
                              (Some (Big.magnitude yb)).
Proof.
  split.
  - intros E.
    destruct (unmarshal_true_fields p p' buf E)
      as (pb & gb & yb & rest & Hp & Hg & Hy & ->).
    exists pb, gb, yb, rest. repeat split; try assumption.
    rewrite (unmarshal_fields p pb gb yb rest Hp Hg Hy) in E.
    now inversion E.
  - intros (pb & gb & yb & rest & Hp & Hg & Hy & -> & ->).
    now apply unmarshal_fields.
Qed.

(** X2. [DHParams.unmarshal] writes into its receiver as it goes: when the
    first field is cut short the receiver is returned untouched; when the
    prime is whole and the generator is cut short, [P] has been overwritten
    and [G], [Ys] keep what they held; when the public value is cut short,
    [P] and [G] have been overwritten and [Ys] keeps what it held. *)
Theorem dh_unmarshal_partial_receiver
        (p : ztls.DHParams) (pb gb rest : Slice.bytes) :
  Wire.fits pb -> Wire.fits gb -> Wire.Truncated 1 rest ->
  ztls.unmarshal p rest = Ret (p, false)
  /\ ztls.unmarshal p (Wire.field pb ++ rest)
     = Ret (ztls.mkDHParams (Some (Big.magnitude pb)) (ztls.G p) (ztls.Ys p),
            false)
  /\ ztls.unmarshal p (Wire.field pb ++ Wire.field gb ++ rest)
     = Ret (ztls.mkDHParams (Some (Big.magnitude pb))
                            (Some (Big.magnitude gb)) (ztls.Ys p),
            false).
Proof.
  intros Hp Hg T. split; [ | split].
  - now apply unmarshal_stops_at_first.
  - now rewrite unmarshal_stops_at_second.
  - now rewrite unmarshal_stops_at_third.
Qed.

(** A receiver that held 7, 8 and 9, a prime of 23, and a generator whose
    prefix announces two bytes where one remains. *)
Lemma dh_unmarshal_partial_receiver_witness :
  ztls.unmarshal (ztls.mkDHParams (Some 7) (Some 8) (Some 9))
                 [x00; x01; x17; x00; x02; x05]
  = Ret (ztls.mkDHParams (Some 23) (Some 8) (Some 9), false).
Proof.
  exact (proj1 (proj2 (dh_unmarshal_partial_receiver
                         (ztls.mkDHParams (Some 7) (Some 8) (Some 9))
                         [x17] [] [x00; x02; x05]
                         eq_refl eq_refl
                         (Wire.short_body 0 x00 x02 [x05] eq_refl)))).
Defined.

(* ===================================================================== *)
(** * Further properties: big integers and the log records                 *)
(* ===================================================================== *)

Section BigFacts.

Import Slice.

Lemma magnitude_nonneg (buf : bytes) : 0 <= Big.magnitude buf.
Proof.
  induction buf as [|b rest IH]; simpl; [lia | ].
  pose proof (byteZ_range b). pose proof (len_nonneg rest).
  assert (0 < 256 ^ len rest) by (apply Z.pow_pos_nonneg; lia).
  nia.
Qed.

Lemma magnitude_bound (buf : bytes) : Big.magnitude buf < 256 ^ len buf.
Proof.
  induction buf as [|b rest IH]; simpl Big.magnitude.
  - change (len (@nil byte)) with 0. simpl. lia.
  - rewrite len_cons, Z.pow_add_r by (try lia; apply len_nonneg).
    pose proof (byteZ_range b). change (256 ^ 1) with 256. nia.
Qed.

Lemma magnitude_snoc (buf : bytes) (b : byte) :
  Big.magnitude (buf ++ [b]) = Big.magnitude buf * 256 + byteZ b.
Proof.
  rewrite <- !SetBytes_magnitude. unfold Big.SetBytes.
  now rewrite fold_left_app.
Qed.

(** The [k] low base-256 digits of [x], most significant first. *)
Lemma magnitude_digits (k : nat) (x : Z) :
  0 <= x ->
  Big.magnitude
    (map (fun i => byte_of_Z (x / 256 ^ Z.of_nat (k - 1 - i))) (seq 0 k))
  = x mod 256 ^ Z.of_nat k.
Proof.
  revert x. induction k as [|k IH]; intros x Hx.
  - simpl. now rewrite Z.mod_1_r.
  - rewrite seq_S, map_app. cbn [map Nat.add]. rewrite magnitude_snoc.
    replace (S k - 1 - k)%nat with 0%nat by lia.
    rewrite Z.pow_0_r, Z.div_1_r, byteZ_byte_of_Z.
    rewrite (map_ext_in _
               (fun i => byte_of_Z (x / 256 / 256 ^ Z.of_nat (k - 1 - i)))).
    + rewrite IH by (apply Z.div_pos; lia).
      rewrite Nat2Z.inj_succ, Z.pow_succ_r by lia.
      rewrite Z.rem_mul_r by (try lia; apply Z.pow_pos_nonneg; lia).
      lia.
    + intros i Hi. apply in_seq in Hi. f_equal.
      rewrite Z.div_div by (try lia; apply Z.pow_pos_nonneg; lia).
      f_equal. rewrite <- Z.pow_succ_r by lia. f_equal. lia.
Qed.

Lemma BitLen_bound (x : Z) : 0 <= x -> x < 2 ^ Big.BitLen x.
Proof.
  intros Hx. unfold Big.BitLen.
  destruct (Z.eqb_spec x 0) as [-> | Hnz]; [simpl; lia | ].
  rewrite Z.abs_eq by lia.
  pose proof (Z.log2_spec x ltac:(lia)) as [_ H].
  now rewrite Z.add_1_r.
Qed.

Lemma BitLen_nonneg (x : Z) : 0 <= Big.BitLen x.
Proof.
  unfold Big.BitLen. destruct (x =? 0); [lia | ].
  pose proof (Z.log2_nonneg (Z.abs x)). lia.
Qed.

(** [Bytes] and [SetBytes] are inverse on the numbers: the bytes a number
    is written with read back as the number. *)
Lemma magnitude_Bytes (x : Z) : 0 <= x -> Big.magnitude (Big.Bytes x) = x.
Proof.
  intros Hx. unfold Big.Bytes. rewrite Z.abs_eq by lia.
  rewrite magnitude_digits by lia.
  apply Z.mod_small. split; [lia | ].
  pose proof (BitLen_nonneg x) as Hn. pose proof (BitLen_bound x Hx) as Hb.
  rewrite Z2Nat.id by (apply Z.div_pos; lia).
  apply Z.lt_le_trans with (2 ^ Big.BitLen x); [exact Hb | ].
  change 256 with (2 ^ 8). rewrite <- Z.pow_mul_r
    by (try lia; apply Z.div_pos; lia).
  apply Z.pow_le_mono_r; [lia | ].
  pose proof (Z.div_mod (Big.BitLen x + 7) 8 ltac:(lia)).
  pose proof (Z.mod_pos_bound (Big.BitLen x + 7) 8 ltac:(lia)). lia.
Qed.

(** A number of [n] bytes has at most [8 n] bits. *)
Lemma BitLen_magnitude (buf : bytes) :
  Big.BitLen (Big.magnitude buf) <= 8 * len buf.
Proof.
  pose proof (magnitude_nonneg buf) as H0.
  pose proof (magnitude_bound buf) as H1.
  pose proof (len_nonneg buf) as Hl.
  unfold Big.BitLen.
  destruct (Z.eqb_spec (Big.magnitude buf) 0) as [E | Hnz]; [lia | ].
  rewrite Z.abs_eq by lia.
  assert (Z.log2 (Big.magnitude buf) < 8 * len buf); [ | lia].
  apply Z.log2_lt_pow2; [lia | ].
  rewrite Z.pow_mul_r by lia. exact H1.
Qed.

(** One turn of the exponent loop: the shift and the or, on 32 bits, add
    a digit modulo [2 ^ 32]. *)
Lemma exponent_step (e : Z) (b : byte) :
  0 <= e ->
  Z.lor (Z.shiftl e 8 mod 2 ^ 32) (byteZ b) = (e * 256 + byteZ b) mod 2 ^ 32.
Proof.
  intros He. pose proof (byteZ_range b) as Hb.
  rewrite Z.shiftl_mul_pow2 by lia. change (2 ^ 8) with 256.
  change (2 ^ 32) with (2 ^ 24 * 256).
  rewrite Z.mul_mod_distr_r by lia.
  pose proof (Z.mod_pos_bound e (2 ^ 24) ltac:(lia)) as Hm.
  rewrite Z.lor_comm.
  replace (e mod 2 ^ 24 * 256) with (Z.shiftl (e mod 2 ^ 24) 8)
    by (rewrite Z.shiftl_mul_pow2 by lia; reflexivity).
  rewrite lor_shiftl_8 by lia.
  apply Z.mod_unique with (e / 2 ^ 24); [lia | ].
  pose proof (Z.div_mod e (2 ^ 24) ltac:(lia)). lia.
Qed.

Lemma exponent_fold (l : bytes) (acc : Z) :
  0 <= acc < 2 ^ 32 ->
  fold_left (fun exponent b =>
               Z.lor (Z.shiftl exponent 8 mod 2 ^ 32) (byteZ b)) l acc
  = (acc * 256 ^ len l + Big.magnitude l) mod 2 ^ 32.
Proof.
  revert acc. induction l as [|b rest IH]; intros acc Hacc.
  - cbn [fold_left Big.magnitude]. change (len (@nil byte)) with 0.
    rewrite Z.pow_0_r, Z.mul_1_r, Z.add_0_r. symmetry. now apply Z.mod_small.
  - cbn [fold_left]. rewrite exponent_step by lia.
    rewrite IH by (apply Z.mod_pos_bound; lia).
    cbn [Big.magnitude].
    rewrite len_cons, Z.pow_add_r by (try lia; apply len_nonneg).
    change (256 ^ 1) with 256.
    rewrite Z.add_mod, Z.mul_mod_idemp_l, <- Z.add_mod by lia.
    f_equal. lia.
Qed.

Lemma clone_id {A : Type} (s : list A) : clone s = s.
Proof. apply firstn_all. Qed.

End BigFacts.

Section LogFacts.

Import Slice Log.

(** The invariant of the certificate loop: the entries below [idx] are
    filled, those from [idx] on are still to fill. *)
Lemma copy_certificates_fills (done slots certs : list bytes) :
  List.length slots = List.length certs ->
  copy_certificates (done ++ slots) (List.length done) certs
  = Ret (done ++ certs).
Proof.
  revert done slots.
  induction certs as [|cert rest IH]; intros done slots Hlen.
  - destruct slots; [reflexivity | discriminate].
  - destruct slots as [|slot slots]; [discriminate | ].
    cbn [copy_certificates]. unfold store.
    rewrite length_app. cbn [List.length].
    destruct (Nat.ltb_spec (List.length done)
                           (List.length done + S (List.length slots)));
      [ | lia].
    cbn [go_bind].
    rewrite firstn_app, Nat.sub_diag, firstn_all, firstn_O, app_nil_r.
    replace (skipn (S (List.length done)) (done ++ slot :: slots))
      with slots.
    + rewrite clone_id.
      replace (done ++ cert :: slots) with ((done ++ [cert]) ++ slots)
        by (rewrite <- app_assoc; reflexivity).
      replace (S (List.length done)) with (List.length (done ++ [cert]))
        by (rewrite length_app; simpl; lia).
      rewrite IH by (simpl in Hlen; lia).
      now rewrite <- app_assoc.
    + rewrite skipn_app.
      replace (S (List.length done) - List.length done)%nat with 1%nat by lia.
      rewrite skipn_all2 by lia. reflexivity.
Qed.

Lemma deref_Some (x : option Z) (v : Z) : x = Some v -> deref x = Ret v.
Proof. now intros ->. Qed.

(** Parameters whose three numbers are present and not negative marshal,
    and the bytes written read back as the numbers. *)
Lemma dh_aux_present (P G Ys : Z) :
  0 <= P -> 0 <= G -> 0 <= Ys ->
  exists aux,
    dh_aux (ztls.mkDHParams (Some P) (Some G) (Some Ys)) = Ret aux
    /\ Big.magnitude (dh_P aux) = P
    /\ Big.magnitude (dh_G aux) = G
    /\ Big.magnitude (dh_Ys aux) = Ys
    /\ dh_PrimeLen aux = Big.BitLen P.
Proof.
  intros HP HG HY. eexists. split; [reflexivity | ].
  cbn [dh_P dh_G dh_Ys dh_PrimeLen].
  now rewrite !magnitude_Bytes.
Qed.

End LogFacts.



Section LogMore.

Import Slice.

(** What an accepting decode leaves in the receiver: three numbers, none
    negative. *)
Lemma unmarshal_true_numbers (p p' : ztls.DHParams) (buf : bytes) :
  ztls.unmarshal p buf = Ret (p', true) ->
  exists P G Ys,
    p' = ztls.mkDHParams (Some P) (Some G) (Some Ys)
    /\ 0 <= P /\ 0 <= G /\ 0 <= Ys.
Proof.
  intros E.
  destruct (unmarshal_true_fields p p' buf E)
    as (pb & gb & yb & rest & Hp & Hg & Hy & ->).
  rewrite (unmarshal_fields p pb gb yb rest Hp Hg Hy) in E.
  inversion E.
  exists (Big.magnitude pb), (Big.magnitude gb), (Big.magnitude yb).
  repeat split; apply magnitude_nonneg.
Qed.

Lemma unmarshal_true_marshals (p p' : ztls.DHParams) (buf : bytes) :
  ztls.unmarshal p buf = Ret (p', true) ->
  exists aux, Log.dh_aux p' = Ret aux.
Proof.
  intros E.
  destruct (unmarshal_true_numbers p p' buf E)
    as (P & G & Ys & -> & HP & HG & HY).
  destruct (dh_aux_present P G Ys HP HG HY) as (aux & Ea & _).
  now exists aux.
Qed.

End LogMore.

(** X4. Whatever the suite and the key-exchange bytes, the DH parameters
    [setSkx] stores in a log that held none (in [DHParams] or in
    [DHExportParams]) are complete, so that [DHParams.MarshalJSON] does not
    dereference a nil pointer on them: the receiver of a failed decode,
    which may hold only some of the numbers, never reaches the log. *)
Theorem setSkx_stored_params_marshal
        (X : ztls.Externs) (hs hs' : ztls.ServerHandshake)
        (skx : ztls.serverKeyExchangeMsg) (cipher : ztls.uint16)
        (p : ztls.DHParams) :
  ztls.hs_DHParams hs = None ->
  ztls.hs_DHExportParams hs = None ->
  ztls.setSkx X hs skx cipher = Ret hs' ->
  ztls.hs_DHParams hs' = Some p \/ ztls.hs_DHExportParams hs' = Some p ->
  exists aux, Log.dh_aux p = Ret aux.
Proof.
  intros Hd Hx E Hp. unfold ztls.setSkx in E.
  destruct (unmarshal_total ztls.newDHParams (ztls.skx_key skx))
    as (q & ok & Eq).
  rewrite Eq in E; cbn [go_bind] in E.
  destruct (ztls.rsa_unmarshal X (ztls.skx_key skx)) as [r okr].
  destruct hs as [sh sc sk rs dx d fin]; cbn in Hd, Hx; subst.
  repeat match type of E with
         | context [if ?b then _ else _] => destruct b
         end;
    inversion E; subst; cbn in Hp;
    destruct Hp as [Hp | Hp]; try discriminate;
    inversion Hp; subst;
    exact (unmarshal_true_marshals _ _ _ Eq).
Qed.

(** A DHE suite with a whole key exchange: the stored parameters
    marshal. *)
Lemma setSkx_stored_params_marshal_witness :
  exists aux,
    Log.dh_aux (ztls.mkDHParams (Some 23) (Some 5) (Some 256)) = Ret aux.
Proof.
  exact (setSkx_stored_params_marshal
           Recorder.sample ztls.newServerHandshake _
           (ztls.mkServerKeyExchangeMsg []
              [x00; x01; x17; x00; x01; x05; x00; x02; x01; x00])
           0x0033 (ztls.mkDHParams (Some 23) (Some 5) (Some 256))
           eq_refl eq_refl eq_refl (or_introl eq_refl)).
Defined.

(** X5. [rsaExportParams.MakeLog] folds the exponent bytes into 32 bits:
    the logged exponent is the big-endian value of the exponent bytes
    modulo [2 ^ 32], so it is that value when there are at most four bytes
    and loses the high bytes of a longer exponent; the public key carries
    the same exponent.  The modulus is not truncated: the key's modulus is
    the big-endian value of the modulus bytes, the logged modulus bytes
    read back as that value, and the logged length is its bit length, at
    most 8 times the number of modulus bytes. *)
Theorem rsa_MakeLog_fields (p : ztls.rsaExportParams) :
  ztls.Exponent (ztls.rsa_MakeLog p)
  = Big.magnitude (ztls.rawExponent p) mod 2 ^ 32
  /\ (Slice.len (ztls.rawExponent p) <= 4 ->
      ztls.Exponent (ztls.rsa_MakeLog p) = Big.magnitude (ztls.rawExponent p))
  /\ ztls.pk_E (ztls.PublicKey (ztls.rsa_MakeLog p))
     = ztls.Exponent (ztls.rsa_MakeLog p)
  /\ ztls.pk_N (ztls.PublicKey (ztls.rsa_MakeLog p))
     = Big.magnitude (ztls.rawModulus p)
  /\ Big.magnitude (ztls.Modulus (ztls.rsa_MakeLog p))
     = Big.magnitude (ztls.rawModulus p)
  /\ ztls.Length (ztls.rsa_MakeLog p)
     = Big.BitLen (Big.magnitude (ztls.rawModulus p))
  /\ ztls.Length (ztls.rsa_MakeLog p) <= 8 * Slice.len (ztls.rawModulus p).
Proof.
  unfold ztls.rsa_MakeLog.
  cbn [ztls.Exponent ztls.PublicKey ztls.pk_E ztls.pk_N ztls.Modulus
       ztls.Length].
  rewrite exponent_fold by lia. rewrite Z.mul_0_l, Z.add_0_l.
  rewrite SetBytes_magnitude.
  split; [reflexivity | ]. split.
  - intros Hlen. apply Z.mod_small.
    split; [apply magnitude_nonneg | ].
    apply Z.lt_le_trans with (256 ^ Slice.len (ztls.rawExponent p));
      [apply magnitude_bound | ].
    change (2 ^ 32) with (256 ^ 4).
    apply Z.pow_le_mono_r; lia.
  - repeat split.
    + apply magnitude_Bytes, magnitude_nonneg.
    + apply BitLen_magnitude.
Qed.

(** The exponent 65537 on three bytes, and on five bytes with a high byte
    that is dropped. *)
Lemma rsa_MakeLog_fields_witness :
  ztls.Exponent (ztls.rsa_MakeLog
                   (ztls.mkRsaExportParams [xc5] [x01; x00; x01]))
  = 65537
  /\ ztls.Exponent (ztls.rsa_MakeLog
                      (ztls.mkRsaExportParams [xc5]
                         [x07; x00; x01; x00; x01]))
     = 65537.
Proof.
  split.
  - exact (proj1 (proj2 (rsa_MakeLog_fields
                           (ztls.mkRsaExportParams [xc5] [x01; x00; x01])))
                 ltac:(vm_compute; discriminate)).
  - exact (proj1 (rsa_MakeLog_fields
                    (ztls.mkRsaExportParams [xc5]
                       [x07; x00; x01; x00; x01]))).
Defined.

(** X6. [setSkx] always records the raw key exchange, as a copy equal to
    the message's key, leaves the hello, certificate and finished records
    of the log alone, and never clears a parameter field: one that was
    populated before the call is populated after it. *)
Theorem setSkx_records_key_exchange
        (X : ztls.Externs) (hs : ztls.ServerHandshake)
        (skx : ztls.serverKeyExchangeMsg) (cipher : ztls.uint16) :
  exists hs',
    ztls.setSkx X hs skx cipher = Ret hs'
    /\ ztls.hs_ServerKeyExchange hs'
       = Some (ztls.mkServerKeyExchange (ztls.skx_key skx))
    /\ ztls.hs_ServerHello hs' = ztls.hs_ServerHello hs
    /\ ztls.hs_ServerCertificates hs' = ztls.hs_ServerCertificates hs
    /\ ztls.hs_ServerFinished hs' = ztls.hs_ServerFinished hs
    /\ (Recorder.present (ztls.hs_RSAExportParams hs)
        <= Recorder.present (ztls.hs_RSAExportParams hs'))%nat
    /\ (Recorder.present (ztls.hs_DHExportParams hs)
        <= Recorder.present (ztls.hs_DHExportParams hs'))%nat
    /\ (Recorder.present (ztls.hs_DHParams hs)
        <= Recorder.present (ztls.hs_DHParams hs'))%nat.
Proof.
  unfold ztls.setSkx, ztls.skx_MakeLog. rewrite clone_id.
  destruct (unmarshal_total ztls.newDHParams (ztls.skx_key skx))
    as (q & ok & Eq).
  rewrite Eq; cbn [go_bind].
  destruct (ztls.rsa_unmarshal X (ztls.skx_key skx)) as [r okr].
  repeat match goal with
         | |- context [if ?b then _ else _] => destruct b
         end;
    eexists; (split; [reflexivity | ]); cbn;
    repeat split; try apply Nat.le_refl; apply present_le_1.
Qed.

(** X7. The [MakeLog] conversions copy: the logged certificate chain is
    the message's chain, certificate by certificate in the same order (the
    indexed loop never leaves its slice), and the logged verify data, server
    random and session id are the message's bytes. *)
Theorem MakeLog_copies
        (h : Log.serverHelloMsg) (m : Log.certificateMsg)
        (f : Log.finishedMsg) :
  Log.cert_MakeLog m = Ret (ztls.mkCertificates (Log.certificates m))
  /\ ztls.VerifyData (Log.finished_MakeLog f) = Log.verifyData f
  /\ ztls.Random (Log.hello_MakeLog h) = Log.random h
  /\ ztls.SessionID (Log.hello_MakeLog h) = Log.sessionId h
  /\ ztls.CipherSuite (Log.hello_MakeLog h) = Log.cipherSuite h
  /\ ztls.Version (Log.hello_MakeLog h) = Log.vers h.
Proof.
  split.
  - unfold Log.cert_MakeLog.
    pose proof (copy_certificates_fills
                  [] (repeat [] (List.length (Log.certificates m)))
                  (Log.certificates m) (repeat_length _ _)) as Hloop.
    cbn [app List.length] in Hloop. now rewrite Hloop.
  - cbn. rewrite !clone_id. repeat split.
Qed.

(** X8. Two 16-bit signature algorithms that marshal to the same JSON
    object are the same value. *)
Theorem export_signature_algorithm_json_injective (v w : Z) :
  0 <= v < 2 ^ 16 -> 0 <= w < 2 ^ 16 ->
  ztls.MarshalJSON v = ztls.MarshalJSON w -> v = w.
Proof.
  intros Hv Hw. unfold ztls.MarshalJSON.
  rewrite (esa_aux_value v Hv), (esa_aux_value w Hw); cbn [go_bind].
  unfold ztls.json_Marshal_aux; cbn [ztls.aux_Value app].
  intros E. now inversion E.
Qed.

Lemma export_signature_algorithm_json_injective_witness :
  ztls.MarshalJSON 1025 = ztls.MarshalJSON (4 * 256 + 1)
  /\ 1025 = 4 * 256 + 1.
Proof.
  split; [reflexivity | ].
  exact (export_signature_algorithm_json_injective
           1025 (4 * 256 + 1) ltac:(lia) ltac:(lia) eq_refl).
Defined.

(* ===================================================================== *)
(** * Further properties: the handshake                                    *)
(* ===================================================================== *)

Section ConfigMore.

Import zlib.

(** A conditional assignment leaves alone the fields it does not
    assign. *)
Lemma when_frame {A : Type} (field : ztls.Config -> A) (cond : bool)
      (f : ztls.Config -> ztls.Config) (t : ztls.Config) :
  (forall t, field (f t) = field t) -> field (when cond f t) = field t.
Proof. intros Hf. unfold when. destruct cond; [apply Hf | reflexivity]. Qed.

Lemma ForceSuites_handshakeConfig (c : Conn) :
  ztls.ForceSuites (handshakeConfig c)
  = safariCiphers c || safariNoDHECiphers c.
Proof.
  unfold handshakeConfig.
  cbv zeta. autorewrite with config. cbn [ztls.ForceSuites].
  now destruct (safariCiphers c), (safariNoDHECiphers c).
Qed.

Lemma ServerName_handshakeConfig (c : Conn) :
  ztls.ServerName (handshakeConfig c)
  = if noSNI c then EmptyString else domain c.
Proof.
  unfold handshakeConfig. cbv zeta.
  rewrite !(when_frame ztls.ServerName) by reflexivity.
  unfold when. destruct (noSNI c); [reflexivity | ].
  destruct (String.eqb_spec (domain c) EmptyString) as [E | _];
    cbn; [now rewrite E | reflexivity].
Qed.

Lemma ExtendedRandom_handshakeConfig (c : Conn) :
  ztls.ExtendedRandom (handshakeConfig c) = extendedRandom c.
Proof.
  unfold handshakeConfig. cbv zeta.
  unfold when at 1. destruct (extendedRandom c); [reflexivity | ].
  now rewrite !(when_frame ztls.ExtendedRandom) by reflexivity.
Qed.

End ConfigMore.

(** X9. Whatever the policy flags, the configuration [TLSHandshake] hands
    to the engine disables certificate verification, allows versions from
    SSL 3.0 up to the connection's maximum, carries the connection's CA
    pool, enables heartbeats and client DSA, and asks for extended random
    exactly when the connection does; the server name is the connection's
    domain, and is empty when SNI is switched off. *)
Theorem handshake_config_fixed (c : zlib.Conn) :
  ztls.InsecureSkipVerify (zlib.handshakeConfig c) = true
  /\ ztls.MinVersion (zlib.handshakeConfig c) = ztls.VersionSSL30
  /\ ztls.MaxVersion (zlib.handshakeConfig c) = zlib.maxTlsVersion c
  /\ ztls.RootCAs (zlib.handshakeConfig c) = zlib.caPool c
  /\ ztls.HeartbeatEnabled (zlib.handshakeConfig c) = true
  /\ ztls.ClientDSAEnabled (zlib.handshakeConfig c) = true
  /\ ztls.ExtendedRandom (zlib.handshakeConfig c) = zlib.extendedRandom c
  /\ ztls.ServerName (zlib.handshakeConfig c)
     = if zlib.noSNI c then EmptyString else zlib.domain c.
Proof.
  repeat split;
    try apply ExtendedRandom_handshakeConfig;
    try apply ServerName_handshakeConfig;
    unfold zlib.handshakeConfig; cbv zeta.
  - now rewrite !(when_frame ztls.InsecureSkipVerify) by reflexivity.
  - now rewrite !(when_frame ztls.MinVersion) by reflexivity.
  - now rewrite !(when_frame ztls.MaxVersion) by reflexivity.
  - now rewrite !(when_frame ztls.RootCAs) by reflexivity.
  - now rewrite !(when_frame ztls.HeartbeatEnabled) by reflexivity.
  - now rewrite !(when_frame ztls.ClientDSAEnabled) by reflexivity.
Qed.

Section HandshakeMore.

Import zlib Upgrade Conns.

Lemma but_TLSHandshake_set (v : option ztls.ServerHandshake) (g : GrabData) :
  but_TLSHandshake (set_gd_TLSHandshake v g) = but_TLSHandshake g.
Proof. reflexivity. Qed.

(** What [TLSHandshake] changes on a plaintext connection: the mark, the
    TLS stream, the handshake log of the result record and the socket's
    write log. *)
Lemma TLSHandshake_plain_frame (e : Env) (c : Conn) :
  isTls c = false ->
  exists c',
    TLSHandshake e c
    = Ret (handshake_error (handshakeConfig c)
                           (tls_Handshake e (handshakeConfig c)), c')
    /\ isTls c' = true
    /\ gd_TLSHandshake (grabData c')
       = ho_log (tls_Handshake e (handshakeConfig c))
    /\ but_TLSHandshake (grabData c') = but_TLSHandshake (grabData c)
    /\ written (conn c')
       = written (conn c)
         ++ on_socket (ho_wire (tls_Handshake e (handshakeConfig c)))
    /\ but_written
         (set_grabData (grabData c) (set_tlsConn (tlsConn c) (set_isTls false c')))
       = but_written c.
Proof.
  intros Hplain.
  unfold TLSHandshake, TLSHandshake_begin, TLSHandshake_run,
    tlsConn_Handshake, tlsConn_GetHandshakeLog, modify_grabData, wrote,
    bind, get, modify, ret.
  rewrite Hplain. cbn.
  eexists. split; [reflexivity | ].
  destruct c as [n t tls g mx rd wd ca f1 f2 f3 f4 f5 f6 f7 f8 f9 sni xr d
                   re ss ec].
  cbn in Hplain. subst tls. cbn. repeat split.
Qed.

End HandshakeMore.

(** X10. On a plaintext connection [TLSHandshake] returns the error of the
    engine's handshake as it is, with one exception: [ErrUnimplementedCipher]
    becomes nil when the Safari or the Safari-no-DHE flag is set.  With
    neither flag set no error of the engine is swallowed, and with one set
    every other error still comes back. *)
Theorem handshake_error_passes (e : zlib.Env) (c : zlib.Conn) :
  zlib.isTls c = false ->
  exists r c',
    zlib.TLSHandshake e c = Ret (r, c')
    /\ r = (if (zlib.safariCiphers c || zlib.safariNoDHECiphers c)
               && zlib.is_ErrUnimplementedCipher
                    (zlib.ho_err (zlib.tls_Handshake e (zlib.handshakeConfig c)))
            then None
            else zlib.ho_err (zlib.tls_Handshake e (zlib.handshakeConfig c)))
    /\ (zlib.safariCiphers c = false -> zlib.safariNoDHECiphers c = false ->
        r = zlib.ho_err (zlib.tls_Handshake e (zlib.handshakeConfig c)))
    /\ (zlib.ho_err (zlib.tls_Handshake e (zlib.handshakeConfig c))
        <> Some ErrUnimplementedCipher ->
        r = zlib.ho_err (zlib.tls_Handshake e (zlib.handshakeConfig c))).
Proof.
  intros Hplain.
  destruct (TLSHandshake_plain e c Hplain) as (c' & E & _).
  eexists; exists c'. split; [exact E | ].
  unfold Upgrade.handshake_error. rewrite ForceSuites_handshakeConfig.
  split; [reflexivity | ]. split.
  - intros -> ->. reflexivity.
  - intros Hne.
    destruct (zlib.ho_err (zlib.tls_Handshake e (zlib.handshakeConfig c)))
      as [[text | | ] | ]; cbn; rewrite ?andb_false_r; try reflexivity.
    now contradiction Hne.
Qed.

(** The Chrome profile against a server that picks a suite the client does
    not implement: the error comes back. *)
Lemma handshake_error_passes_witness :
  exists c',
    zlib.TLSHandshake (Sample.peer EmptyString Sample.no_common_suite)
                      Sample.chrome
    = Ret (Some ErrUnimplementedCipher, c').
Proof.
  destruct (handshake_error_passes
              (Sample.peer EmptyString Sample.no_common_suite) Sample.chrome
              eq_refl)
    as (r & c' & E & _ & Hr & _).
  exists c'. rewrite E, (Hr eq_refl eq_refl). reflexivity.
Defined.

(** X11. On a plaintext connection [TLSHandshake] records the engine's
    handshake log in the result record whether the handshake succeeded or
    not, and touches nothing else of the result record; of the connection
    it changes the mark, the TLS stream and the socket (what the engine
    wrote is appended to what was written), and no setting. *)
Theorem handshake_log_always_recorded (e : zlib.Env) (c : zlib.Conn) :
  zlib.isTls c = false ->
  exists r c',
    zlib.TLSHandshake e c = Ret (r, c')
    /\ zlib.gd_TLSHandshake (zlib.grabData c')
       = zlib.ho_log (zlib.tls_Handshake e (zlib.handshakeConfig c))
    /\ Conns.but_TLSHandshake (zlib.grabData c')
       = Conns.but_TLSHandshake (zlib.grabData c)
    /\ zlib.written (zlib.conn c')
       = zlib.written (zlib.conn c)
         ++ zlib.on_socket
              (zlib.ho_wire (zlib.tls_Handshake e (zlib.handshakeConfig c)))
    /\ Conns.but_written
         (zlib.set_grabData (zlib.grabData c)
            (zlib.set_tlsConn (zlib.tlsConn c) (zlib.set_isTls false c')))
       = Conns.but_written c.
Proof.
  intros Hplain.
  destruct (TLSHandshake_plain_frame e c Hplain)
    as (c' & E & _ & Hlog & Hgd & Hw & Hc).
  eexists; exists c'. repeat split; eassumption.
Qed.

(** A handshake that breaks on the wire after the STARTTLS reply was
    recorded: the (empty) log of the engine is recorded, the reply
    stays. *)
Lemma handshake_log_always_recorded_witness :
  exists r c',
    zlib.TLSHandshake (Sample.peer EmptyString Sample.breaks)
                      (Upgrade.negotiated zlib.SMTP_COMMAND
                         (zlib.bytes_of Sample.go_ahead) Sample.dialled)
    = Ret (r, c')
    /\ zlib.gd_TLSHandshake (zlib.grabData c') = None
    /\ zlib.gd_StartTLS (zlib.grabData c') = Sample.go_ahead.
Proof.
  destruct (handshake_log_always_recorded
              (Sample.peer EmptyString Sample.breaks)
              (Upgrade.negotiated zlib.SMTP_COMMAND
                 (zlib.bytes_of Sample.go_ahead) Sample.dialled)
              eq_refl)
    as (r & c' & E & Hlog & Hgd & _).
  exists r, c'. split; [exact E | ]. split; [exact Hlog | ].
  exact (f_equal zlib.gd_StartTLS Hgd).
Defined.

(* ===================================================================== *)
(** * Further properties: the STARTTLS upgrades                            *)
(* ===================================================================== *)

Section StarttlsMore.

Import zlib Upgrade Conns Slice.
Local Open Scope conn_scope.

(** The POP3 and IMAP upgrades share their shape: send the command, read
    the reply into a 512-byte buffer, test how the reply starts. *)
Ltac upgrade_plain Hplain Hfit command r :=
  rewrite (bind_Ret _ _ _ _ _ (sendStartTLSCommand_plain _ command _ Hplain));
  match goal with
  | |- context [is_nil ?w] => destruct (is_nil w) eqn:?
  end; cbn [negb andb]; [ | reflexivity];
  match goal with
  | |- bind _ _ ?c1 = _ =>
      rewrite (bind_Ret _ _ _ _ _ (readResponse_plain _ r (make 512) c1 Hplain));
      rewrite (len_make 512) by lia;
      rewrite upto_fill by (rewrite len_make; lia);
      rewrite (bind_Ret _ _ c1 _ c1 eq_refl);
      rewrite (bind_Ret _ _ c1 tt _ eq_refl);
      rewrite (bind_Ret _ _ _ _ _ eq_refl)
  end.

Lemma POP3StartTLSHandshake_plain (e : Env) (c : Conn) :
  isTls c = false ->
  len (fst (util_ReadUntilRegex e Raw pop3EndRegex 512)) <= 512 ->
  POP3StartTLSHandshake e c
  = if negb (is_nil (snd (net_Write e Raw (bytes_of POP3_COMMAND)))) then
      Ret (snd (net_Write e Raw (bytes_of POP3_COMMAND)),
           set_conn (log_written [(Raw, bytes_of POP3_COMMAND)] (conn c)) c)
    else if reply_accepted "+"
              (fst (util_ReadUntilRegex e Raw pop3EndRegex 512))
              (snd (util_ReadUntilRegex e Raw pop3EndRegex 512)) then
      TLSHandshake e
        (negotiated POP3_COMMAND
                    (fst (util_ReadUntilRegex e Raw pop3EndRegex 512)) c)
    else
      Ret (if is_nil (snd (util_ReadUntilRegex e Raw pop3EndRegex 512))
           then errors_New "Server did not indicate support for STARTTLS"
           else snd (util_ReadUntilRegex e Raw pop3EndRegex 512),
           negotiated POP3_COMMAND
                      (fst (util_ReadUntilRegex e Raw pop3EndRegex 512)) c).
Proof.
  intros Hplain Hfit. unfold POP3StartTLSHandshake, readPop3Response.
  upgrade_plain Hplain Hfit POP3_COMMAND pop3EndRegex.
  unfold reply_accepted.
  cbn [grabData negotiated set_grabData gd_StartTLS set_gd_StartTLS].
  destruct (is_nil (snd (util_ReadUntilRegex e Raw pop3EndRegex 512)))
    eqn:Hr; cbn [andb negb].
  - destruct (String.prefix "+" _); cbn [negb is_nil errors_New];
      rewrite ?Hr; reflexivity.
  - rewrite Hr. reflexivity.
Qed.

Lemma IMAPStartTLSHandshake_plain (e : Env) (c : Conn) :
  isTls c = false ->
  len (fst (util_ReadUntilRegex e Raw imapStatusEndRegex 512)) <= 512 ->
  IMAPStartTLSHandshake e c
  = if negb (is_nil (snd (net_Write e Raw (bytes_of IMAP_COMMAND)))) then
      Ret (snd (net_Write e Raw (bytes_of IMAP_COMMAND)),
           set_conn (log_written [(Raw, bytes_of IMAP_COMMAND)] (conn c)) c)
    else if reply_accepted "a001 OK"
              (fst (util_ReadUntilRegex e Raw imapStatusEndRegex 512))
              (snd (util_ReadUntilRegex e Raw imapStatusEndRegex 512)) then
      TLSHandshake e
        (negotiated IMAP_COMMAND
                    (fst (util_ReadUntilRegex e Raw imapStatusEndRegex 512)) c)
    else
      Ret (if is_nil (snd (util_ReadUntilRegex e Raw imapStatusEndRegex 512))
           then errors_New "Server did not indicate support for STARTTLS"
           else snd (util_ReadUntilRegex e Raw imapStatusEndRegex 512),
           negotiated IMAP_COMMAND
                      (fst (util_ReadUntilRegex e Raw imapStatusEndRegex 512))
                      c).
Proof.
  intros Hplain Hfit. unfold IMAPStartTLSHandshake, readImapStatusResponse.
  upgrade_plain Hplain Hfit IMAP_COMMAND imapStatusEndRegex.
  unfold reply_accepted.
  cbn [grabData negotiated set_grabData gd_StartTLS set_gd_StartTLS].
  destruct (is_nil (snd (util_ReadUntilRegex e Raw imapStatusEndRegex 512)))
    eqn:Hr; cbn [andb negb].
  - destruct (String.prefix "a001 OK" _); cbn [negb is_nil errors_New];
      rewrite ?Hr; reflexivity.
  - rewrite Hr. reflexivity.
Qed.

(** The gate of an upgrade, from its three ways out. *)
Lemma upgrade_gate (e : Env) (c : Conn) (command : string)
      (werr rerr : option error) (reply : bytes) (accepted : bool)
      (refusal : option error) (result : go (option error * Conn)) :
  isTls c = false ->
  (is_nil rerr = false -> refusal = rerr) ->
  (is_nil rerr = true -> refusal <> None) ->
  result
  = (if negb (is_nil werr) then
       Ret (werr, set_conn (log_written [(Raw, bytes_of command)] (conn c)) c)
     else if accepted then TLSHandshake e (negotiated command reply c)
     else Ret (refusal, negotiated command reply c)) ->
  exists r c',
    result = Ret (r, c')
    /\ (is_nil werr && accepted = true ->
        result = TLSHandshake e (negotiated command reply c)
        /\ isTls c' = true)
    /\ (is_nil werr && accepted = false ->
        r <> None
        /\ isTls c' = false
        /\ tlsConn c' = tlsConn c
        /\ gd_TLSHandshake (grabData c') = gd_TLSHandshake (grabData c)
        /\ written (conn c')
           = written (conn c) ++ [(Raw, bytes_of command)]).
Proof.
  intros Hplain Hrefusal1 Hrefusal2 ->.
  destruct (is_nil werr) eqn:Hsent; cbn [negb andb].
  - destruct accepted.
    + assert (Hplain2 : isTls (negotiated command reply c) = false)
        by exact Hplain.
      destruct (TLSHandshake_plain e _ Hplain2) as (c' & E & [Hc' _] & _).
      rewrite E. eexists; exists c'.
      split; [reflexivity | ]. split; [ | discriminate].
      intros _. split; [reflexivity | exact Hc'].
    + eexists; eexists. split; [reflexivity | ]. split; [discriminate | ].
      intros _. split; [ | cbn; rewrite Hplain; repeat split].
      destruct (is_nil rerr) eqn:Hr;
        [now apply Hrefusal2 | rewrite (Hrefusal1 eq_refl)].
      intros Hnil. rewrite Hnil in Hr. discriminate Hr.
  - eexists; eexists. split; [reflexivity | ]. split; [discriminate | ].
    intros _. split; [ | cbn; rewrite Hplain; repeat split].
    intros Hnil. rewrite Hnil in Hsent. discriminate Hsent.
Qed.

(** On an established connection the command is refused before anything
    is written. *)
Lemma upgrade_refused (e : Env) (command : string) (c : Conn)
      (k : option error -> M (option error)) :
  established c ->
  (forall err, k (Some err) = ret (Some err)) ->
  bind (sendStartTLSCommand e command) k c
  = Ret (Some (starttls_after_tls c), c).
Proof.
  intros Hc Hk.
  rewrite (bind_Ret _ _ _ _ _ (sendStartTLSCommand_established e command c Hc)).
  now rewrite Hk.
Qed.

End StarttlsMore.

(** X12. On a plaintext connection, with a reply that fits the 512-byte
    buffer it is read into, [POP3StartTLSHandshake] enters [TLSHandshake]
    exactly when the command was sent, the read of the reply succeeded and
    the reply starts with "+" (no minimal length is asked for).  Otherwise
    it returns an error and leaves the connection in plaintext, with no
    handshake log and only the command written. *)
Theorem pop3_starttls_gate (e : zlib.Env) (c : zlib.Conn) :
  zlib.isTls c = false ->
  Slice.len (fst (zlib.util_ReadUntilRegex e zlib.Raw zlib.pop3EndRegex 512))
  <= 512 ->
  exists r c',
    zlib.POP3StartTLSHandshake e c = Ret (r, c')
    /\ (zlib.is_nil (snd (zlib.net_Write e zlib.Raw
                            (zlib.bytes_of zlib.POP3_COMMAND)))
        && Conns.reply_accepted
             "+"
             (fst (zlib.util_ReadUntilRegex e zlib.Raw zlib.pop3EndRegex 512))
             (snd (zlib.util_ReadUntilRegex e zlib.Raw zlib.pop3EndRegex 512))
        = true ->
        zlib.POP3StartTLSHandshake e c
        = zlib.TLSHandshake e
            (Upgrade.negotiated
               zlib.POP3_COMMAND
               (fst (zlib.util_ReadUntilRegex e zlib.Raw zlib.pop3EndRegex 512))
               c)
        /\ zlib.isTls c' = true)
    /\ (zlib.is_nil (snd (zlib.net_Write e zlib.Raw
                            (zlib.bytes_of zlib.POP3_COMMAND)))
        && Conns.reply_accepted
             "+"
             (fst (zlib.util_ReadUntilRegex e zlib.Raw zlib.pop3EndRegex 512))
             (snd (zlib.util_ReadUntilRegex e zlib.Raw zlib.pop3EndRegex 512))
        = false ->
        r <> None
        /\ zlib.isTls c' = false
        /\ zlib.tlsConn c' = zlib.tlsConn c
        /\ zlib.gd_TLSHandshake (zlib.grabData c')
           = zlib.gd_TLSHandshake (zlib.grabData c)
        /\ zlib.written (zlib.conn c')
           = zlib.written (zlib.conn c)
             ++ [(zlib.Raw, zlib.bytes_of zlib.POP3_COMMAND)]).
Proof.
  intros Hplain Hfit.
  eapply (upgrade_gate e c zlib.POP3_COMMAND); try exact Hplain.
  3: exact (POP3StartTLSHandshake_plain e c Hplain Hfit).
  - intros ->. reflexivity.
  - intros ->. discriminate.
Qed.

(** "+OK Begin TLS" opens the handshake; "-ERR" and an empty reply do
    not. *)
Lemma pop3_starttls_gate_witness :
  (exists r c',
      zlib.POP3StartTLSHandshake
        (Sample.peer "+OK Begin TLS" Sample.completes) Sample.dialled
      = Ret (r, c')
      /\ zlib.isTls c' = true)
  /\ (exists r c',
         zlib.POP3StartTLSHandshake
           (Sample.peer EmptyString Sample.completes) Sample.dialled
         = Ret (r, c')
         /\ r <> None /\ zlib.isTls c' = false).
Proof.
  split.
  - destruct (pop3_starttls_gate
                (Sample.peer "+OK Begin TLS" Sample.completes) Sample.dialled
                eq_refl ltac:(vm_compute; discriminate))
      as (r & c' & E & Hyes & _).
    exists r, c'. split; [exact E | ]. exact (proj2 (Hyes eq_refl)).
  - destruct (pop3_starttls_gate
                (Sample.peer EmptyString Sample.completes) Sample.dialled
                eq_refl ltac:(vm_compute; discriminate))
      as (r & c' & E & _ & Hno).
    exists r, c'. split; [exact E | ].
    destruct (Hno eq_refl) as (Hr & Hplain & _). split; assumption.
Defined.

(** X13. On a plaintext connection, with a reply that fits the 512-byte
    buffer it is read into, [IMAPStartTLSHandshake] enters [TLSHandshake]
    exactly when the command was sent, the read of the reply succeeded and
    the reply starts with "a001 OK", the tag of the command followed by
    OK.  Otherwise it returns an error and leaves the connection in
    plaintext, with no handshake log and only the command written. *)
Theorem imap_starttls_gate (e : zlib.Env) (c : zlib.Conn) :
  zlib.isTls c = false ->
  Slice.len
    (fst (zlib.util_ReadUntilRegex e zlib.Raw zlib.imapStatusEndRegex 512))
  <= 512 ->
  exists r c',
    zlib.IMAPStartTLSHandshake e c = Ret (r, c')
    /\ (zlib.is_nil (snd (zlib.net_Write e zlib.Raw
                            (zlib.bytes_of zlib.IMAP_COMMAND)))
        && Conns.reply_accepted
             "a001 OK"
             (fst (zlib.util_ReadUntilRegex e zlib.Raw
                     zlib.imapStatusEndRegex 512))
             (snd (zlib.util_ReadUntilRegex e zlib.Raw
                     zlib.imapStatusEndRegex 512))
        = true ->
        zlib.IMAPStartTLSHandshake e c
        = zlib.TLSHandshake e
            (Upgrade.negotiated
               zlib.IMAP_COMMAND
               (fst (zlib.util_ReadUntilRegex e zlib.Raw
                       zlib.imapStatusEndRegex 512))
               c)
        /\ zlib.isTls c' = true)
    /\ (zlib.is_nil (snd (zlib.net_Write e zlib.Raw
                            (zlib.bytes_of zlib.IMAP_COMMAND)))
        && Conns.reply_accepted
             "a001 OK"
             (fst (zlib.util_ReadUntilRegex e zlib.Raw
                     zlib.imapStatusEndRegex 512))
             (snd (zlib.util_ReadUntilRegex e zlib.Raw
                     zlib.imapStatusEndRegex 512))
        = false ->
        r <> None
        /\ zlib.isTls c' = false
        /\ zlib.tlsConn c' = zlib.tlsConn c
        /\ zlib.gd_TLSHandshake (zlib.grabData c')
           = zlib.gd_TLSHandshake (zlib.grabData c)
        /\ zlib.written (zlib.conn c')
           = zlib.written (zlib.conn c)
             ++ [(zlib.Raw, zlib.bytes_of zlib.IMAP_COMMAND)]).
Proof.
  intros Hplain Hfit.
  eapply (upgrade_gate e c zlib.IMAP_COMMAND); try exact Hplain.
  3: exact (IMAPStartTLSHandshake_plain e c Hplain Hfit).
  - intros ->. reflexivity.
  - intros ->. discriminate.
Qed.

(** "a001 OK Begin TLS" opens the handshake; an answer to another tag does
    not. *)
Lemma imap_starttls_gate_witness :
  (exists r c',
      zlib.IMAPStartTLSHandshake
        (Sample.peer "a001 OK Begin TLS" Sample.completes) Sample.dialled
      = Ret (r, c')
      /\ zlib.isTls c' = true)
  /\ (exists r c',
         zlib.IMAPStartTLSHandshake
           (Sample.peer "a002 OK Begin TLS" Sample.completes) Sample.dialled
         = Ret (r, c')
         /\ r <> None /\ zlib.isTls c' = false).
Proof.
  split.
  - destruct (imap_starttls_gate
                (Sample.peer "a001 OK Begin TLS" Sample.completes)
                Sample.dialled eq_refl ltac:(vm_compute; discriminate))
      as (r & c' & E & Hyes & _).
    exists r, c'. split; [exact E | ]. exact (proj2 (Hyes eq_refl)).
  - destruct (imap_starttls_gate
                (Sample.peer "a002 OK Begin TLS" Sample.completes)
                Sample.dialled eq_refl ltac:(vm_compute; discriminate))
      as (r & c' & E & _ & Hno).
    exists r, c'. split; [exact E | ].
    destruct (Hno eq_refl) as (Hr & Hplain & _). split; assumption.
Defined.

(** X14. On a connection that went through [TLSHandshake], each of
    [SMTPStartTLSHandshake], [POP3StartTLSHandshake] and
    [IMAPStartTLSHandshake] returns the error "Attempt STARTTLS after TLS
    handshake with remote host ..." and leaves the connection as it is: no
    command is written, no reply is read, no second handshake is tried. *)
Theorem starttls_refused_after_handshake (e : zlib.Env) (c : zlib.Conn) :
  Upgrade.established c ->
  zlib.SMTPStartTLSHandshake e c
  = Ret (Some (Upgrade.starttls_after_tls c), c)
  /\ zlib.POP3StartTLSHandshake e c
     = Ret (Some (Upgrade.starttls_after_tls c), c)
  /\ zlib.IMAPStartTLSHandshake e c
     = Ret (Some (Upgrade.starttls_after_tls c), c).
Proof.
  intros Hc.
  unfold zlib.SMTPStartTLSHandshake, zlib.POP3StartTLSHandshake,
    zlib.IMAPStartTLSHandshake.
  repeat split; apply upgrade_refused; try exact Hc; reflexivity.
Qed.

Lemma starttls_refused_after_handshake_witness :
  zlib.SMTPStartTLSHandshake (Sample.peer Sample.go_ahead Sample.completes)
                             Sample.upgraded
  = Ret (Some (Upgrade.starttls_after_tls Sample.upgraded), Sample.upgraded).
Proof.
  refine (proj1 (starttls_refused_after_handshake
                   (Sample.peer Sample.go_ahead Sample.completes)
                   Sample.upgraded _)).
  split; [reflexivity | vm_compute; discriminate].
Defined.

(* ===================================================================== *)
(** * Further properties: probes and pass-through methods                  *)
(* ===================================================================== *)

Section PassThrough.

Import zlib Upgrade Conns Slice.
Local Open Scope conn_scope.

Lemma getUnderlyingConn_usable (c : Conn) :
  usable c -> getUnderlyingConn c = Ret (current c, c).
Proof.
  unfold usable, established, getUnderlyingConn, current, bind, get.
  intros [Hplain | [Htls Hconn]].
  - now rewrite Hplain.
  - rewrite Htls. destruct (tlsConn c); [reflexivity | contradiction].
Qed.

Lemma usable_written (ws : list (Stream * bytes)) (c : Conn) :
  usable c -> usable (set_conn (log_written ws (conn c)) c).
Proof. intros H. exact H. Qed.

(** A read into a buffer, recorded: the common part of the readers. *)
Lemma read_recorded (data buf : bytes) (set : string -> GrabData -> GrabData)
      (c : Conn) :
  len data <= len buf ->
  bind (lift (upto (fill buf data) (len data)))
       (fun got => modify_grabData (set (string_of got))) c
  = Ret (tt, set_grabData (set (string_of data) (grabData c)) c).
Proof.
  intros Hfit. unfold bind, lift. now rewrite upto_fill.
Qed.

End PassThrough.

(** X15. On a connection that went through [TLSHandshake],
    [CheckHeartbleed] runs the engine's probe, records the engine's
    heartbleed log in the result record and returns the engine's count;
    the [HeartbleedError] sentinel is turned into nil, every other error
    comes back as it is.  The connection stays established and nothing else
    of the result record changes. *)
Theorem heartbleed_sentinel_is_success
        (e : zlib.Env) (b : Slice.bytes) (c : zlib.Conn) :
  Upgrade.established c ->
  exists c',
    zlib.CheckHeartbleed e b c
    = Ret ((zlib.hb_n (zlib.tls_CheckHeartbleed e b),
            if zlib.is_HeartbleedError
                 (zlib.hb_err (zlib.tls_CheckHeartbleed e b))
            then None
            else zlib.hb_err (zlib.tls_CheckHeartbleed e b)), c')
    /\ zlib.gd_Heartbleed (zlib.grabData c')
       = zlib.hb_log (zlib.tls_CheckHeartbleed e b)
    /\ Conns.but_Heartbleed (zlib.grabData c')
       = Conns.but_Heartbleed (zlib.grabData c)
    /\ Upgrade.established c'
    /\ zlib.written (zlib.conn c')
       = zlib.written (zlib.conn c)
         ++ zlib.on_socket (zlib.hb_wire (zlib.tls_CheckHeartbleed e b)).
Proof.
  intros [Htls Hconn].
  unfold zlib.CheckHeartbleed, zlib.bind at 1, zlib.get.
  rewrite Htls. cbn [negb].
  destruct (zlib.tlsConn c) as [tc | ]; [ | contradiction].
  unfold zlib.modify_grabData, zlib.wrote, zlib.bind, zlib.modify, zlib.ret.
  eexists. split; [reflexivity | ].
  cbn. repeat split; [exact Htls | discriminate].
Qed.

(** After a completed handshake, a probe the server answers with leaked
    bytes: the sentinel is reported as success. *)
Lemma heartbleed_sentinel_is_success_witness :
  exists c',
    zlib.CheckHeartbleed (Cases.bleeding Cases.leaked) [x18; x03; x02]
                         Sample.upgraded
    = Ret ((16, None), c')
    /\ zlib.gd_Heartbleed (zlib.grabData c') = Some (Foreign 1).
Proof.
  assert (Hc : Upgrade.established Sample.upgraded)
    by (split; [reflexivity | vm_compute; discriminate]).
  destruct (heartbleed_sentinel_is_success
              (Cases.bleeding Cases.leaked) [x18; x03; x02]
              Sample.upgraded Hc)
    as (c' & E & Hlog & _).
  exists c'. split; [exact E | exact Hlog].
Defined.

(** X16. On a plaintext connection [GetFTPSCertificates] enters
    [TLSHandshake] exactly when [ftp.SetupFTPS] reports no error and says
    the server is ready.  When it reports an error that error is returned,
    and when the server is not ready nil is returned; in both cases the
    connection stays in plaintext and no handshake log is recorded. *)
Theorem ftps_gate (e : zlib.Env) (c : zlib.Conn) :
  zlib.isTls c = false ->
  exists r c',
    zlib.GetFTPSCertificates e c = Ret (r, c')
    /\ zlib.gd_FTP (zlib.grabData c')
       = zlib.out_log
           (zlib.ftp_SetupFTPS e (zlib.gd_FTP (zlib.grabData c)) zlib.Raw)
    /\ (zlib.is_nil
          (zlib.out_err
             (zlib.ftp_SetupFTPS e (zlib.gd_FTP (zlib.grabData c)) zlib.Raw))
        && zlib.out_ready
             (zlib.ftp_SetupFTPS e (zlib.gd_FTP (zlib.grabData c)) zlib.Raw)
        = true ->
        zlib.isTls c' = true
        /\ r = Upgrade.handshake_error
                 (zlib.handshakeConfig c)
                 (zlib.tls_Handshake e (zlib.handshakeConfig c))
        /\ zlib.gd_TLSHandshake (zlib.grabData c')
           = zlib.ho_log (zlib.tls_Handshake e (zlib.handshakeConfig c)))
    /\ (zlib.is_nil
          (zlib.out_err
             (zlib.ftp_SetupFTPS e (zlib.gd_FTP (zlib.grabData c)) zlib.Raw))
        && zlib.out_ready
             (zlib.ftp_SetupFTPS e (zlib.gd_FTP (zlib.grabData c)) zlib.Raw)
        = false ->
        r = zlib.out_err
              (zlib.ftp_SetupFTPS e (zlib.gd_FTP (zlib.grabData c)) zlib.Raw)
        /\ zlib.isTls c' = false
        /\ zlib.tlsConn c' = zlib.tlsConn c
        /\ zlib.gd_TLSHandshake (zlib.grabData c')
           = zlib.gd_TLSHandshake (zlib.grabData c)).
Proof.
  intros Hplain.
  unfold zlib.GetFTPSCertificates.
  rewrite (bind_Ret _ _ c c c eq_refl).
  rewrite (bind_Ret _ _ _ _ _
             (getUnderlyingConn_usable c (or_introl Hplain))).
  unfold Conns.current. rewrite Hplain.
  set (out := zlib.ftp_SetupFTPS e (zlib.gd_FTP (zlib.grabData c)) zlib.Raw).
  cbv zeta.
  rewrite (bind_Ret _ _ _ tt _ eq_refl).
  rewrite (bind_Ret _ _ _ tt _ eq_refl).
  match goal with
  | |- context [zlib.modify_grabData ?f ?c0] => idtac
  | |- exists r c', _ ?c0 = _ /\ _ => set (c1 := c0)
  end.
  assert (Hplain1 : zlib.isTls c1 = false) by exact Hplain.
  destruct (zlib.is_nil (zlib.out_err out)) eqn:Herr; cbn [negb andb].
  - destruct (zlib.out_ready out).
    + destruct (TLSHandshake_plain e c1 Hplain1)
        as (c' & E & [Hc' _] & Hlog & _).
      rewrite E. eexists; exists c'.
      split; [reflexivity | ].
      split; [ | split; [intros _ | discriminate]].
      * destruct (TLSHandshake_plain_frame e c1 Hplain1)
          as (c2 & E2 & _ & _ & Hgd & _).
        rewrite E in E2. inversion E2; subst c2.
        exact (f_equal zlib.gd_FTP Hgd).
      * repeat split; assumption.
    + eexists; eexists. split; [reflexivity | ].
      split; [reflexivity | ]. split; [discriminate | ].
      intros _. cbn. rewrite Hplain. repeat split.
      destruct (zlib.out_err out); [discriminate Herr | reflexivity].
  - eexists; eexists. split; [reflexivity | ].
    split; [reflexivity | ]. split; [discriminate | ].
    intros _. cbn. rewrite Hplain. repeat split.
Qed.

(** A server that is ready, and one that refused AUTH TLS. *)
Lemma ftps_gate_witness :
  (exists r c',
      zlib.GetFTPSCertificates
        (Cases.ftp_server
           (zlib.mkOutcome 0 true None (Some (Foreign 2)) EmptyString []))
        Sample.dialled
      = Ret (r, c')
      /\ zlib.isTls c' = true)
  /\ (exists r c',
         zlib.GetFTPSCertificates
           (Cases.ftp_server
              (zlib.mkOutcome 0 false None (Some (Foreign 2)) EmptyString []))
           Sample.dialled
         = Ret (r, c')
         /\ r = None /\ zlib.isTls c' = false).
Proof.
  split.
  - destruct (ftps_gate
                (Cases.ftp_server
                   (zlib.mkOutcome 0 true None (Some (Foreign 2))
                                   EmptyString []))
                Sample.dialled eq_refl)
      as (r & c' & E & _ & Hyes & _).
    exists r, c'. split; [exact E | exact (proj1 (Hyes eq_refl))].
  - destruct (ftps_gate
                (Cases.ftp_server
                   (zlib.mkOutcome 0 false None (Some (Foreign 2))
                                   EmptyString []))
                Sample.dialled eq_refl)
      as (r & c' & E & _ & _ & Hno).
    exists r, c'. split; [exact E | ].
    destruct (Hno eq_refl) as (Hr & Hplain & _). split; assumption.
Defined.

(** X17. On a usable connection, when the stream accepts a count within
    the buffer, [Write] returns that count and the stream's error, and the
    result record holds the bytes that were accepted and only them (what an
    earlier [Write] recorded is replaced, also when the write failed); the
    buffer goes to the current stream, and nothing else changes. *)
Theorem write_records_accepted
        (e : zlib.Env) (b : Slice.bytes) (c : zlib.Conn) :
  Conns.usable c ->
  0 <= fst (zlib.net_Write e (Conns.current c) b) <= Slice.len b ->
  exists c',
    zlib.Write e b c = Ret (zlib.net_Write e (Conns.current c) b, c')
    /\ zlib.gd_Write (zlib.grabData c')
       = zlib.string_of
           (firstn (Z.to_nat (fst (zlib.net_Write e (Conns.current c) b))) b)
    /\ Conns.but_Write (zlib.grabData c') = Conns.but_Write (zlib.grabData c)
    /\ zlib.written (zlib.conn c')
       = zlib.written (zlib.conn c) ++ [(Conns.current c, b)]
    /\ Conns.but_written (zlib.set_grabData (zlib.grabData c) c')
       = Conns.but_written c.
Proof.
  intros Hc Hn. unfold zlib.Write.
  rewrite (bind_Ret _ _ _ _ _ (getUnderlyingConn_usable c Hc)).
  destruct (zlib.net_Write e (Conns.current c) b) as [n err].
  cbn [fst] in Hn.
  rewrite (bind_Ret _ _ _ tt _ eq_refl).
  unfold zlib.bind at 1, zlib.lift. rewrite upto_Ret by exact Hn.
  unfold zlib.modify_grabData, zlib.bind, zlib.modify, zlib.ret.
  eexists. split; [reflexivity | ].
  destruct c as [nc t tls g mx rd wd ca f1 f2 f3 f4 f5 f6 f7 f8 f9 sni xr d
                    re ss ec].
  destruct nc. cbn. repeat split.
Qed.

(** A socket that takes two of five bytes and fails: the two bytes are
    recorded. *)
Lemma write_records_accepted_witness :
  exists c',
    zlib.Write (Cases.choking 2 (Some (errorString "broken pipe")) EmptyString)
               [x68; x65; x6c; x6c; x6f] Sample.dialled
    = Ret ((2, Some (errorString "broken pipe")), c')
    /\ zlib.gd_Write (zlib.grabData c') = "he"%string.
Proof.
  destruct (write_records_accepted
              (Cases.choking 2 (Some (errorString "broken pipe")) EmptyString)
              [x68; x65; x6c; x6c; x6f] Sample.dialled
              (or_introl eq_refl)
              ltac:(vm_compute; split; discriminate))
    as (c' & E & Hw & _).
  exists c'. split; [exact E | exact Hw].
Defined.

Section Mail.

Import zlib Upgrade Conns Slice.
Local Open Scope conn_scope.

(** [EHLO] and [SMTPHelp] share their shape: write a command to the
    current stream, stop there if the write failed, else read the reply
    into a 512-byte buffer. *)
Lemma command_then_reply (e : Env) (c : Conn) (cmd : bytes)
      (on_werr : option error -> M (option error))
      (set : string -> GrabData -> GrabData) :
  usable c ->
  len (fst (util_ReadUntilRegex e (current c) smtpEndRegex 512)) <= 512 ->
  (s <- getUnderlyingConn ;;
   let '(_, err) := net_Write e s cmd in
   wrote [(s, cmd)] ;;;
   if negb (is_nil err) then on_werr err else
   let buf := make 512 in
   r <- readSmtpResponse e buf ;;
   let '(buf, n, err) := r in
   got <- lift (upto buf n) ;;
   modify_grabData (set (string_of got)) ;;;
   ret err) c
  = if negb (is_nil (snd (net_Write e (current c) cmd)))
    then on_werr (snd (net_Write e (current c) cmd))
                 (set_conn (log_written [(current c, cmd)] (conn c)) c)
    else Ret (snd (util_ReadUntilRegex e (current c) smtpEndRegex 512),
              set_grabData
                (set (string_of
                        (fst (util_ReadUntilRegex e (current c)
                                                  smtpEndRegex 512)))
                     (grabData c))
                (set_conn (log_written [(current c, cmd)] (conn c)) c)).
Proof.
  intros Hc Hfit.
  rewrite (bind_Ret _ _ _ _ _ (getUnderlyingConn_usable c Hc)).
  destruct (net_Write e (current c) cmd) as [n werr]. cbn [snd].
  rewrite (bind_Ret _ _ _ tt _ eq_refl).
  destruct (is_nil werr); cbn [negb]; [ | reflexivity].
  cbv zeta. unfold readSmtpResponse, readResponse.
  set (c1 := set_conn (log_written [(current c, cmd)] (conn c)) c).
  assert (Hc1 : usable c1) by exact Hc.
  unfold bind at 1, bind at 1.
  rewrite (getUnderlyingConn_usable c1 Hc1).
  change (current c1) with (current c).
  rewrite (len_make 512) by lia.
  destruct (util_ReadUntilRegex e (current c) smtpEndRegex 512)
    as [data rerr].
  cbn [fst snd] in *. unfold ret at 1.
  unfold bind at 1, lift.
  rewrite upto_fill by (rewrite len_make; lia).
  reflexivity.
Qed.

End Mail.

(** X18. On a usable connection, with a reply that fits the 512-byte
    buffer it is read into, [EHLO] writes "EHLO <domain>" and CR LF to the
    current stream.  When the write fails it returns the write's error
    without reading, and the EHLO record is left as it was; otherwise the
    record holds the reply that was read, also when the read failed, and
    the read's error is returned.  Nothing else of the result record
    changes. *)
Theorem ehlo_records_reply (e : zlib.Env) (d : string) (c : zlib.Conn) :
  Conns.usable c ->
  Slice.len
    (fst (zlib.util_ReadUntilRegex e (Conns.current c) zlib.smtpEndRegex 512))
  <= 512 ->
  exists r c',
    zlib.EHLO e d c = Ret (r, c')
    /\ zlib.written (zlib.conn c')
       = zlib.written (zlib.conn c)
         ++ [(Conns.current c,
              zlib.bytes_of
                (String.append "EHLO " (String.append d zlib.CRLF)))]
    /\ Conns.but_EHLO (zlib.grabData c') = Conns.but_EHLO (zlib.grabData c)
    /\ (snd (zlib.net_Write
               e (Conns.current c)
               (zlib.bytes_of
                  (String.append "EHLO " (String.append d zlib.CRLF))))
        <> None ->
        r = snd (zlib.net_Write
                   e (Conns.current c)
                   (zlib.bytes_of
                      (String.append "EHLO " (String.append d zlib.CRLF))))
        /\ zlib.gd_EHLO (zlib.grabData c') = zlib.gd_EHLO (zlib.grabData c))
    /\ (snd (zlib.net_Write
               e (Conns.current c)
               (zlib.bytes_of
                  (String.append "EHLO " (String.append d zlib.CRLF))))
        = None ->
        r = snd (zlib.util_ReadUntilRegex e (Conns.current c)
                                          zlib.smtpEndRegex 512)
        /\ zlib.gd_EHLO (zlib.grabData c')
           = zlib.string_of
               (fst (zlib.util_ReadUntilRegex e (Conns.current c)
                                              zlib.smtpEndRegex 512))).
Proof.
  intros Hc Hfit. unfold zlib.EHLO. cbv zeta.
  rewrite (command_then_reply e c _ zlib.ret zlib.set_gd_EHLO Hc Hfit).
  destruct (snd (zlib.net_Write e (Conns.current c) _)) as [werr | ];
    cbn [zlib.is_nil negb]; eexists; eexists;
    (split; [reflexivity | ]);
    repeat split; try reflexivity; congruence.
Qed.

Lemma ehlo_records_reply_witness :
  exists r c',
    zlib.EHLO (Sample.peer "250 mail.example" Sample.completes)
              "scanner.example" Sample.dialled
    = Ret (r, c')
    /\ zlib.gd_EHLO (zlib.grabData c') = "250 mail.example"%string.
Proof.
  destruct (ehlo_records_reply
              (Sample.peer "250 mail.example" Sample.completes)
              "scanner.example" Sample.dialled
              (or_introl eq_refl) ltac:(vm_compute; discriminate))
    as (r & c' & E & _ & _ & _ & Hok).
  exists r, c'. split; [exact E | exact (proj2 (Hok eq_refl))].
Defined.

(** X19. On a usable connection, with a reply that fits the 512-byte
    buffer it is read into, [SMTPHelp] writes "HELP" and CR LF to the
    current stream and always leaves a help event in the result record:
    an empty one when the write failed (the write's error is returned and
    nothing is read), one holding the reply that was read otherwise (the
    read's error is returned). *)
Theorem smtp_help_always_recorded (e : zlib.Env) (c : zlib.Conn) :
  Conns.usable c ->
  Slice.len
    (fst (zlib.util_ReadUntilRegex e (Conns.current c) zlib.smtpEndRegex 512))
  <= 512 ->
  exists r c',
    zlib.SMTPHelp e c = Ret (r, c')
    /\ zlib.written (zlib.conn c')
       = zlib.written (zlib.conn c)
         ++ [(Conns.current c,
              zlib.bytes_of (String.append "HELP" zlib.CRLF))]
    /\ Conns.but_SMTPHelp (zlib.grabData c')
       = Conns.but_SMTPHelp (zlib.grabData c)
    /\ (snd (zlib.net_Write e (Conns.current c)
                            (zlib.bytes_of (String.append "HELP" zlib.CRLF)))
        <> None ->
        r = snd (zlib.net_Write
                   e (Conns.current c)
                   (zlib.bytes_of (String.append "HELP" zlib.CRLF)))
        /\ zlib.gd_SMTPHelp (zlib.grabData c')
           = Some (zlib.mkSMTPHelpEvent EmptyString))
    /\ (snd (zlib.net_Write e (Conns.current c)
                            (zlib.bytes_of (String.append "HELP" zlib.CRLF)))
        = None ->
        r = snd (zlib.util_ReadUntilRegex e (Conns.current c)
                                          zlib.smtpEndRegex 512)
        /\ zlib.gd_SMTPHelp (zlib.grabData c')
           = Some (zlib.mkSMTPHelpEvent
                     (zlib.string_of
                        (fst (zlib.util_ReadUntilRegex
                                e (Conns.current c) zlib.smtpEndRegex 512))))).
Proof.
  intros Hc Hfit. unfold zlib.SMTPHelp. cbv zeta.
  rewrite (command_then_reply
             e c _
             (fun err =>
                zlib.bind
                  (zlib.modify_grabData
                     (zlib.set_gd_SMTPHelp
                        (Some (zlib.mkSMTPHelpEvent EmptyString))))
                  (fun _ => zlib.ret err))
             (fun reply =>
                zlib.set_gd_SMTPHelp (Some (zlib.mkSMTPHelpEvent reply)))
             Hc Hfit).
  destruct (snd (zlib.net_Write e (Conns.current c) _)) as [werr | ];
    cbn [zlib.is_nil negb]; eexists; eexists;
    (split; [reflexivity | ]);
    repeat split; try reflexivity; congruence.
Qed.

(** A socket that is already closed: the help event is recorded, empty. *)
Lemma smtp_help_always_recorded_witness :
  exists r c',
    zlib.SMTPHelp (Cases.choking 0 (Some (errorString "broken pipe"))
                                 "214 commands")
                  Sample.dialled
    = Ret (r, c')
    /\ r = Some (errorString "broken pipe")
    /\ zlib.gd_SMTPHelp (zlib.grabData c')
       = Some (zlib.mkSMTPHelpEvent EmptyString).
Proof.
  destruct (smtp_help_always_recorded
              (Cases.choking 0 (Some (errorString "broken pipe"))
                             "214 commands")
              Sample.dialled
              (or_introl eq_refl) ltac:(vm_compute; discriminate))
    as (r & c' & E & _ & _ & Hfail & _).
  exists r, c'. split; [exact E | ].
  exact (Hfail ltac:(vm_compute; discriminate)).
Defined.

(** X20. On a usable connection the readers record what was read, also
    when the read returned an error, and return the read's error as it is:
    [BasicBanner] reads at most 1024 bytes from the current stream and
    returns them as the banner; [SMTPBanner], [POP3Banner] and [IMAPBanner]
    read into the caller's buffer until their end pattern and return the
    count; [Read] returns the count and records in [Read], not in
    [Banner].  A later banner replaces an earlier one. *)
Theorem readers_record_what_was_read
        (e : zlib.Env) (c : zlib.Conn) (b : Slice.bytes) (r : zlib.Regex) :
  Conns.usable c ->
  (Slice.len (fst (zlib.net_Read e (Conns.current c) 1024)) <= 1024 ->
   exists c',
     zlib.BasicBanner e c
     = Ret ((zlib.string_of (fst (zlib.net_Read e (Conns.current c) 1024)),
             snd (zlib.net_Read e (Conns.current c) 1024)), c')
     /\ zlib.grabData c'
        = zlib.set_gd_Banner
            (zlib.string_of (fst (zlib.net_Read e (Conns.current c) 1024)))
            (zlib.grabData c)
     /\ zlib.set_grabData (zlib.grabData c) c' = c)
  /\ (Slice.len (fst (zlib.util_ReadUntilRegex e (Conns.current c) r
                                               (Slice.len b)))
      <= Slice.len b ->
      exists c',
        zlib.banner e r b c
        = Ret ((Slice.len (fst (zlib.util_ReadUntilRegex
                                  e (Conns.current c) r (Slice.len b))),
                snd (zlib.util_ReadUntilRegex e (Conns.current c) r
                                              (Slice.len b))), c')
        /\ zlib.grabData c'
           = zlib.set_gd_Banner
               (zlib.string_of
                  (fst (zlib.util_ReadUntilRegex e (Conns.current c) r
                                                 (Slice.len b))))
               (zlib.grabData c)
        /\ zlib.set_grabData (zlib.grabData c) c' = c)
  /\ (Slice.len (fst (zlib.net_Read e (Conns.current c) (Slice.len b)))
      <= Slice.len b ->
      exists c',
        zlib.Read e b c
        = Ret ((Slice.len (fst (zlib.net_Read e (Conns.current c)
                                              (Slice.len b))),
                snd (zlib.net_Read e (Conns.current c) (Slice.len b))), c')
        /\ zlib.grabData c'
           = zlib.set_gd_Read
               (zlib.string_of
                  (fst (zlib.net_Read e (Conns.current c) (Slice.len b))))
               (zlib.grabData c)
        /\ zlib.set_grabData (zlib.grabData c) c' = c).
Proof.
  intros Hc. split; [ | split]; intros Hfit.
  - unfold zlib.BasicBanner. cbv zeta.
    rewrite (bind_Ret _ _ _ _ _ (getUnderlyingConn_usable c Hc)).
    rewrite (len_make 1024) by lia.
    destruct (zlib.net_Read e (Conns.current c) 1024) as [data err].
    cbn [fst snd] in *.
    unfold zlib.bind at 1, zlib.lift.
    rewrite upto_fill by (rewrite len_make; lia).
    eexists. split; [reflexivity | ].
    split; [reflexivity | ].
    destruct c; reflexivity.
  - unfold zlib.banner, zlib.readResponse.
    unfold zlib.bind at 1, zlib.bind at 1.
    rewrite (getUnderlyingConn_usable c Hc).
    destruct (zlib.util_ReadUntilRegex e (Conns.current c) r (Slice.len b))
      as [data err].
    cbn [fst snd] in *. unfold zlib.ret at 1.
    unfold zlib.bind at 1, zlib.lift. rewrite upto_fill by exact Hfit.
    eexists. split; [reflexivity | ].
    split; [reflexivity | ].
    destruct c; reflexivity.
  - unfold zlib.Read.
    rewrite (bind_Ret _ _ _ _ _ (getUnderlyingConn_usable c Hc)).
    destruct (zlib.net_Read e (Conns.current c) (Slice.len b))
      as [data err].
    cbn [fst snd] in *.
    unfold zlib.bind at 1, zlib.lift. rewrite upto_fill by exact Hfit.
    eexists. split; [reflexivity | ].
    split; [reflexivity | ].
    destruct c; reflexivity.
Qed.

Lemma readers_record_what_was_read_witness :
  exists c',
    zlib.BasicBanner (Sample.peer "220 mail.example ESMTP" Sample.completes)
                     Sample.dialled
    = Ret (("220 mail.example ESMTP"%string, None), c')
    /\ zlib.gd_Banner (zlib.grabData c') = "220 mail.example ESMTP"%string.
Proof.
  destruct (proj1 (readers_record_what_was_read
                     (Sample.peer "220 mail.example ESMTP" Sample.completes)
                     Sample.dialled [] zlib.smtpEndRegex (or_introl eq_refl))
                  ltac:(vm_compute; discriminate))
    as (c' & E & Hgd & _).
  exists c'. split; [exact E | ].
  rewrite Hgd. reflexivity.
Defined.

(* ===================================================================== *)
(** * Further properties: the settings                                     *)
(* ===================================================================== *)

Section Settings.

Import zlib Upgrade Conns.
Local Open Scope conn_scope.

(** A property of the connection that depends on its settings only, and
    that every setter keeps. *)
Variable I : Conn -> Prop.

Hypothesis I_frame :
  forall c c', (forall s, setting s c' = setting s c) -> I c -> I c'.
Hypothesis I_switch : forall s c, I c -> I (switch s c).

Ltac holds :=
  repeat first
    [ solve [auto]
    | progress cbv zeta
    | apply preserves_ret
    | apply preserves_get
    | apply preserves_lift
    | apply preserves_modify;
      let c := fresh "c" in
      let Hc := fresh "Hc" in
      intros c Hc;
      first [ apply (I_frame c); [intros []; reflexivity | exact Hc]
            | apply (I_switch OnlyDHE); exact Hc
            | apply (I_switch OnlyExports); exact Hc
            | apply (I_switch OnlyExportsDH); exact Hc
            | apply (I_switch Chrome); exact Hc
            | apply (I_switch ChromeNoDHE); exact Hc
            | apply (I_switch Firefox); exact Hc
            | apply (I_switch FirefoxNoDHE); exact Hc
            | apply (I_switch Safari); exact Hc
            | apply (I_switch SafariNoDHE); exact Hc
            | apply (I_switch NoSNI); exact Hc
            | apply (I_switch ExtendedRandom); exact Hc ]
    | apply preserves_bind; [ | intros ? ]
    | match goal with
      | |- preserves _ (if ?b then _ else _) => destruct b
      | |- preserves _ (match ?x with _ => _ end) => destruct x
      end ].

Lemma getUnderlyingConn_holds : preserves I getUnderlyingConn.
Proof. unfold getUnderlyingConn. holds. Qed.

Lemma RemoteAddr_holds : preserves I RemoteAddr.
Proof. pose proof getUnderlyingConn_holds. unfold RemoteAddr. holds. Qed.

Lemma LocalAddr_holds : preserves I LocalAddr.
Proof. pose proof getUnderlyingConn_holds. unfold LocalAddr. holds. Qed.

Lemma readResponse_holds e r res : preserves I (readResponse e r res).
Proof. pose proof getUnderlyingConn_holds. unfold readResponse. holds. Qed.

Lemma TLSHandshake_holds e : preserves I (TLSHandshake e).
Proof.
  pose proof RemoteAddr_holds.
  unfold TLSHandshake, TLSHandshake_begin, TLSHandshake_run,
    tlsConn_Handshake, tlsConn_GetHandshakeLog, modify_grabData, wrote.
  holds.
Qed.

Lemma sendStartTLSCommand_holds e cmd :
  preserves I (sendStartTLSCommand e cmd).
Proof.
  pose proof RemoteAddr_holds.
  unfold sendStartTLSCommand, wrote. holds.
Qed.

Lemma exec_holds e op : preserves I (exec e op).
Proof.
  pose proof getUnderlyingConn_holds.
  pose proof RemoteAddr_holds.
  pose proof LocalAddr_holds.
  pose proof (TLSHandshake_holds e).
  pose proof (sendStartTLSCommand_holds e).
  pose proof (readResponse_holds e).
  destruct op; cbn [exec];
    unfold ignore, SetDHEOnly, SetExportsOnly, SetExportsDHOnly,
      SetChromeCiphers, SetChromeNoDHECiphers, SetFirefoxCiphers,
      SetFirefoxNoDHECiphers, SetSafariCiphers, SetSafariNoDHECiphers,
      SetExtendedRandom, SetNoSNI, SetCAPool, SetDomain,
      SetDeadline, SetReadDeadline, SetWriteDeadline, Write, BasicBanner,
      Read, Close, HTTP, SMTPStartTLSHandshake, POP3StartTLSHandshake,
      IMAPStartTLSHandshake, SMTPBanner, POP3Banner, IMAPBanner, banner,
      readSmtpResponse, readPop3Response, readImapStatusResponse,
      EHLO, SMTPHelp, CheckHeartbleed, SendModbusEcho,
      GetFTPSCertificates, SSHHandshake, modify_grabData, wrote;
    holds.
Qed.

Lemma run_holds calls : preserves I (run calls).
Proof.
  induction calls as [|[e op] rest IH]; cbn [run].
  - apply preserves_ret.
  - apply preserves_bind; [apply exec_holds | intros _; exact IH].
Qed.

End Settings.

Section SettingsOn.

Import zlib Upgrade Conns.

Lemma setting_switch (s s' : Setting) (c : Conn) :
  setting s c = true -> setting s (switch s' c) = true.
Proof. destruct s, s'; cbn; auto. Qed.

Lemma setting_switched (s : Setting) (c : Conn) :
  setting s (switch s c) = true.
Proof. destruct s; reflexivity. Qed.

Lemma exec_turn_on (e : Env) (s : Setting) (c : Conn) :
  exec e (turn_on s) c = Ret (tt, switch s c).
Proof. destruct s; reflexivity. Qed.

(** A setting that is on stays on through every run of calls. *)
Lemma run_keeps_setting (s : Setting) calls :
  preserves (fun c => setting s c = true) (run calls).
Proof.
  apply run_holds.
  - intros c c' Hsame Hc. now rewrite Hsame.
  - intros s' c Hc. now apply setting_switch.
Qed.

(** The suite list and the force flag of the configuration are settled by
    the settings. *)
Lemma config_by_settings (c c' : Conn) :
  (forall s, setting s c' = setting s c) ->
  ztls.CipherSuites (handshakeConfig c') = ztls.CipherSuites (handshakeConfig c)
  /\ ztls.ForceSuites (handshakeConfig c') = ztls.ForceSuites (handshakeConfig c).
Proof.
  intros Hsame.
  pose proof (Hsame OnlyDHE) as H1. pose proof (Hsame OnlyExports) as H2.
  pose proof (Hsame OnlyExportsDH) as H3. pose proof (Hsame Chrome) as H4.
  pose proof (Hsame ChromeNoDHE) as H5. pose proof (Hsame Firefox) as H6.
  pose proof (Hsame FirefoxNoDHE) as H7. pose proof (Hsame Safari) as H8.
  pose proof (Hsame SafariNoDHE) as H9.
  cbn [setting] in *. split.
  - unfold handshakeConfig. cbv zeta. autorewrite with config.
    now rewrite H1, H2, H3, H4, H5, H6, H7, H8, H9.
  - rewrite !ForceSuites_handshakeConfig. now rewrite H8, H9.
Qed.

End SettingsOn.

(** X21. Every setting of a connection (the nine cipher-policy flags, the
    no-SNI flag and the extended-random flag) can only be switched on: its
    setter switches it on, and once it is on it stays on through any
    sequence of calls of the methods of [conn.go] that returns.  There is no
    way to take back a cipher policy on a connection. *)
Theorem settings_never_cleared
        (s : Conns.Setting) (e : zlib.Env)
        (calls : list (zlib.Env * zlib.Op)) (c c' : zlib.Conn) :
  zlib.run ((e, Conns.turn_on s) :: calls) c = Ret (tt, c') ->
  Conns.setting s c' = true.
Proof.
  cbn [zlib.run]. unfold zlib.bind at 1.
  rewrite (exec_turn_on e s c). intros E.
  exact (run_keeps_setting s calls (Conns.switch s c) tt c'
                           (setting_switched s c) E).
Qed.

(** The Safari profile is selected, then DHE-only, then a handshake runs:
    the Safari flag is still set. *)
Lemma settings_never_cleared_witness :
  exists c',
    zlib.run [ (Sample.peer EmptyString Sample.completes,
                zlib.OpSetSafariCiphers);
               (Sample.peer EmptyString Sample.completes,
                zlib.OpSetDHEOnly);
               (Sample.peer EmptyString Sample.completes,
                zlib.OpTLSHandshake) ]
             Sample.dialled
    = Ret (tt, c')
    /\ zlib.safariCiphers c' = true.
Proof.
  eexists. split; [reflexivity | ].
  exact (settings_never_cleared
           Conns.Safari (Sample.peer EmptyString Sample.completes)
           [ (Sample.peer EmptyString Sample.completes, zlib.OpSetDHEOnly);
             (Sample.peer EmptyString Sample.completes, zlib.OpTLSHandshake) ]
           Sample.dialled _ eq_refl).
Defined.

(** X22. The setters commute and are idempotent: calling two of them in
    either order, or one of them twice, leaves the same connection.  So the
    configuration a handshake is run with depends on which settings were
    asked for and not on the order in which the caller asked. *)
Theorem setters_commute
        (e1 e2 : zlib.Env) (s1 s2 : Conns.Setting) (c : zlib.Conn) :
  zlib.run [(e1, Conns.turn_on s1); (e2, Conns.turn_on s2)] c
  = zlib.run [(e2, Conns.turn_on s2); (e1, Conns.turn_on s1)] c
  /\ zlib.run [(e1, Conns.turn_on s1); (e2, Conns.turn_on s1)] c
     = zlib.run [(e1, Conns.turn_on s1)] c
  /\ zlib.run [(e1, Conns.turn_on s1); (e2, Conns.turn_on s2)] c
     = Ret (tt, Conns.switch s2 (Conns.switch s1 c)).
Proof.
  cbn [zlib.run]. unfold zlib.bind.
  repeat rewrite exec_turn_on.
  split; [ | split].
  - destruct s1, s2; reflexivity.
  - destruct s1; reflexivity.
  - reflexivity.
Qed.

(* ===================================================================== *)
(** * Further properties: the HTTP exchange                                *)
(* ===================================================================== *)

Section Steps.

Context {S : Type}.

Lemma bind_inv {A B : Type} (m : St.ST S A) (k : A -> St.ST S B) s b s' :
  St.bind m k s = Ret (b, s') ->
  exists a s1, m s = Ret (a, s1) /\ k a s1 = Ret (b, s').
Proof.
  unfold St.bind. destruct (m s) as [[a s1]|]; [ | discriminate].
  intros E. now exists a, s1.
Qed.

Lemma ret_inv {A : Type} (a b : A) (s s' : S) :
  St.ret a s = Ret (b, s') -> b = a /\ s' = s.
Proof. unfold St.ret. intros E. now inversion E. Qed.

Lemma get_inv (s a s' : S) : St.get s = Ret (a, s') -> a = s /\ s' = s.
Proof. unfold St.get. intros E. now inversion E. Qed.

Lemma modify_inv (f : S -> S) (s : S) u s' :
  St.modify f s = Ret (u, s') -> s' = f s.
Proof. unfold St.modify. intros E. now inversion E. Qed.

Lemma lift_inv {A : Type} (g : go A) (s : S) a s' :
  St.lift g s = Ret (a, s') -> g = Ret a /\ s' = s.
Proof.
  unfold St.lift. destruct g; [ | discriminate].
  intros E. now inversion E.
Qed.

Lemma zoom_inv {A : Type} (proj : S -> zlib.Conn) (inj : zlib.Conn -> S -> S)
      (m : zlib.M A) (s : S) a s' :
  St.zoom proj inj m s = Ret (a, s') ->
  exists c, m (proj s) = Ret (a, c) /\ s' = inj c s.
Proof.
  unfold St.zoom. destruct (m (proj s)) as [[a0 c]|]; [ | discriminate].
  intros E. inversion E; subst. now exists c.
Qed.

End Steps.

(** Taking a run that returned apart, statement by statement. *)
Ltac unstep :=
  repeat match goal with
    | H : St.bind _ _ _ = Ret _ |- _ =>
        let a := fresh "a" in
        let s := fresh "s" in
        let H1 := fresh "E" in
        apply bind_inv in H; destruct H as (a & s & H1 & H);
        cbv beta in H
    | H : St.ret _ _ = Ret _ |- _ =>
        apply ret_inv in H; destruct H as [H ?]; inversion H; clear H; subst
    | H : St.get _ = Ret _ |- _ =>
        apply get_inv in H; destruct H; subst
    | H : St.modify _ _ = Ret _ |- _ => apply modify_inv in H; subst
    | H : St.lift _ _ = Ret _ |- _ =>
        apply lift_inv in H; destruct H; subst
    end.

Section Underlying.

Import zlib Conns.

Lemma getUnderlyingConn_same (c : Conn) s c' :
  getUnderlyingConn c = Ret (s, c') -> s = current c /\ c' = c.
Proof.
  unfold getUnderlyingConn, current, bind, get.
  destruct (isTls c); [destruct (tlsConn c) | ]; cbn;
    intros E; inversion E; auto.
Qed.

Lemma RemoteAddr_same (c : Conn) a c' :
  RemoteAddr c = Ret (a, c') -> a = remote (conn c) /\ c' = c.
Proof.
  unfold RemoteAddr, bind at 1.
  destruct (getUnderlyingConn c) as [[s c1]|] eqn:Eu; [ | discriminate].
  apply getUnderlyingConn_same in Eu. destruct Eu as [_ ->].
  unfold bind, get, ret. intros E. inversion E; auto.
Qed.

End Underlying.
Section Clipping.

Import Slice zlib Http.

Lemma substring_all (s : string) (n : nat) :
  (String.length s <= n)%nat -> String.substring 0 n s = s.
Proof.
  revert n. induction s as [|ch rest IH]; intros n Hn.
  - now destruct n.
  - destruct n as [|n]; cbn in *; [lia | ]. rewrite IH; [reflexivity | lia].
Qed.

Lemma length_substring (s : string) (n : nat) :
  String.length (String.substring 0 n s) = Nat.min n (String.length s).
Proof.
  revert n. induction s as [|ch rest IH]; intros n.
  - now destruct n.
  - destruct n as [|n]; cbn; [reflexivity | now rewrite IH].
Qed.

(** The error comes back clipped exactly when the limit is not
    negative. *)
Lemma clip_error_Ret (config : HTTPConfig) (msg : string) (e : error) :
  clip_error config msg = Ret e
  <-> 0 <= limit config
      /\ e = errorString
               (String.substring 0 (Z.to_nat (limit config)) msg).
Proof.
  unfold clip_error.
  destruct (Z.ltb_spec (limit config) (Z.of_nat (String.length msg)))
    as [Hlong | Hshort].
  - unfold str_upto.
    destruct (Z.leb_spec 0 (limit config)) as [H0 | H0]; cbn.
    + destruct (Z.leb_spec (limit config) (Z.of_nat (String.length msg)));
        [ | lia].
      cbn. split.
      * intros E. inversion E. auto.
      * intros [_ ->]. reflexivity.
    + split; [discriminate | lia].
  - rewrite substring_all by lia. split.
    + intros E. inversion E. split; [lia | reflexivity].
    + intros [_ ->]. reflexivity.
Qed.

(** So does the body. *)
Lemma clip_body_Ret (config : HTTPConfig) (body out : bytes) :
  clip_body config body = Ret out
  <-> 0 <= limit config
      /\ out = firstn (Z.to_nat (limit config)) body.
Proof.
  unfold clip_body.
  destruct (Z.ltb_spec (limit config) (len body)) as [Hlong | Hshort].
  - unfold upto.
    destruct (Z.leb_spec 0 (limit config)) as [H0 | H0]; cbn.
    + destruct (Z.leb_spec (limit config) (len body)); [ | lia].
      split.
      * intros E. inversion E. auto.
      * intros [_ ->]. reflexivity.
    + split; [discriminate | lia].
  - unfold len in *. rewrite firstn_all2 by lia. split.
    + intros E. inversion E. split; [lia | reflexivity].
    + intros [_ ->]. reflexivity.
Qed.

End Clipping.

Section OnConn.

Import Slice zlib Conns Http.

Lemma on_conn_inv {A : Type} (m : M A) (st : State) a st' :
  on_conn m st = Ret (a, st') ->
  exists c, m (st_conn st) = Ret (a, c) /\ st' = set_st_conn c st.
Proof. apply zoom_inv. Qed.

Lemma on_getUnderlyingConn (st : State) s st' :
  on_conn getUnderlyingConn st = Ret (s, st') ->
  s = current (st_conn st) /\ st' = st.
Proof.
  intros E. apply on_conn_inv in E. destruct E as (c & E & ->).
  apply getUnderlyingConn_same in E. destruct E as [-> ->].
  now destruct st.
Qed.

Lemma on_RemoteAddr (st : State) a st' :
  on_conn RemoteAddr st = Ret (a, st') ->
  a = remote (conn (st_conn st)) /\ st' = st.
Proof.
  intros E. apply on_conn_inv in E. destruct E as (c & E & ->).
  apply RemoteAddr_same in E. destruct E as [-> ->].
  now destruct st.
Qed.

Lemma on_modify (f : Conn -> Conn) (st : State) u st' :
  on_conn (modify f) st = Ret (u, st') ->
  st' = set_st_conn (f (st_conn st)) st.
Proof.
  intros E. apply on_conn_inv in E. destruct E as (c & E & ->).
  unfold modify in E. now inversion E.
Qed.

Lemma deref_inv {A : Type} (p : option A) (st : State) a st' :
  deref p st = Ret (a, st') -> p = Some a /\ st' = st.
Proof.
  unfold deref. destruct p as [x|]; intros E; unstep; [auto | discriminate].
Qed.

End OnConn.

Ltac unrun :=
  repeat first
    [ progress unstep
    | match goal with
      | H : Http.on_conn zlib.getUnderlyingConn _ = Ret _ |- _ =>
          apply on_getUnderlyingConn in H; destruct H; subst
      | H : Http.on_conn zlib.RemoteAddr _ = Ret _ |- _ =>
          apply on_RemoteAddr in H; destruct H; subst
      | H : Http.on_conn (zlib.wrote _) _ = Ret _ |- _ =>
          apply on_modify in H; subst
      | H : Http.on_conn (zlib.modify _) _ = Ret _ |- _ =>
          apply on_modify in H; subst
      | H : Http.deref _ _ = Ret _ |- _ =>
          apply deref_inv in H; destruct H as [H ?];
          try (injection H as H); subst
      end ].

Section Exchange.

Import Slice zlib Conns Http.
Local Open Scope st_scope.

(** [makeHTTPRequest] changes nothing; it fails with the error of
    [http.NewRequest], or builds the request and its record. *)
Lemma makeHTTPRequest_inv (w : World) (st : State) r st' :
  makeHTTPRequest w st = Ret (r, st') ->
  st' = st
  /\ match http_NewRequest w (cfg_Method (st_config st)) with
     | Some err => r = (None, None, Some err)
     | None =>
         let config := st_config st in
         let host := target w (st_conn st) in
         r = (Some (request_to host st),
              Some (mkHTTPRequest (cfg_Endpoint config) (cfg_Method config)
                                  (agent config)),
              None)
     end.
Proof.
  unfold makeHTTPRequest. intros E. unrun. cbv zeta in E.
  destruct (http_NewRequest w (cfg_Method (st_config st))) as [err|];
    cbn [is_nil negb] in E.
  - unrun. auto.
  - unrun. unfold request_to, target, agent.
    destruct (0 <? Z.of_nat (String.length (domain (st_conn st))));
      unrun; auto.
Qed.

(** [sendHTTPRequestReadHTTPResponse] hands the request over, and what it
    returns is settled by the answers of the peer. *)
Lemma sendHTTPRequestReadHTTPResponse_inv (w : World) (req : http_Request)
      (st : State) encRes err st' :
  sendHTTPRequestReadHTTPResponse w req st = Ret ((encRes, err), st') ->
  st' = handed w req st
  /\ match write_error w req st with
     | Some e => encRes = None /\ err = Some e
     | None =>
         let config := st_config st in
         let clipped msg :=
           errorString (String.substring 0 (Z.to_nat (limit config)) msg) in
         0 <= limit config
         /\ match reply w req st with
            | inr msg => encRes = None /\ err = Some (clipped msg)
            | inl res =>
                match snd (res_Body res) with
                | Some msg => encRes = None /\ err = Some (clipped msg)
                | None =>
                    let out :=
                      firstn (Z.to_nat (limit config)) (fst (res_Body res)) in
                    encRes
                    = Some (mkHTTPResponse
                              (res_StatusCode res)
                              (String.append
                                 (res_Proto res)
                                 (String.append " " (res_Status res)))
                              (res_ProtoMajor res) (res_ProtoMinor res)
                              (HeadersFromGolangHeaders w (res_Header res))
                              (string_of out)
                              (if 0 <? len out
                               then Some (sha256_Sum w out)
                               else None))
                    /\ err = None
                end
            end
     end.
Proof.
  unfold sendHTTPRequestReadHTTPResponse, handed, write_error, reply, read_as.
  intros E. unrun. cbn [st_asked st_conn set_st_asked st_config] in E.
  destruct (req_Write w (st_asked st ++ [req]) (current (st_conn st)) req)
    as [wire werr] eqn:Ew.
  unrun. cbn [fst snd].
  cbn [st_asked st_conn set_st_asked set_st_conn st_config st_HTTP] in *.
  destruct werr as [e|]; cbn [is_nil negb] in E.
  - unrun. auto.
  - destruct (http_ReadResponse _ _ _ _) as [res|msg].
    + destruct (res_Body res) as [body [msg|]]; cbn [fst snd]; unrun;
        repeat match goal with
          | H : clip_error _ _ = Ret _ |- _ =>
              apply clip_error_Ret in H; destruct H; subst
          | H : clip_body _ _ = Ret _ |- _ =>
              apply clip_body_Ret in H; destruct H; subst
          end;
        auto.
    + unrun.
      match goal with
      | H : clip_error _ _ = Ret _ |- _ =>
          apply clip_error_Ret in H; destruct H; subst
      end.
      auto.
Qed.

Lemma alloc_HTTP_inv (st : State) u st' :
  alloc_HTTP st = Ret (u, st') -> st' = set_st_HTTP (Some (record st)) st.
Proof.
  unfold alloc_HTTP, record. intros E. unrun.
  destruct (st_HTTP st) as [h|] eqn:Eh; unrun; [ | reflexivity].
  destruct st; cbn in *. now subst.
Qed.

Lemma update_HTTP_inv (f : HTTPRequestResponse -> HTTPRequestResponse)
      (st : State) u st' :
  update_HTTP f st = Ret (u, st') ->
  exists h, st_HTTP st = Some h /\ st' = set_st_HTTP (Some (f h)) st.
Proof.
  unfold update_HTTP. intros E. unrun.
  destruct (st_HTTP st) as [h|] eqn:Eh; unrun; [ | discriminate].
  now exists h.
Qed.

(** [makeAndSendHTTPRequest] sends nothing when the request cannot be
    built, and otherwise sends the request for the configured endpoint. *)
Lemma makeAndSendHTTPRequest_inv (w : World) (st : State)
      encReq encRes err st' :
  makeAndSendHTTPRequest w st = Ret ((encReq, encRes, err), st') ->
  match http_NewRequest w (cfg_Method (st_config st)) with
  | Some e => st' = st /\ encReq = None /\ encRes = None /\ err = Some e
  | None =>
      encReq = Some (mkHTTPRequest (cfg_Endpoint (st_config st))
                                   (cfg_Method (st_config st))
                                   (agent (st_config st)))
      /\ sendHTTPRequestReadHTTPResponse
           w (request_to (host_for w st) st) st
         = Ret ((encRes, err), st')
  end.
Proof.
  unfold makeAndSendHTTPRequest. intros E. unrun.
  match goal with
  | H : makeHTTPRequest _ _ = Ret _ |- _ =>
      apply makeHTTPRequest_inv in H; destruct H as [-> Hr]
  end.
  destruct (http_NewRequest w (cfg_Method (st_config st))) as [e|];
    cbv zeta in Hr; subst; cbn [is_nil negb] in E.
  - unrun. auto.
  - unrun. unfold host_for.
    destruct (0 <? Z.of_nat (String.length (cfg_ProxyDomain (st_config st))));
      unrun;
      destruct a2 as [res [e|]]; cbn [is_nil negb] in E; unrun;
      (split; [reflexivity | assumption]).
Qed.

End Exchange.
Section Frames.

Import Slice zlib Conns Http.
Local Open Scope st_scope.

Lemma touched_refl (c : Conn) : touched c c.
Proof.
  exists [], (domain c). destruct c as [[l r ws cl] ? ? ? ? ? ? ? ? ? ? ? ? ? ? ? ? ? ? ? ? ? ?].
  cbn. unfold set_domain, set_conn, log_written. cbn.
  now rewrite app_nil_r.
Qed.

Lemma touched_trans (c1 c2 c3 : Conn) :
  touched c1 c2 -> touched c2 c3 -> touched c1 c3.
Proof.
  intros (w1 & d1 & ->) (w2 & d2 & ->). exists (w1 ++ w2), d2.
  destruct c1 as [[l r ws cl] ? ? ? ? ? ? ? ? ? ? ? ? ? ? ? ? ? ? ? ? ? ?].
  unfold set_domain, set_conn, log_written, on_socket. cbn.
  now rewrite map_app, app_assoc.
Qed.

Lemma touched_wrote (wire : list bytes) (c : Conn) :
  touched c (set_conn (log_written (on_socket wire) (conn c)) c).
Proof.
  exists wire, (domain c).
  now destruct c as [[l r ws cl] ? ? ? ? ? ? ? ? ? ? ? ? ? ? ? ? ? ? ? ? ? ?].
Qed.

Lemma touched_domain (d : string) (c : Conn) : touched c (set_domain d c).
Proof.
  exists [], d.
  destruct c as [[l r ws cl] ? ? ? ? ? ? ? ? ? ? ? ? ? ? ? ? ? ? ? ? ? ?].
  unfold set_domain, set_conn, log_written. cbn.
  now rewrite app_nil_r.
Qed.

Lemma frame_refl (st : State) : frame st st.
Proof.
  split; [apply touched_refl | split].
  - exists (cfg_Endpoint (st_config st)). now destruct (st_config st).
  - exists []. now rewrite app_nil_r.
Qed.

Lemma frame_trans (st1 st2 st3 : State) :
  frame st1 st2 -> frame st2 st3 -> frame st1 st3.
Proof.
  intros (Hc1 & (e1 & He1) & (m1 & Hm1)) (Hc2 & (e2 & He2) & (m2 & Hm2)).
  split; [exact (touched_trans _ _ _ Hc1 Hc2) | split].
  - exists e2. rewrite He2, He1. reflexivity.
  - exists (m1 ++ m2). rewrite Hm2, Hm1. now rewrite app_assoc.
Qed.

Lemma frame_conn (st : State) (c : Conn) :
  touched (st_conn st) c -> frame st (set_st_conn c st).
Proof.
  intros Hc. split; [exact Hc | split].
  - exists (cfg_Endpoint (st_config st)). cbn. now destruct (st_config st).
  - exists []. cbn. now rewrite app_nil_r.
Qed.

Lemma frame_HTTP (st : State) (h : option HTTPRequestResponse) :
  frame st (set_st_HTTP h st).
Proof. exact (frame_refl st). Qed.

Lemma leads_ret {A : Type} (a : A) : St.leads frame (St.ret a).
Proof. intros st a' st' E. unrun. apply frame_refl. Qed.

Lemma leads_get : St.leads frame St.get.
Proof. intros st a' st' E. unrun. apply frame_refl. Qed.

Lemma leads_lift {A : Type} (g : go A) : St.leads frame (St.lift g).
Proof. intros st a' st' E. unrun. apply frame_refl. Qed.

Lemma leads_modify (f : State -> State) :
  (forall st, frame st (f st)) -> St.leads frame (St.modify f).
Proof. intros Hf st a' st' E. unrun. apply Hf. Qed.

Lemma leads_bind {A B : Type} (m : H A) (k : A -> H B) :
  St.leads frame m -> (forall a, St.leads frame (k a)) ->
  St.leads frame (St.bind m k).
Proof.
  intros Hm Hk st b st' E. apply bind_inv in E.
  destruct E as (a & st1 & E1 & E2).
  exact (frame_trans _ _ _ (Hm _ _ _ E1) (Hk _ _ _ _ E2)).
Qed.

Lemma leads_on_conn {A : Type} (m : M A) :
  (forall c a c', m c = Ret (a, c') -> touched c c') ->
  St.leads frame (on_conn m).
Proof.
  intros Hm st a st' E. apply on_conn_inv in E. destruct E as (c & E & ->).
  apply frame_conn. exact (Hm _ _ _ E).
Qed.

Lemma leads_getUnderlyingConn : St.leads frame (on_conn getUnderlyingConn).
Proof.
  apply leads_on_conn. intros c a c' E.
  apply getUnderlyingConn_same in E. destruct E as [_ ->].
  apply touched_refl.
Qed.

Lemma leads_RemoteAddr : St.leads frame (on_conn RemoteAddr).
Proof.
  apply leads_on_conn. intros c a c' E.
  apply RemoteAddr_same in E. destruct E as [_ ->]. apply touched_refl.
Qed.

Lemma leads_wrote (wire : list bytes) :
  St.leads frame (on_conn (wrote (on_socket wire))).
Proof.
  apply leads_on_conn. intros c a c' E. unfold wrote, modify in E.
  inversion E. apply touched_wrote.
Qed.

Lemma leads_set_domain (d : string) :
  St.leads frame (on_conn (modify (set_domain d))).
Proof.
  apply leads_on_conn. intros c a c' E. unfold modify in E.
  inversion E. apply touched_domain.
Qed.

Lemma frame_asked (st : State) (more : list http_Request) :
  frame st (set_st_asked (st_asked st ++ more) st).
Proof.
  split; [apply touched_refl | split].
  - exists (cfg_Endpoint (st_config st)). cbn. now destruct (st_config st).
  - now exists more.
Qed.

Lemma frame_config (st : State) (endpoint : string) :
  frame st (set_st_config (set_cfg_Endpoint endpoint (st_config st)) st).
Proof.
  split; [apply touched_refl | split].
  - now exists endpoint.
  - exists []. cbn. now rewrite app_nil_r.
Qed.

Ltac frames :=
  repeat first
    [ solve [auto]
    | progress cbv zeta
    | apply leads_ret
    | apply leads_get
    | apply leads_lift
    | apply leads_getUnderlyingConn
    | apply leads_RemoteAddr
    | apply leads_wrote
    | apply leads_set_domain
    | apply leads_modify; intros ?;
      first [ apply frame_HTTP | apply frame_asked | apply frame_config ]
    | apply leads_bind; [ | intros ? ]
    | match goal with
      | |- St.leads _ (if ?b then _ else _) => destruct b
      | |- St.leads _ (match ?x with _ => _ end) => destruct x
      end ].

Lemma leads_alloc_HTTP : St.leads frame alloc_HTTP.
Proof. unfold alloc_HTTP. frames. Qed.

Lemma leads_update_HTTP (f : HTTPRequestResponse -> HTTPRequestResponse) :
  St.leads frame (update_HTTP f).
Proof. unfold update_HTTP. frames. Qed.

Lemma leads_deref {A : Type} (p : option A) : St.leads frame (deref p).
Proof. unfold deref. frames. Qed.

Lemma leads_makeHTTPRequest (w : World) :
  St.leads frame (makeHTTPRequest w).
Proof. unfold makeHTTPRequest. frames. Qed.

Lemma leads_sendHTTPRequestReadHTTPResponse (w : World) req :
  St.leads frame (sendHTTPRequestReadHTTPResponse w req).
Proof. unfold sendHTTPRequestReadHTTPResponse. frames. Qed.

Lemma leads_makeAndSendHTTPRequest (w : World) :
  St.leads frame (makeAndSendHTTPRequest w).
Proof.
  pose proof (leads_makeHTTPRequest w).
  pose proof (leads_sendHTTPRequestReadHTTPResponse w).
  pose proof (@leads_deref http_Request).
  unfold makeAndSendHTTPRequest. frames.
Qed.

Lemma leads_doProxy (w : World) : St.leads frame (doProxy w).
Proof.
  pose proof (leads_makeHTTPRequest w).
  pose proof (leads_sendHTTPRequestReadHTTPResponse w).
  pose proof (@leads_deref http_Request).
  pose proof (@leads_deref HTTPRequest).
  pose proof (@leads_deref HTTPResponse).
  pose proof leads_alloc_HTTP.
  pose proof leads_update_HTTP.
  unfold doProxy. frames.
Qed.

Lemma leads_redirects (w : World) (turns : nat) resp :
  St.leads frame (redirects w turns resp).
Proof.
  pose proof (leads_makeAndSendHTTPRequest w).
  pose proof (@leads_deref HTTPResponse).
  pose proof leads_update_HTTP.
  revert resp. induction turns as [|turns IH]; intros resp; cbn [redirects];
    unfold redirect_error; frames.
Qed.

Lemma leads_doHTTP (w : World) : St.leads frame (doHTTP w).
Proof.
  pose proof (leads_makeAndSendHTTPRequest w).
  pose proof (leads_redirects w).
  pose proof leads_alloc_HTTP.
  pose proof leads_update_HTTP.
  unfold doHTTP. frames.
Qed.

Lemma leads_HTTP (w : World) : St.leads frame (HTTP w).
Proof.
  pose proof (leads_doProxy w).
  pose proof (leads_doHTTP w).
  unfold HTTP. frames.
Qed.

End Frames.
Section Redirects.

Import Slice zlib Conns Http.
Local Open Scope st_scope.

Lemma followed_nil (h : HTTPRequestResponse) : followed [] [] h = h.
Proof.
  destruct h. unfold followed, set_RedirectResponses, set_RedirectRequests.
  cbn. now rewrite !app_nil_r.
Qed.

Lemma followed_cons rq rs reqs ress (h : HTTPRequestResponse) :
  followed reqs ress (followed [rq] [rs] h)
  = followed (rq :: reqs) (rs :: ress) h.
Proof.
  destruct h. unfold followed, set_RedirectResponses, set_RedirectRequests.
  cbn. now rewrite <- !app_assoc.
Qed.

(** An exchange that returns no error returns a response. *)
Lemma sendHTTPRequestReadHTTPResponse_ok (w : World) req st encRes st' :
  sendHTTPRequestReadHTTPResponse w req st = Ret ((encRes, None), st') ->
  encRes <> None.
Proof.
  intros E. apply sendHTTPRequestReadHTTPResponse_inv in E.
  destruct E as [_ E].
  destruct (write_error w req st); [destruct E; discriminate | ].
  cbv zeta in E. destruct E as [_ E].
  destruct (reply w req st) as [res|msg]; [ | destruct E; discriminate].
  destruct (snd (res_Body res)); destruct E as [-> E]; discriminate.
Qed.

(** What [makeAndSendHTTPRequest] does to the state: it hands over at
    most one request and leaves the record and the configuration alone;
    without an error it has handed over one request and returns a
    recorded request and a recorded response. *)
Lemma makeAndSendHTTPRequest_state (w : World) (st : State)
      encReq encRes err st' :
  makeAndSendHTTPRequest w st = Ret ((encReq, encRes, err), st') ->
  st_HTTP st' = st_HTTP st
  /\ st_config st' = st_config st
  /\ (exists more, st_asked st' = st_asked st ++ more
                   /\ (List.length more <= 1)%nat
                   /\ (err = None -> List.length more = 1%nat))
  /\ (err = None -> encReq <> None /\ encRes <> None).
Proof.
  intros E. apply makeAndSendHTTPRequest_inv in E.
  destruct (http_NewRequest w (cfg_Method (st_config st))) as [e|].
  - destruct E as (-> & -> & -> & ->).
    split; [reflexivity | split; [reflexivity | split]].
    + exists []. rewrite app_nil_r.
      split; [reflexivity | split; [cbn; lia | discriminate]].
    + discriminate.
  - destruct E as [-> E].
    pose proof (sendHTTPRequestReadHTTPResponse_inv _ _ _ _ _ _ E) as [Hst _].
    split; [now rewrite Hst | split; [now rewrite Hst | split]].
    + eexists. rewrite Hst. cbn [handed st_asked].
      split; [reflexivity | split; [cbn; lia | reflexivity]].
    + intros ->. split; [discriminate | ].
      eapply sendHTTPRequestReadHTTPResponse_ok. exact E.
Qed.

(** The redirect loop appends as many requests as responses, none of
    them nil, at most one per turn, and hands over one request for each
    pair it appends and at most one more, whose exchange failed. *)
Lemma redirects_grow (w : World) (turns : nat) :
  forall resp st err st' h,
    redirects w turns resp st = Ret (err, st') ->
    st_HTTP st = Some h ->
    exists reqs ress more,
      st_HTTP st' = Some (followed reqs ress h)
      /\ List.length reqs = List.length ress
      /\ Forall (fun r => r <> None) reqs
      /\ Forall (fun r => r <> None) ress
      /\ st_asked st' = st_asked st ++ more
      /\ (List.length reqs <= List.length more <= turns)%nat
      /\ (err = None -> List.length more = List.length reqs).
Proof.
  assert (Hstill : forall (st : State) h err (n : nat),
             st_HTTP st = Some h ->
             exists reqs ress more,
               st_HTTP st = Some (followed reqs ress h)
               /\ List.length reqs = List.length ress
               /\ Forall (fun r : option HTTPRequest => r <> None) reqs
               /\ Forall (fun r : option HTTPResponse => r <> None) ress
               /\ st_asked st = st_asked st ++ more
               /\ (List.length reqs <= List.length more <= n)%nat
               /\ (err = @None error ->
                   List.length more = List.length reqs)).
  { intros st h err n Hh. exists [], [], [].
    rewrite followed_nil, app_nil_r. cbn. repeat split; auto; lia. }
  induction turns as [|turns IH]; intros resp st err st' h E Hh;
    cbn [redirects] in E; unrun.
  - destruct (negb _); unrun; now apply Hstill.
  - destruct (negb _); unrun; [now apply Hstill | ].
    match goal with
    | H : assert_string _ = Ret ?loc |- _ => clear H
    end.
    assert (Herror : forall what code tail,
               redirect_error what code tail st = Ret (err, st') ->
               st' = st).
    { unfold redirect_error. intros what code tail Er. now unrun. }
    destruct (String.eqb _ _).
    { apply Herror in E. subst. now apply Hstill. }
    destruct (follows _).
    { destruct (url_Parse w a0) as [[host uri]|perr]; unrun;
        [ | now apply Hstill].
      destruct a3 as [[httpRequest httpResponse] merr].
      match goal with
      | H : makeAndSendHTTPRequest _ _ = Ret _ |- _ =>
          apply makeAndSendHTTPRequest_state in H;
          destruct H as (HH & _ & (more & Hmore & Hle & Hone) & Hok)
      end.
      cbn [st_HTTP st_asked set_st_config set_st_conn] in HH, Hmore.
      destruct merr as [e|]; cbn [is_nil negb] in E; unrun.
      - exists [], [], more. rewrite followed_nil, HH.
        repeat split; auto; try (cbn; lia). discriminate.
      - destruct (Hok eq_refl) as [Hreq Hres].
        repeat match goal with
          | H : update_HTTP _ _ = Ret _ |- _ =>
              apply update_HTTP_inv in H; destruct H as (? & ? & ?); subst
          end.
        cbn [st_HTTP set_st_HTTP] in *.
        match goal with
        | H : redirects _ _ _ _ = Ret _ |- _ =>
            eapply IH in H; [ | reflexivity]
        end.
        destruct E
          as (reqs & ress & more' & G1 & G2 & G3 & G4 & G5 & G6 & G7).
        cbn [st_asked set_st_HTTP] in G5.
        exists (httpRequest :: reqs), (httpResponse :: ress), (more ++ more').
        injection H0 as <-. rewrite HH, Hh in H1. injection H1 as <-.
        pose proof (Hone eq_refl) as Hlen.
        rewrite <- followed_cons, length_app, Hlen, G5, Hmore, app_assoc.
        cbn [List.length].
        repeat split; auto; lia. }
    destruct (StatusCode a =? StatusUseProxy).
    { apply (IH _ _ _ _ _ E) in Hh.
      destruct Hh as (reqs & ress & more & G1 & G2 & G3 & G4 & G5 & G6 & G7).
      exists reqs, ress, more. repeat split; auto; lia. }
    destruct (StatusCode a =? StatusNotModified);
      apply Herror in E; subst; now apply Hstill.
Qed.

(** [doHTTP], taken apart. *)
Lemma doHTTP_grow (w : World) (st : State) err st' :
  doHTTP w st = Ret (err, st') ->
  exists h' reqs ress more,
    st_HTTP st' = Some h'
    /\ RedirectRequests h' = RedirectRequests (record st) ++ reqs
    /\ RedirectResponses h' = RedirectResponses (record st) ++ ress
    /\ ProxyRequest h' = ProxyRequest (record st)
    /\ ProxyResponse h' = ProxyResponse (record st)
    /\ List.length reqs = List.length ress
    /\ Z.of_nat (List.length reqs)
       <= Z.max 0 (cfg_MaxRedirects (st_config st))
    /\ Forall (fun r => r <> None) reqs
    /\ Forall (fun r => r <> None) ress
    /\ st_asked st' = st_asked st ++ more
    /\ Z.of_nat (List.length more)
       <= 1 + Z.max 0 (cfg_MaxRedirects (st_config st))
    /\ (reqs = [] \/ (List.length reqs < List.length more)%nat)
    /\ (err = None -> List.length more = S (List.length reqs))
    /\ ((err <> None /\ reqs = []
         /\ Request h' = Request (record st)
         /\ Response h' = Response (record st))
        \/ (Request h' <> None /\ Response h' <> None /\ more <> [])).
Proof.
  unfold doHTTP. intros E. unrun.
  match goal with
  | H : alloc_HTTP _ = Ret _ |- _ => apply alloc_HTTP_inv in H; subst
  end.
  destruct a0 as [[httpRequest httpResponse] merr].
  match goal with
  | H : makeAndSendHTTPRequest _ _ = Ret _ |- _ =>
      apply makeAndSendHTTPRequest_state in H;
      destruct H as (HH & Hcfg & (more & Hmore & Hle & Hone) & Hok)
  end.
  cbn [st_HTTP st_asked st_config set_st_HTTP] in HH, Hmore, Hcfg.
  destruct merr as [e|]; cbn [is_nil negb] in E; unrun.
  - exists (record st), [], [], more. rewrite !app_nil_r.
    repeat split; auto; try (cbn [List.length]; lia); try discriminate.
    left. repeat split; auto. discriminate.
  - destruct (Hok eq_refl) as [Hreq Hres].
    repeat match goal with
      | H : update_HTTP _ _ = Ret _ |- _ =>
          apply update_HTTP_inv in H; destruct H as (? & ? & ?); subst
      end.
    cbn [st_HTTP set_st_HTTP st_config] in *.
    match goal with
    | H : redirects _ _ _ _ = Ret _ |- _ =>
        eapply redirects_grow in H; [ | reflexivity]
    end.
    destruct E as (reqs & ress & more' & G1 & G2 & G3 & G4 & G5 & G6 & G7).
    cbn [st_asked set_st_HTTP] in G5.
    injection H0 as <-. rewrite HH in H1. injection H1 as <-.
    pose proof (Hone eq_refl) as Hlen.
    eexists _, reqs, ress, (more ++ more'). split; [exact G1 | ].
    rewrite length_app, Hlen, G5, Hmore, app_assoc, Hcfg in *.
    cbn [followed RedirectRequests RedirectResponses ProxyRequest
         ProxyResponse Request Response set_RedirectRequests
         set_RedirectResponses set_Request set_Response].
    repeat split; auto; try lia.
    right. repeat split; auto. destruct more; discriminate.
Qed.

End Redirects.
Section Proxy.

Import Slice zlib Conns Http.
Local Open Scope st_scope.

(** [doProxy], taken apart: unless the request cannot be built, the
    record of the CONNECT request is stored before the request goes
    out. *)
Lemma doProxy_inv (w : World) (st : State) err st' :
  doProxy w st = Ret (err, st') ->
  match http_NewRequest w (cfg_Method (st_config st)) with
  | Some e => st' = st /\ err = Some e
  | None =>
      let h0 := set_ProxyRequest (Some (connect_record st)) (record st) in
      exists encRes perr st1,
        sendHTTPRequestReadHTTPResponse
          w (connect w st) (set_st_HTTP (Some h0) st)
        = Ret ((encRes, perr), st1)
        /\ match perr with
           | Some e => err = Some e /\ st' = st1
           | None =>
               exists r,
                 encRes = Some r
                 /\ st' = set_st_HTTP
                            (Some (set_ProxyResponse (Some r) h0)) st1
                 /\ err = (if StatusCode r =? StatusOK then None
                           else Some (proxy_refused (StatusCode r)))
           end
  end.
Proof.
  unfold doProxy. intros E. unrun.
  match goal with
  | H : makeHTTPRequest _ _ = Ret _ |- _ =>
      apply makeHTTPRequest_inv in H; destruct H as [-> Hr]
  end.
  destruct (http_NewRequest w (cfg_Method (st_config st))) as [e|];
    cbv zeta in Hr; subst; cbn [is_nil negb] in E.
  - unrun. auto.
  - unrun.
    match goal with
    | H : alloc_HTTP _ = Ret _ |- _ => apply alloc_HTTP_inv in H; subst
    end.
    repeat match goal with
      | H : update_HTTP _ _ = Ret _ |- _ =>
          apply update_HTTP_inv in H; destruct H as (? & ? & ?); subst
      end.
    cbn [st_HTTP set_st_HTTP st_config] in *.
    repeat match goal with
      | H : Some _ = Some _ |- _ => injection H as <-
      end.
    destruct a5 as [encRes perr]. exists encRes, perr, s5.
    split; [exact E6 | ].
    pose proof (sendHTTPRequestReadHTTPResponse_inv _ _ _ _ _ _ E6)
      as [Hst _].
    destruct perr as [e|]; cbn [is_nil negb] in E; unrun; [auto | ].
    match goal with
    | H : update_HTTP _ _ = Ret _ |- _ =>
        apply update_HTTP_inv in H; destruct H as (h & Hh & ?); subst
    end.
    unrun. exists a2.
    cbn [handed st_HTTP set_st_HTTP] in Hh.
    injection Hh as <-.
    destruct (StatusCode a2 =? StatusOK); cbn [negb] in E; unrun; auto.
Qed.

End Proxy.
Section Requests.

Import Slice zlib Conns Http.

Lemma before_free (sep : ascii) (s : string) (n : nat) :
  String.get n (before sep s) <> Some sep.
Proof.
  revert n. induction s as [|ch rest IH]; intros n; cbn.
  - now destruct n.
  - destruct (Ascii.eqb ch sep) eqn:Ech.
    + now destruct n.
    + destruct n as [|n]; cbn.
      * intros E. injection E as ->. now rewrite Ascii.eqb_refl in Ech.
      * apply IH.
Qed.

Lemma nonempty (s : string) :
  (0 <? Z.of_nat (String.length s)) = negb (String.eqb s EmptyString).
Proof. now destruct s. Qed.

Lemma agent_nonempty (config : HTTPConfig) : agent config <> EmptyString.
Proof.
  unfold agent. rewrite nonempty.
  destruct (cfg_UserAgent config); cbn; discriminate.
Qed.

End Requests.

(** X23. Unless [http.NewRequest] rejects the method, the request
    [makeAndSendHTTPRequest] hands to the stream is the only one it hands
    over, and it is made of the configuration and the connection: the
    configured method and endpoint, HTTP/1.1, the scheme https exactly on
    a connection marked as TLS, the same host in the [Host] field and in
    the URL.  With a proxy configured that host is the proxy's, cut at its
    first colon (so it holds no port); without a proxy it is the domain of
    the connection, or the host of the remote address when the domain is
    empty.  The user agent is never empty: the configured one, or the
    default.  The recorded request names the same endpoint, method and
    user agent; the record in [grabData] and the configuration are not
    touched. *)
Theorem http_request_shape
        (w : Http.World) (st : Http.State)
        (encReq : option Http.HTTPRequest) (encRes : option Http.HTTPResponse)
        (err : option error) (st' : Http.State) :
  Http.makeAndSendHTTPRequest w st = Ret ((encReq, encRes, err), st') ->
  Http.http_NewRequest w (Http.cfg_Method (Http.st_config st)) = None ->
  let config := Http.st_config st in
  let c := Http.st_conn st in
  exists req,
    Http.st_asked st' = Http.st_asked st ++ [req]
    /\ Http.req_Method req = Http.cfg_Method config
    /\ Http.req_Proto req = "HTTP/1.1"%string
    /\ Http.Scheme (Http.req_URL req)
       = (if zlib.isTls c then "https" else "http")%string
    /\ Http.Path (Http.req_URL req) = Http.cfg_Endpoint config
    /\ Http.Host (Http.req_URL req) = Http.req_Host req
    /\ (Http.cfg_ProxyDomain config <> EmptyString ->
        Http.req_Host req = before ":" (Http.cfg_ProxyDomain config)
        /\ forall n, String.get n (Http.req_Host req) <> Some ":"%char)
    /\ (Http.cfg_ProxyDomain config = EmptyString ->
        Http.req_Host req
        = if String.eqb (zlib.domain c) EmptyString
          then Http.net_SplitHostPort w (zlib.remote (zlib.conn c))
          else zlib.domain c)
    /\ Http.req_UserAgent req <> EmptyString
    /\ (Http.cfg_UserAgent config <> EmptyString ->
        Http.req_UserAgent req = Http.cfg_UserAgent config)
    /\ encReq = Some (Http.mkHTTPRequest (Http.cfg_Endpoint config)
                                         (Http.cfg_Method config)
                                         (Http.req_UserAgent req))
    /\ Http.st_HTTP st' = Http.st_HTTP st
    /\ Http.st_config st' = Http.st_config st.
Proof.
  intros E Hnew config c. apply makeAndSendHTTPRequest_inv in E.
  rewrite Hnew in E. destruct E as [-> E].
  apply sendHTTPRequestReadHTTPResponse_inv in E. destruct E as [-> _].
  exists (Http.request_to (Http.host_for w st) st).
  cbn [Http.handed Http.st_asked Http.st_HTTP Http.st_config
       Http.request_to Http.req_Method Http.req_Proto Http.req_URL
       Http.Scheme Http.Path Http.Host Http.req_Host Http.req_UserAgent].
  repeat split.
  - unfold Http.host_for. rewrite nonempty. fold config.
    destruct (Http.cfg_ProxyDomain config); [contradiction | reflexivity].
  - intros n. unfold Http.host_for. rewrite nonempty. fold config.
    destruct (Http.cfg_ProxyDomain config); [contradiction | ].
    cbn [String.eqb negb]. apply before_free.
  - intros Hproxy. unfold Http.host_for, Http.target.
    fold config. rewrite Hproxy. cbn [String.length Z.of_nat Z.ltb Z.compare].
    rewrite nonempty. fold c. now destruct (String.eqb (zlib.domain c) _).
  - apply agent_nonempty.
  - intros Hua. unfold Http.agent. rewrite nonempty. fold config.
    destruct (Http.cfg_UserAgent config); [contradiction | reflexivity].
Qed.

(** Through a proxy the request names the proxy's host, without the
    port. *)
Lemma http_request_shape_witness :
  exists req,
    Http.st_asked
      (Web.after (Http.makeAndSendHTTPRequest (Web.server Web.page))
                 (Web.start (Web.fetch 1 0 "proxy:8080")))
    = [req]
    /\ Http.req_Host req = "proxy"%string.
Proof.
  destruct (http_request_shape
              (Web.server Web.page) (Web.start (Web.fetch 1 0 "proxy:8080"))
              _ _ _ _ eq_refl eq_refl)
    as (req & Hasked & _ & _ & _ & _ & _ & Hproxy & _).
  exists req. split; [exact Hasked | ].
  now apply Hproxy.
Defined.

Section Bodies.

Import Slice zlib Http.

Lemma bytes_of_string_of (b : bytes) : bytes_of (string_of b) = b.
Proof. apply list_byte_of_string_of_list_byte. Qed.

Lemma len_firstn (n : Z) (b : bytes) :
  0 <= n -> len (firstn (Z.to_nat n) b) = Z.min n (len b).
Proof. intros Hn. unfold len. rewrite length_firstn. lia. Qed.

End Bodies.

(** X24. Once the request was written without an error,
    [sendHTTPRequestReadHTTPResponse] returns only when
    [1024*config.MaxSize] is not negative: with a negative limit it
    panics on a slice expression, whatever the peer answered.  When it
    returns a response, there is no error, the response was read with
    its body, and the recorded body is the front of the body read, cut at
    the limit (all of it when it is within the limit); the digest is
    recorded exactly when the recorded body is not empty, and is the
    digest of the recorded body, not of the body read.  When it returns
    no response, the error carries a message of at most the limit's
    length. *)
Theorem http_response_clipped
        (w : Http.World) (req : Http.http_Request) (st : Http.State) :
  Http.write_error w req st = None ->
  let L := Http.limit (Http.st_config st) in
  (L < 0 ->
   exists msg, Http.sendHTTPRequestReadHTTPResponse w req st = Panic msg)
  /\ forall encRes err st',
       Http.sendHTTPRequestReadHTTPResponse w req st
       = Ret ((encRes, err), st') ->
       0 <= L
       /\ match encRes with
          | Some r =>
              err = None
              /\ exists res body,
                   Http.reply w req st = inl res
                   /\ Http.res_Body res = (body, None)
                   /\ Http.StatusCode r = Http.res_StatusCode res
                   /\ Http.Body r
                      = zlib.string_of (firstn (Z.to_nat L) body)
                   /\ Z.of_nat (String.length (Http.Body r))
                      = Z.min L (Slice.len body)
                   /\ (Slice.len body <= L ->
                       Http.Body r = zlib.string_of body)
                   /\ Http.BodySHA256 r
                      = (if String.eqb (Http.Body r) EmptyString then None
                         else Some (Http.sha256_Sum
                                      w (zlib.bytes_of (Http.Body r))))
          | None =>
              exists m,
                err = Some (errorString m)
                /\ Z.of_nat (String.length m) <= L
          end.
Proof.
  intros Hwrite L.
  assert (Hret : forall encRes err st',
             Http.sendHTTPRequestReadHTTPResponse w req st
             = Ret ((encRes, err), st') ->
             0 <= L
             /\ match encRes with
                | Some r =>
                    err = None
                    /\ exists res body,
                         Http.reply w req st = inl res
                         /\ Http.res_Body res = (body, None)
                         /\ Http.StatusCode r = Http.res_StatusCode res
                         /\ Http.Body r
                            = zlib.string_of (firstn (Z.to_nat L) body)
                         /\ Z.of_nat (String.length (Http.Body r))
                            = Z.min L (Slice.len body)
                         /\ (Slice.len body <= L ->
                             Http.Body r = zlib.string_of body)
                         /\ Http.BodySHA256 r
                            = (if String.eqb (Http.Body r) EmptyString
                               then None
                               else Some (Http.sha256_Sum
                                            w (zlib.bytes_of (Http.Body r))))
                | None =>
                    exists m,
                      err = Some (errorString m)
                      /\ Z.of_nat (String.length m) <= L
                end).
  { intros encRes err st' E.
    apply sendHTTPRequestReadHTTPResponse_inv in E. destruct E as [_ E].
    rewrite Hwrite in E. cbv zeta in E. fold L in E.
    destruct E as [HL E]. split; [exact HL | ].
    assert (Hclip : forall msg,
               Z.of_nat (String.length
                           (String.substring 0 (Z.to_nat L) msg)) <= L).
    { intros msg. rewrite length_substring. lia. }
    destruct (Http.reply w req st) as [res|msg].
    - destruct (Http.res_Body res) as [body [msg|]] eqn:Eb; cbn [fst snd] in E.
      + destruct E as [-> ->]. eexists. split; [reflexivity | apply Hclip].
      + destruct E as [-> ->]. split; [reflexivity | ].
        exists res, body. cbn [Http.StatusCode Http.Body Http.BodySHA256].
        repeat split.
        * exact Eb.
        * rewrite length_string_of. fold (Slice.len (firstn (Z.to_nat L) body)).
          now apply len_firstn.
        * intros Hfit. unfold Slice.len in Hfit.
          rewrite firstn_all2 by lia. reflexivity.
        * rewrite bytes_of_string_of.
          destruct (firstn (Z.to_nat L) body) as [|b0 out]; reflexivity.
    - destruct E as [-> ->]. eexists. split; [reflexivity | apply Hclip]. }
  split; [ | exact Hret].
  intros Hneg.
  destruct (Http.sendHTTPRequestReadHTTPResponse w req st)
    as [[[encRes err] st']|msg] eqn:E.
  - destruct (Hret _ _ _ eq_refl) as [HL _]. lia.
  - now exists msg.
Qed.

(** A page of five bytes under a limit of one kilobyte: it is kept
    whole. *)
Lemma http_response_clipped_witness :
  exists r st',
    Http.sendHTTPRequestReadHTTPResponse
      (Web.server Web.page)
      (Http.request_to "example.org" (Web.start (Web.fetch 1 0 EmptyString)))
      (Web.start (Web.fetch 1 0 EmptyString))
    = Ret ((Some r, None), st')
    /\ Http.Body r = "hello"%string.
Proof.
  eexists. eexists. split; [lazy; reflexivity | ].
  destruct (http_response_clipped
              (Web.server Web.page)
              (Http.request_to "example.org"
                               (Web.start (Web.fetch 1 0 EmptyString)))
              (Web.start (Web.fetch 1 0 EmptyString)) eq_refl)
    as [_ Hret].
  destruct (Hret _ _ _ eq_refl)
    as (_ & _ & res & body & Hreply & Hbody & _ & _ & _ & Hwhole & _).
  vm_compute in Hreply. injection Hreply as <-.
  vm_compute in Hbody. injection Hbody as <-.
  apply Hwhole. vm_compute. discriminate.
Defined.

(** X25. [doHTTP] follows at most [config.MaxRedirects] redirects (none
    when that is zero or negative).  When it returns, [grabData.HTTP]
    is allocated; the redirect requests and the redirect responses it
    held are still there, in front; as many requests as responses were
    appended, at most [MaxRedirects] of each and none of them nil; the
    proxy fields are untouched.  At most [1 + MaxRedirects] requests were
    handed to the stream: one for each recorded redirect after the first
    request, and, when an error is returned, possibly one more whose
    exchange failed and left no record.  Either the first exchange
    failed, and then an error is returned and neither the request nor the
    response was recorded; or both were recorded. *)
Theorem redirects_bounded
        (w : Http.World) (st : Http.State)
        (err : option error) (st' : Http.State) :
  Http.doHTTP w st = Ret (err, st') ->
  exists h' reqs ress more,
    Http.st_HTTP st' = Some h'
    /\ Http.RedirectRequests h'
       = Http.RedirectRequests (Http.record st) ++ reqs
    /\ Http.RedirectResponses h'
       = Http.RedirectResponses (Http.record st) ++ ress
    /\ Http.ProxyRequest h' = Http.ProxyRequest (Http.record st)
    /\ Http.ProxyResponse h' = Http.ProxyResponse (Http.record st)
    /\ List.length reqs = List.length ress
    /\ Z.of_nat (List.length reqs)
       <= Z.max 0 (Http.cfg_MaxRedirects (Http.st_config st))
    /\ Forall (fun r => r <> None) reqs
    /\ Forall (fun r => r <> None) ress
    /\ Http.st_asked st' = Http.st_asked st ++ more
    /\ Z.of_nat (List.length more)
       <= 1 + Z.max 0 (Http.cfg_MaxRedirects (Http.st_config st))
    /\ (reqs = [] \/ (List.length reqs < List.length more)%nat)
    /\ (err = None -> List.length more = S (List.length reqs))
    /\ ((err <> None /\ reqs = []
         /\ Http.Request h' = Http.Request (Http.record st)
         /\ Http.Response h' = Http.Response (Http.record st))
        \/ (Http.Request h' <> None /\ Http.Response h' <> None
            /\ more <> [])).
Proof. apply doHTTP_grow. Qed.

(** The server moves the first request; with at most three redirects
    allowed, one is followed and two requests go out. *)
Lemma redirects_bounded_witness :
  exists h',
    Http.st_HTTP (Web.after (Http.doHTTP (Web.server Web.moved))
                            (Web.start (Web.fetch 1 3 EmptyString)))
    = Some h'
    /\ (List.length (Http.RedirectRequests h') <= 3)%nat.
Proof.
  destruct (redirects_bounded
              (Web.server Web.moved) (Web.start (Web.fetch 1 3 EmptyString))
              _ _ eq_refl)
    as (h' & reqs & ress & more & Hh & Hreqs & _ & _ & _ & _ & Hle & _).
  exists h'. split; [exact Hh | ].
  rewrite Hreqs. cbn in Hle |- *. lia.
Defined.

(** X26. With a proxy configured, and unless [http.NewRequest] rejects
    the method, [HTTP] first hands over a CONNECT request whose path is
    the proxy domain, and records it as the proxy request before it goes
    out (so the record is there whatever happens to the exchange).  The
    request proper is sent only through a proxy that answered 200: if a
    second request went out, or if [HTTP] returned no error, the recorded
    proxy response has status 200.  On a fresh record, a proxy response
    with another status means that the error names that status, that
    nothing else was sent and that no request was recorded. *)
Theorem proxy_connect_gate
        (w : Http.World) (st : Http.State)
        (err : option error) (st' : Http.State) :
  Http.HTTP w st = Ret (err, st') ->
  Http.cfg_ProxyDomain (Http.st_config st) <> EmptyString ->
  Http.http_NewRequest w (Http.cfg_Method (Http.st_config st)) = None ->
  exists h' first rest,
    Http.st_HTTP st' = Some h'
    /\ Http.st_asked st' = Http.st_asked st ++ first :: rest
    /\ Http.req_Method first = "CONNECT"%string
    /\ Http.Path (Http.req_URL first)
       = Http.cfg_ProxyDomain (Http.st_config st)
    /\ Http.ProxyRequest h'
       = Some (Http.mkHTTPRequest
                 (Http.cfg_ProxyDomain (Http.st_config st)) "CONNECT"
                 (Http.req_UserAgent first))
    /\ (rest <> [] \/ err = None ->
        exists r, Http.ProxyResponse h' = Some r
                  /\ Http.StatusCode r = Http.StatusOK)
    /\ (Http.st_HTTP st = None ->
        forall r,
          Http.ProxyResponse h' = Some r ->
          Http.StatusCode r <> Http.StatusOK ->
          err = Some (Http.proxy_refused (Http.StatusCode r))
          /\ rest = [] /\ Http.Request h' = None).
Proof.
  intros E Hproxy Hnew. unfold Http.HTTP in E.
  apply bind_inv in E. destruct E as (st_ & st0 & Eget & E).
  apply get_inv in Eget. destruct Eget as [-> ->].
  apply bind_inv in E. destruct E as (perr0 & st1 & Edo & E).
  cbv beta in Edo, E. rewrite nonempty in Edo.
  destruct (String.eqb (Http.cfg_ProxyDomain (Http.st_config st)) EmptyString)
    eqn:Eproxy; [apply String.eqb_eq in Eproxy; contradiction | ].
  cbn [negb] in Edo. apply doProxy_inv in Edo. rewrite Hnew in Edo.
  cbv zeta in Edo. destruct Edo as (encRes & perr & st2 & Esend & Hperr).
  apply sendHTTPRequestReadHTTPResponse_inv in Esend.
  destruct Esend as [-> _].
  destruct perr as [e|].
  - destruct Hperr as [-> ->]. cbn [zlib.is_nil negb] in E.
    apply ret_inv in E. destruct E as [-> ->].
    eexists _, (Http.connect w st), [].
    cbn [Http.handed Http.st_HTTP Http.set_st_HTTP Http.st_asked
         Http.ProxyRequest Http.set_ProxyRequest Http.ProxyResponse].
    split; [reflexivity | ]. split; [reflexivity | ].
    split; [reflexivity | ]. split; [reflexivity | ].
    split; [reflexivity | ]. split.
    + intros [Hrest | Herr]; [now elim Hrest | discriminate].
    + intros Hfresh r Hr. unfold Http.record in Hr. rewrite Hfresh in Hr.
      discriminate.
  - destruct Hperr as (r & -> & -> & ->).
    destruct (Http.StatusCode r =? Http.StatusOK) eqn:Ecode;
      cbn [zlib.is_nil negb] in E.
    + apply doHTTP_grow in E.
      destruct E as (h' & reqs & ress & more & Hh & _ & _ & Hpreq & Hpres
                     & _ & _ & _ & _ & Hasked & _).
      cbn [Http.record Http.st_HTTP Http.set_st_HTTP Http.handed
           Http.st_asked Http.ProxyRequest Http.ProxyResponse
           Http.set_ProxyRequest Http.set_ProxyResponse] in Hpreq, Hpres, Hasked.
      exists h', (Http.connect w st), more.
      rewrite <- app_assoc in Hasked. apply Z.eqb_eq in Ecode.
      split; [exact Hh | ]. split; [exact Hasked | ].
      split; [reflexivity | ]. split; [reflexivity | ].
      split; [exact Hpreq | ]. split.
      * intros _. now exists r.
      * intros _ r' Hr' Hcode. rewrite Hpres in Hr'. injection Hr' as <-.
        contradiction.
    + apply ret_inv in E. destruct E as [-> ->].
      eexists _, (Http.connect w st), [].
      cbn [Http.handed Http.st_HTTP Http.set_st_HTTP Http.st_asked
           Http.ProxyRequest Http.set_ProxyRequest Http.ProxyResponse
           Http.set_ProxyResponse].
      split; [reflexivity | ]. split; [reflexivity | ].
      split; [reflexivity | ]. split; [reflexivity | ].
      split; [reflexivity | ]. split.
      * intros [Hrest | Herr]; [now elim Hrest | discriminate].
      * intros Hfresh r' Hr' _. injection Hr' as <-.
        split; [reflexivity | split; [reflexivity | ]].
        unfold Http.record. rewrite Hfresh. reflexivity.
Qed.

(** Through a proxy that answers 301 to CONNECT: the error names the
    status, one request went out, no request is recorded. *)
Lemma proxy_connect_gate_witness :
  exists h',
    Http.st_HTTP (Web.after (Http.HTTP (Web.server Web.moved))
                            (Web.start (Web.fetch 1 3 "proxy:8080")))
    = Some h'
    /\ Http.Request h' = None.
Proof.
  destruct (proxy_connect_gate
              (Web.server Web.moved) (Web.start (Web.fetch 1 3 "proxy:8080"))
              _ _ eq_refl ltac:(discriminate) eq_refl)
    as (h' & first & rest & Hh & _ & _ & _ & _ & _ & Hrefused).
  exists h'. split; [exact Hh | ].
  vm_compute in Hh. injection Hh as <-.
  refine (proj2 (proj2 (Hrefused eq_refl _ eq_refl _))).
  vm_compute. discriminate.
Defined.

(** X27. Whatever the peer answers, [HTTP] and the methods under it do
    three things to the connection and nothing else: they write to the
    socket, they assign [domain] (when a redirect is followed), and they
    fill [grabData.HTTP].  The TLS mark, the TLS stream, the other fields
    of the result record and every setting are as before; of the
    configuration only the endpoint changes.  So the call is an instance
    of the exchange with the outside world that the runs of calls use for
    [HTTP]: an environment that answers with the same error, domain and
    written bytes leaves the same connection, but for the opaque log it
    stores in [grabData.HTTP]. *)
Theorem http_refines_exchange
        (w : Http.World) (st : Http.State)
        (err : option error) (st' : Http.State) :
  Http.HTTP w st = Ret (err, st') ->
  let c := Http.st_conn st in
  let c' := Http.st_conn st' in
  (exists more, Http.st_asked st' = Http.st_asked st ++ more)
  /\ (exists endpoint,
         Http.st_config st'
         = Http.set_cfg_Endpoint endpoint (Http.st_config st))
  /\ zlib.isTls c' = zlib.isTls c
  /\ zlib.tlsConn c' = zlib.tlsConn c
  /\ zlib.grabData c' = zlib.grabData c
  /\ (forall s, Conns.setting s c' = Conns.setting s c)
  /\ exists wire,
       zlib.written (zlib.conn c')
       = zlib.written (zlib.conn c) ++ zlib.on_socket wire
       /\ forall (e : zlib.Env) (config : foreign) (out : zlib.Outcome),
            zlib.http_exchange e config (zlib.domain c) (zlib.isTls c)
            = Ret out ->
            zlib.out_err out = err ->
            zlib.out_domain out = zlib.domain c' ->
            zlib.out_wire out = wire ->
            zlib.HTTP e config c
            = Ret (err,
                   zlib.set_grabData
                     (zlib.set_gd_HTTP (zlib.out_log out) (zlib.grabData c'))
                     c').
Proof.
  intros E c c'. apply leads_HTTP in E.
  destruct E as ((wire & d & Hc) & Hconfig & Hasked).
  fold c c' in Hc.
  split; [exact Hasked | ]. split; [exact Hconfig | ].
  rewrite Hc.
  split; [reflexivity | ]. split; [reflexivity | ].
  split; [reflexivity | ].
  split; [intros s; destruct s; reflexivity | ].
  exists wire. split; [reflexivity | ].
  intros e config out Hout Herr Hd Hwire.
  unfold zlib.HTTP, zlib.bind, zlib.get. rewrite Hout. cbn [zlib.lift].
  unfold zlib.wrote, zlib.modify_grabData, zlib.modify, zlib.ret.
  rewrite Herr, Hwire. cbn [zlib.domain zlib.set_domain] in Hd. rewrite Hd.
  destruct c as [[l r ws cl] ? ? ? ? ? ? ? ? ? ? ? ? ? ? ? ? ? ? ? ? ? ?].
  reflexivity.
Qed.

(** A redirect followed on the dialled connection: it is still in
    plaintext. *)
Lemma http_refines_exchange_witness :
  zlib.isTls (Http.st_conn
                (Web.after (Http.HTTP (Web.server Web.moved))
                           (Web.start (Web.fetch 1 3 EmptyString))))
  = false.
Proof.
  exact (proj1 (proj2 (proj2 (http_refines_exchange
                                (Web.server Web.moved)
                                (Web.start (Web.fetch 1 3 EmptyString))
                                _ _ eq_refl)))).
Defined.

Section Codes.

Import Slice zlib Conns Http.
Local Open Scope st_scope.

Lemma http_RemoteAddr (st : State) :
  usable (st_conn st) ->
  on_conn RemoteAddr st = Ret (remote (conn (st_conn st)), st).
Proof.
  intros Hc. unfold on_conn, St.zoom.
  assert (E : RemoteAddr (st_conn st)
              = Ret (remote (conn (st_conn st)), st_conn st)).
  { destruct Hc as [Hplain | Hest];
      [now apply RemoteAddr_plain | now apply RemoteAddr_established]. }
  rewrite E. now destruct st.
Qed.

(** A redirect whose status is not one of the five that are followed
    leaves the state alone, however many turns are left. *)
Lemma redirects_not_followed (w : World) (res : HTTPResponse) (st : State)
      (location : string) :
  usable (st_conn st) ->
  isRedirect w res = true ->
  canRedirectWithConn w res (st_conn st) = true ->
  index (Headers res) "location" = Some (VString location) ->
  location <> EmptyString ->
  follows (StatusCode res) = false ->
  forall turns,
    redirects w (S turns) (Some res) st
    = Ret (verdict (StatusCode res) (st_conn st), st).
Proof.
  intros Hc Hred Hcan Hloc Hne Hcode.
  assert (Hempty : String.eqb location EmptyString = false)
    by now apply String.eqb_neq.
  assert (Hzero : redirects w 0 (Some res) st = Ret (None, st)).
  { cbn [redirects deref]. unfold St.bind, St.ret, St.get.
    now rewrite Hred, Hcan. }
  assert (Hstep : forall n,
             redirects w (S n) (Some res) st
             = if StatusCode res =? StatusUseProxy
               then redirects w n (Some res) st
               else Ret (verdict (StatusCode res) (st_conn st), st)).
  { intros n. cbn [redirects deref]. unfold St.bind at 1, St.ret at 1.
    unfold St.bind at 1, St.get at 1. rewrite Hred, Hcan. cbn [andb negb].
    unfold St.bind at 1, St.lift at 1. rewrite Hloc. cbn [assert_string].
    rewrite Hempty, Hcode. unfold verdict.
    destruct (StatusCode res =? StatusUseProxy); [reflexivity | ].
    destruct (StatusCode res =? StatusNotModified);
      unfold redirect_error, St.bind; rewrite (http_RemoteAddr _ Hc);
      reflexivity. }
  assert (Hproxy : (StatusCode res =? StatusUseProxy) = true ->
                   forall n, redirects w n (Some res) st = Ret (None, st)).
  { intros H305 n. induction n as [|n IH]; [exact Hzero | ].
    rewrite Hstep, H305. exact IH. }
  intros turns. rewrite Hstep.
  destruct (StatusCode res =? StatusUseProxy) eqn:H305; [ | reflexivity].
  rewrite (Hproxy eq_refl). unfold verdict. now rewrite H305.
Qed.

(** A redirect that is followed: the connection and the configuration
    point to the location before the request for it is made. *)
Lemma redirects_followed (w : World) (res : HTTPResponse) (st : State)
      (location : string) (turns : nat) err st' :
  isRedirect w res = true ->
  canRedirectWithConn w res (st_conn st) = true ->
  index (Headers res) "location" = Some (VString location) ->
  location <> EmptyString ->
  follows (StatusCode res) = true ->
  redirects w (S turns) (Some res) st = Ret (err, st') ->
  match url_Parse w location with
  | inr perr => err = Some perr /\ st' = st
  | inl (host, uri) =>
      let st1 := pointed host uri st in
      match http_NewRequest w (cfg_Method (st_config st)) with
      | Some e => err = Some e /\ st' = st1
      | None =>
          (exists rest,
              st_asked st'
              = st_asked st ++ request_to (host_for w st1) st1 :: rest)
          /\ (turns = O ->
              domain (st_conn st') = host
              /\ cfg_Endpoint (st_config st') = uri)
      end
  end.
Proof.
  intros Hred Hcan Hloc Hne Hcode E.
  assert (Hempty : String.eqb location EmptyString = false)
    by now apply String.eqb_neq.
  cbn [redirects deref] in E. unfold St.bind at 1, St.ret at 1 in E.
  unfold St.bind at 1, St.get at 1 in E.
  rewrite Hred, Hcan in E. cbn [andb negb] in E.
  unfold St.bind at 1, St.lift at 1 in E. rewrite Hloc in E.
  cbn [assert_string] in E. rewrite Hempty, Hcode in E.
  destruct (url_Parse w location) as [[host uri]|perr].
  - apply bind_inv in E. destruct E as (u1 & s1 & E1 & E).
    apply on_modify in E1. subst s1.
    apply bind_inv in E. destruct E as (u2 & s2 & E2 & E).
    apply modify_inv in E2. subst s2.
    change (set_st_config _ _) with (pointed host uri st) in E.
    apply bind_inv in E. destruct E as ([[rq rs] merr] & s3 & E3 & E).
    apply makeAndSendHTTPRequest_inv in E3.
    change (cfg_Method (st_config (pointed host uri st)))
      with (cfg_Method (st_config st)) in E3.
    cbv zeta.
    destruct (http_NewRequest w (cfg_Method (st_config st))) as [e|].
    + destruct E3 as (-> & -> & -> & ->). cbn [is_nil negb] in E.
      apply ret_inv in E. destruct E as [-> ->]. auto.
    + destruct E3 as [-> E3].
      apply sendHTTPRequestReadHTTPResponse_inv in E3.
      destruct E3 as [-> _]. cbv beta iota in E.
      destruct merr as [e|]; cbn [is_nil negb] in E.
      * apply ret_inv in E. destruct E as [-> ->].
        split; [now exists [] | ]. intros _. split; reflexivity.
      * apply bind_inv in E. destruct E as (u4 & s4 & E4 & E).
        apply update_HTTP_inv in E4. destruct E4 as (h4 & Hh4 & ->).
        apply bind_inv in E. destruct E as (u5 & s5 & E5 & E).
        apply update_HTTP_inv in E5. destruct E5 as (h5 & Hh5 & ->).
        split.
        -- eapply redirects_grow in E; [ | reflexivity].
           destruct E as (reqs & ress & more & _ & _ & _ & _ & Hasked & _).
           exists more. rewrite Hasked.
           cbn [st_asked set_st_HTTP handed pointed].
           now rewrite <- app_assoc.
        -- intros ->. cbn [redirects] in E. unrun.
           destruct (negb _); unrun; split; reflexivity.
  - apply ret_inv in E. destruct E as [-> ->]. auto.
Qed.

End Codes.

(** X30. In the redirect loop, with a turn left and a response that
    counts as a redirect, can be followed on this connection and carries
    a location that is not empty: only the statuses 300, 301, 302, 303
    and 307 are followed.  For any other status nothing is sent and
    nothing changes: 305 is passed over in silence (the loop returns no
    error), 304 and every other status (308 among them) end the loop with
    an error that names the status, the domain and the remote address.
    For a status that is followed, a location that does not parse ends
    the loop with the parser's error and no change; otherwise the
    connection's domain and the caller's [config.Endpoint] are assigned
    from the location before the request is built, so they stay assigned
    when [http.NewRequest] then rejects the method, and the next request
    handed over is the one for the new endpoint. *)
Theorem redirect_status_codes
        (w : Http.World) (res : Http.HTTPResponse) (st : Http.State)
        (location : string) (turns : nat) :
  Conns.usable (Http.st_conn st) ->
  Http.isRedirect w res = true ->
  Http.canRedirectWithConn w res (Http.st_conn st) = true ->
  Http.index (Http.Headers res) "location" = Some (Http.VString location) ->
  location <> EmptyString ->
  (Http.follows (Http.StatusCode res) = false ->
   Http.redirects w (S turns) (Some res) st
   = Ret (Http.verdict (Http.StatusCode res) (Http.st_conn st), st))
  /\ (Http.follows (Http.StatusCode res) = true ->
      forall err st',
        Http.redirects w (S turns) (Some res) st = Ret (err, st') ->
        match Http.url_Parse w location with
        | inr perr => err = Some perr /\ st' = st
        | inl (host, uri) =>
            let st1 := Http.pointed host uri st in
            match Http.http_NewRequest
                    w (Http.cfg_Method (Http.st_config st)) with
            | Some e => err = Some e /\ st' = st1
            | None =>
                (exists rest,
                    Http.st_asked st'
                    = Http.st_asked st
                      ++ Http.request_to (Http.host_for w st1) st1 :: rest)
                /\ (turns = O ->
                    zlib.domain (Http.st_conn st') = host
                    /\ Http.cfg_Endpoint (Http.st_config st') = uri)
            end
        end).
Proof.
  intros Hc Hred Hcan Hloc Hne. split.
  - intros Hcode.
    now apply (redirects_not_followed w res st location Hc Hred Hcan Hloc Hne).
  - intros Hcode err st' E.
    exact (redirects_followed w res st location turns err st'
                              Hred Hcan Hloc Hne Hcode E).
Qed.

(** A response with status 308 is not followed: the loop ends with an
    error and nothing is sent. *)
Lemma redirect_status_codes_witness :
  Http.redirects (Web.server Web.page) 3 (Some Web.permanent)
                 (Web.start (Web.fetch 1 3 EmptyString))
  = Ret (Some (errorString
                 "Invalid redirect response code: 308 from  (192.0.2.25:25)"),
         Web.start (Web.fetch 1 3 EmptyString)).
Proof.
  refine (proj1 (redirect_status_codes
                   (Web.server Web.page) Web.permanent
                   (Web.start (Web.fetch 1 3 EmptyString))
                   "http://example.org/" 2 _ eq_refl eq_refl eq_refl _)
                eq_refl).
  - left. reflexivity.
  - discriminate.
Defined.

(* ===================================================================== *)
(** * Further properties: the Modbus probe                                 *)
(* ===================================================================== *)

Section WriteLoop.

Import Slice zlib Conns Modbus.
Local Open Scope st_scope.

Lemma int64_small (x : Z) : - 2 ^ 63 <= x < 2 ^ 63 -> int64 x = x.
Proof. intros Hx. unfold int64. rewrite Z.mod_small; lia. Qed.

Lemma modbus_getUnderlyingConn (st : State) :
  usable (st_conn st) ->
  on_conn getUnderlyingConn st = Ret (current (st_conn st), st).
Proof.
  intros Hc. unfold on_conn, St.zoom.
  rewrite (getUnderlyingConn_usable _ Hc). now destruct st.
Qed.

Variable world : World.
Variable event : ModbusEvent.
Variable data : bytes.

Hypothesis Hprogress : progresses world.
Hypothesis Hdata : len data < 2 ^ 63.

(** With a socket that makes progress the loop ends within as many turns
    as there are bytes left: by a failed write, the event stored as it
    is, or with every byte taken.  It hands the socket nothing but what
    is left of the request. *)
Lemma write_loop_ends (turns : nat) :
  forall (i : nat) (w : Z) (st : State),
    usable (st_conn st) ->
    0 <= w <= len data ->
    (Z.to_nat (len data - w) <= turns)%nat ->
    exists flow ws,
      write_loop world event data turns i w st
      = Ret (flow,
             mkState (set_conn (log_written ws (conn (st_conn st)))
                               (st_conn st))
                     (match flow with
                      | Returned _ _ => Some event
                      | _ => st_Modbus st
                      end))
      /\ Forall (fun sb => fst sb = current (st_conn st)
                           /\ exists k, 0 <= k < len data
                                        /\ snd sb = skipn (Z.to_nat k) data)
                ws
      /\ match flow with
         | Finished w' => w' = len data
         | Returned _ err =>
             err = errors_New "Could not write modbus request"
             /\ ws <> []
         | Unfinished => False
         end.
Proof.
  induction turns as [|turns IH]; intros i w st Hc Hw Hturns;
    cbn [write_loop].
  - assert (w = len data) by lia. subst w.
    rewrite Z.ltb_irrefl. cbn [negb].
    exists (Finished (len data)), []. split; [ | split; [constructor | auto]].
    unfold St.ret. f_equal. f_equal.
    destruct st as [[[l r ws cl] ? ? ? ? ? ? ? ? ? ? ? ? ? ? ? ? ? ? ? ? ? ?] ?].
    unfold set_conn, log_written. cbn. now rewrite app_nil_r.
  - destruct (Z.ltb_spec w (len data)) as [Hlt | Hge]; cbn [negb].
    + unfold St.bind at 1. rewrite (modbus_getUnderlyingConn _ Hc).
      unfold St.bind at 1, St.lift.
      rewrite (from_Ret data w) by lia.
      set (rest := skipn (Z.to_nat w) data).
      assert (Hrest : rest <> []).
      { intros Hnil. apply (f_equal (@List.length byte)) in Hnil.
        unfold rest in Hnil. rewrite length_skipn in Hnil.
        unfold len in *. cbn in Hnil. lia. }
      assert (Hlen : len rest = len data - w).
      { unfold rest, len. rewrite length_skipn. unfold len in *. lia. }
      pose proof (Hprogress i (current (st_conn st)) rest Hrest) as Hstep.
      destruct (net_Write (socket world i) (current (st_conn st)) rest)
        as [written err].
      cbn [fst snd] in Hstep.
      unfold St.bind at 1, on_conn, St.zoom, wrote, modify.
      cbn [st_conn set_st_conn].
      destruct err as [e|]; cbn [is_nil negb].
      * eexists (Returned _ _), [(current (st_conn st), rest)].
        split; [reflexivity | split].
        -- constructor; [ | constructor]. cbn [fst snd].
           split; [reflexivity | ]. exists w. split; [lia | reflexivity].
        -- split; [reflexivity | discriminate].
      * specialize (Hstep eq_refl).
        rewrite int64_small by lia.
        match goal with
        | |- context [write_loop _ _ _ _ _ _ ?s] => set (st1 := s)
        end.
        destruct (IH (S i) (w + written) st1) as (flow & ws & E & Hws & Hflow).
        { exact Hc. }
        { lia. }
        { lia. }
        exists flow, ((current (st_conn st), rest) :: ws).
        split; [ | split].
        -- rewrite E. unfold st1. cbn [st_conn st_Modbus].
           f_equal. f_equal. f_equal.
           destruct st
             as [[[l r ws0 cl] ? ? ? ? ? ? ? ? ? ? ? ? ? ? ? ? ? ? ? ? ? ?] ?].
           unfold set_conn, log_written. cbn.
           now rewrite <- app_assoc.
        -- constructor; [ | exact Hws]. cbn [fst snd].
           split; [reflexivity | ]. exists w. split; [lia | reflexivity].
        -- destruct flow; auto. destruct Hflow as [-> _].
           split; [reflexivity | discriminate].
    + assert (w = len data) by lia. subst w.
      exists (Finished (len data)), [].
      split; [ | split; [constructor | auto]].
      unfold St.ret. f_equal. f_equal.
      destruct st
        as [[[l r ws cl] ? ? ? ? ? ? ? ? ? ? ? ? ? ? ? ? ? ? ? ? ? ?] ?].
      unfold set_conn, log_written. cbn. now rewrite app_nil_r.
Qed.

End WriteLoop.

(** X28. With a socket that makes progress (a write that returns no
    error takes at least one byte and no more than it was handed), a
    request that fits an [int], and a response that is not nil,
    [SendModbusEcho] returns after at most as many writes as the request
    has bytes.  It hands the socket nothing but what is left of the
    request, beginning at the bytes already taken, and changes nothing
    else of the connection.  Either a write failed: then the error is
    "Could not write modbus request" whatever the socket's error was, and
    the event recorded is the empty one; or every write succeeded: then
    the count returned is the length of the request, the error is the one
    of [GetModbusResponse], and the event recorded is the parsed
    response. *)
Theorem modbus_echo_ends
        (world : Modbus.World) (turns : nat) (st : Modbus.State) :
  Conns.usable (Modbus.st_conn st) ->
  Modbus.progresses world ->
  Slice.len (Modbus.echo world) < 2 ^ 63 ->
  (List.length (Modbus.echo world) <= turns)%nat ->
  (forall c, fst (Modbus.GetModbusResponse world c) <> None) ->
  exists w err st' ws,
    Modbus.SendModbusEcho world turns st = Ret (Some (w, err), st')
    /\ Modbus.st_conn st'
       = zlib.set_conn
           (zlib.log_written ws (zlib.conn (Modbus.st_conn st)))
           (Modbus.st_conn st)
    /\ Forall (fun sb =>
                 fst sb = Conns.current (Modbus.st_conn st)
                 /\ exists k,
                      0 <= k < Slice.len (Modbus.echo world)
                      /\ snd sb = skipn (Z.to_nat k) (Modbus.echo world))
              ws
    /\ ((err = zlib.errors_New "Could not write modbus request"
         /\ ws <> []
         /\ Modbus.st_Modbus st' = Some Modbus.new_ModbusEvent)
        \/ (w = Slice.len (Modbus.echo world)
            /\ exists res,
                 Modbus.GetModbusResponse world (Modbus.st_conn st')
                 = (Some res, err)
                 /\ Modbus.st_Modbus st'
                    = Some (Modbus.event_of world res))).
Proof.
  intros Hc Hprogress Hdata Hturns Hres.
  destruct (write_loop_ends world Modbus.new_ModbusEvent (Modbus.echo world)
                            Hprogress Hdata turns 0%nat 0 st Hc)
    as (flow & ws & E & Hws & Hflow).
  { unfold Slice.len. lia. }
  { unfold Slice.len. lia. }
  unfold Modbus.SendModbusEcho. fold (Modbus.echo world).
  unfold Modbus.echo at 1.
  destruct (Modbus.MarshalBinary world _) as [data merr] eqn:Em.
  assert (Hecho : Modbus.echo world = data)
    by (unfold Modbus.echo; now rewrite Em).
  rewrite Hecho in *. unfold St.bind at 1. rewrite E.
  destruct flow as [w err | w | ]; [ | | contradiction].
  - destruct Hflow as [-> Hne].
    eexists _, _, _, ws. split; [reflexivity | ].
    split; [reflexivity | ]. split; [exact Hws | ].
    left. auto.
  - subst w. unfold St.bind at 1, St.get. cbn [Modbus.st_conn].
    specialize (Hres (zlib.set_conn
                        (zlib.log_written ws (zlib.conn (Modbus.st_conn st)))
                        (Modbus.st_conn st))).
    destruct (Modbus.GetModbusResponse world _) as [[res|] rerr] eqn:Eres;
      [ | now elim Hres].
    eexists _, _, _, ws. split; [reflexivity | ].
    split; [reflexivity | ]. split; [exact Hws | ].
    right. split; [reflexivity | ]. exists res.
    cbn [Modbus.st_conn Modbus.st_Modbus Modbus.set_st_Modbus].
    split; [exact Eres | reflexivity].
Qed.

(** A request of five bytes on a socket that takes two bytes at a time:
    three writes, and five bytes counted. *)
Lemma modbus_echo_ends_witness :
  exists w err st' ws,
    Modbus.SendModbusEcho (Modbus.device [x01; x02; x03; x04; x05] 2 9)
                          5 Modbus.start
    = Ret (Some (w, err), st')
    /\ Modbus.st_conn st'
       = zlib.set_conn
           (zlib.log_written ws (zlib.conn (Modbus.st_conn Modbus.start)))
           (Modbus.st_conn Modbus.start).
Proof.
  destruct (modbus_echo_ends
              (Modbus.device [x01; x02; x03; x04; x05] 2 9) 5 Modbus.start)
    as (w & err & st' & ws & E & Hconn & _).
  - left. reflexivity.
  - intros i s b Hb _. cbn.
    destruct b; [contradiction | ]. unfold Slice.len. cbn [List.length]. lia.
  - vm_compute. reflexivity.
  - vm_compute. lia.
  - intros c. cbn. discriminate.
  - exists w, err, st', ws. split; [exact E | exact Hconn].
Defined.

(* ===================================================================== *)
(** * Further properties: the deadlines                                    *)
(* ===================================================================== *)

Section Cached.

Import zlib Upgrade Conns Deadlines.
Local Open Scope conn_scope.

(** A property of the connection that depends on the cached deadlines
    only. *)
Variable I : Conn -> Prop.

Hypothesis I_frame :
  forall c c',
    readDeadline c' = readDeadline c ->
    writeDeadline c' = writeDeadline c ->
    I c -> I c'.










End Cached.

Section CachedDeadlines.

Import zlib Conns Deadlines.



End CachedDeadlines.


